(** * Devbox: environment composition, script files and package intent

    A shallow embedding of the [impl] package of devbox (type [Devbox] and
    its methods) and of the [devbox shell] command of [internal/boxcli].

    The Go code talks to many collaborators (nix, the plugin manager, the
    file system, the process environment).  Their answers are gathered in
    a record [Host]; everything the code itself decides is a function of
    the [Host] and of the mutable [World] (the in-memory configuration,
    devbox.json on disk, the scripts directory and the trace of effects). *)

From stdpp Require Import gmap strings list fin_maps.
From Stdlib Require Import Ascii String.

Local Open Scope string_scope.
Local Open Scope list_scope.
Local Open Scope stdpp_scope.

(** The line feed of Go's "\n". *)
Definition nl : string := String (ascii_of_nat 10) EmptyString.

(** ** Errors *)

(** Go [error] values.  [errors.WithStack] only attaches a stack trace and
    is the identity here.  A failed type assertion is a run-time panic; all
    callers of the panicking code return at once when they see an error, so
    a panic travels along the error channel under its own constructor. *)
Inductive error : Type :=
  | ErrPackageNotFound (pkg : string)
      (* errors.WithMessage(nix.ErrPackageNotFound, pkg) *)
  | ErrCollaborator (what : string)
      (* an error value handed back by a collaborator *)
  | ErrWrap (e : error) (msg : string)
      (* errors.Wrap(err, msg) *)
  | ErrKeyval (kv : string)
      (* errors.Errorf: expected = in keyval: kv *)
  | ErrEmptyCommand (cmds : list string)
      (* errors.Errorf("cannot execute empty command: %v", cmds) *)
  | ErrShellInception (cmdPath : string)
      (* usererr.New("You are already in an active %[1]s. ...") *)
  | ErrScriptNotFound (name : string)
      (* usererr.New("unable to find a script with name %s", ...) *)
  | ErrPanic (what : string).

Inductive result (A : Type) : Type :=
  | Ok (a : A)
  | Err (e : error).
Arguments Ok {A} a.
Arguments Err {A} e.

(** ** Configuration and collaborators *)

(** installMode is an enum for helping with ensurePackagesAreInstalled. *)
Inductive installMode : Type := install | uninstall | ensure.

Definition installMode_eqb (a b : installMode) : bool :=
  match a, b with
  | install, install | uninstall, uninstall | ensure, ensure => true
  | _, _ => false
  end.

(** The part of [Config] (devbox.json) that [Devbox] reads or writes. *)
Record Config : Type := mkConfig {
  RawPackages : list string;          (* cfg.RawPackages *)
  Env : gmap string string;           (* cfg.Env *)
  InitHook : string;                  (* cfg.Shell.InitHook.String() *)
  Scripts : gmap string string;       (* cfg.Shell.Scripts, bodies as text *)
  Commit : string                     (* cfg.Nixpkgs.Commit *)
}.

Definition withRawPackages (c : Config) (pkgs : list string) : Config :=
  mkConfig pkgs (Env c) (InitHook c) (Scripts c) (Commit c).

(** A value of Go type [any] inside the output of "nix print-dev-env":
    a string, or something else (an array, an associative array). *)
Inductive anyValue : Type :=
  | VString (s : string)
  | VOther.

(** One entry of [vaf.Variables]. *)
Record variable : Type := mkVariable {
  Type_ : string;                     (* "var", "exported" or "array" *)
  Value : anyValue
}.

(** What a node of the scripts directory is. *)
Inductive node : Type :=
  | File (body : string) (perm : N)
  | Dir.

(** The options handed to [nix.NewDevboxShell]. *)
Record ShellOptions : Type := mkShellOptions {
  optPluginInitHook : string;
  optProfile : string;
  optHistoryFile : string;
  optProjectDir : string;
  optEnv : gmap string string;
  optPKGConfigDir : string;
  optShellStartTime : option string;
  optUserScript : option (string * string);
  optUserInitHook : string
}.

(** The collaborators.  A field of type [option error] is the outcome of a
    call ([None] for a nil error); where the outcome may depend on what was
    declared at the time of the call, the field takes the configuration. *)
Record Host : Type := mkHost {
  (* internal/boxcli: configPathFromUser, devbox.Open *)
  configPathFromUser : list string -> result string;
  openErr : string -> option error;
  (* internal/boxcli/featureflag *)
  UnifiedEnv : bool;
  EnvConfig : bool;
  Flakes : bool;
  (* os *)
  environ : list string;                        (* os.Environ() *)
  mkdirAllErr : option error;                   (* os.MkdirAll(scriptsDir) *)
  readDirErr : option error;                    (* os.ReadDir(scriptsDir) *)
  createErr : string -> option error;           (* os.Create(path) *)
  createPerm : N;                               (* 0666 less the umask *)
  chmodErr : string -> option error;            (* script.Chmod(0755) *)
  writeStringErr : string -> option error;      (* script.WriteString *)
  closeErr : string -> option error;            (* script.Close() *)
  removeErr : string -> option error;           (* os.Remove(path) *)
  (* internal/cuecfg: outcome of the n-th WriteFile of devbox.json *)
  writeFileErr : nat -> Config -> option error;
  (* internal/nix *)
  PkgExists : string -> string -> bool;
  PkgInfo : string -> string -> string;         (* info rendered with %s *)
  PrintDevEnv : result (gmap string variable);
  JoinPathLists : list string -> string;
  nixEnvInstall : Config -> option error;       (* exec of nix-env --install *)
  nixRunScript : string -> gmap string string -> option error;
  nixExec : list string -> gmap string string -> option error;
  shellRun : ShellOptions -> option error;      (* NewDevboxShell + Run *)
  shellRunInShell : ShellOptions -> option error;
  (* this package: the fields of Devbox and the methods of other files *)
  projectDir : string;                          (* d.projectDir *)
  profilePath : result string;
  profileBinPath : result string;
  pluginVirtenvPath : string;                   (* d.pluginVirtenvPath() *)
  shellHistoryPath : string;
  generateShellFiles : Config -> option error;
  addPackagesToProfile : installMode -> Config -> option error;
  removePackagesFromProfile : list string -> option error;
  commandStartTime : string;
  (* internal/plugin *)
  pluginEnv : Config -> result (gmap string string);
  pluginInitHooks : Config -> result (list string);
  pluginRemove : list string -> option error;
  pluginRemoveInvalidSymlinks : option error;
  pluginPrintReadme : string -> option error;
  pluginPrintEnvUpdateMessage : list string -> option error
}.

(** ** Effects *)

(** What the outside world sees of a run, in order. *)
Inductive Event : Type :=
  | Output (text : string)                  (* written to d.writer *)
  | Warning (text : string)                (* ux.Fwarning *)
  | StdoutExports (quoted : bool) (envs : gmap string string)
      (* one "export k=v" line per entry, on cmd.OutOrStdout() *)
  | DebugLog (text : string)               (* debug.Log *)
  | DebugLogErr (text : string) (err : error)
      (* debug.Log of a line that ends with an error: the text before
         the error, and the error that %s prints after it *)
  | WroteConfig (pkgs : list string)       (* devbox.json replaced *)
  | ApplyOptions                           (* pluginManager.ApplyOptions *)
  | GenerateShellFiles (pkgs : list string)
  | NixEnvInstall (pkgs : list string)     (* subprocess nix-env *)
  | AddPackagesToProfile (mode : installMode)
  | RemovePackagesFromProfile (pkgs : list string)
  | PluginRemove (pkgs : list string)
  | RemoveInvalidSymlinks
  | PrintReadme (pkg : string)
  | PrintEnvUpdateMessage (pkgs : list string)
  | NixPrintDevEnv                         (* subprocess nix print-dev-env *)
  | NixRunScript (cmd : string) (env : gmap string string)
  | NixExec (cmds : list string)
  | ShellRun (opts : ShellOptions)
  | ShellRunInShell (opts : ShellOptions).

(** The mutable world of one invocation. *)
Record World : Type := mkWorld {
  cfg : Config;                   (* d.cfg, in memory *)
  persisted : list string;        (* the packages of devbox.json on disk *)
  writes : nat;                   (* calls of cuecfg.WriteFile so far *)
  scriptFiles : gmap string node; (* entries of .devbox/gen/scripts *)
  trace : list Event
}.

Definition setCfg (c : Config) (w : World) : World :=
  mkWorld c (persisted w) (writes w) (scriptFiles w) (trace w).
Definition setScriptFiles (fs : gmap string node) (w : World) : World :=
  mkWorld (cfg w) (persisted w) (writes w) fs (trace w).
Definition addEvent (e : Event) (w : World) : World :=
  mkWorld (cfg w) (persisted w) (writes w) (scriptFiles w) (trace w ++ [e]).

(** A state monad with errors: every method of [Devbox] is a [M A]. *)
Definition M (A : Type) : Type := World -> World * result A.

Definition ret {A} (a : A) : M A := fun w => (w, Ok a).
Definition fail {A} (e : error) : M A := fun w => (w, Err e).
Definition bind {A B} (m : M A) (k : A -> M B) : M B :=
  fun w => match m w with
           | (w', Ok a) => k a w'
           | (w', Err e) => (w', Err e)
           end.

Notation "x <- m ;; k" := (bind m (fun x => k))
  (at level 100, m at next level, right associativity).
Notation "m ;;; k" := (bind m (fun _ => k))
  (at level 100, right associativity).

Definition emit (e : Event) : M unit := fun w => (addEvent e w, Ok tt).
Definition getCfg : M Config := fun w => (w, Ok (cfg w)).
Definition putCfg (c : Config) : M unit := fun w => (setCfg c w, Ok tt).

(** [if err != nil { return err }] for a collaborator's outcome. *)
Definition check (o : option error) : M unit :=
  match o with
  | None => ret tt
  | Some e => fail e
  end.
Definition lift {A} (r : result A) : M A :=
  match r with
  | Ok a => ret a
  | Err e => fail e
  end.

(** Runs [m] and hands back its outcome as a value, as in
    [if err := f(); err != nil { ... }] where the body goes on. *)
Definition try {A} (m : M A) : M (result A) :=
  fun w => let '(w', r) := m w in (w', Ok r).

(** A [for _, x := range xs] loop whose body may return an error. *)
Fixpoint forEach {A} (xs : list A) (body : A -> M unit) : M unit :=
  match xs with
  | [] => ret tt
  | x :: rest => body x ;;; forEach rest body
  end.

(** ** Go library functions used by the code *)

(** strings.Join *)
Definition Join (elems : list string) (sep : string) : string :=
  String.concat sep elems.

(** slices.Contains *)
Definition Contains (s : list string) (v : string) : bool :=
  existsb (String.eqb v) s.

(** lo.Intersect: the elements of [list2] that occur in [list1]. *)
Definition Intersect (list1 list2 : list string) : list string :=
  List.filter (fun elem => Contains list1 elem) list2.

(** lo.Difference: what is only in [list1], and what is only in [list2]. *)
Definition Difference (list1 list2 : list string)
  : list string * list string :=
  (List.filter (fun elem => negb (Contains list2 elem)) list1,
   List.filter (fun elem => negb (Contains list1 elem)) list2).

(** strings.Split(s, "/") *)
Fixpoint splitSlash (s : string) : list string :=
  match s with
  | EmptyString => [EmptyString]
  | String c rest =>
      if Ascii.eqb c "/"%char then EmptyString :: splitSlash rest
      else match splitSlash rest with
           | first :: others => String c first :: others
           | [] => [String c EmptyString]
           end
  end.

(** Whether the path begins with a slash. *)
Definition isRooted (path : string) : bool :=
  match path with
  | String c _ => Ascii.eqb c "/"%char
  | EmptyString => false
  end.

(** One path element, by the rules of filepath.Clean, on the elements
    kept so far (the last one first): an empty element (from a doubled
    slash) and "." are dropped; ".." drops the element before it, unless
    there is none or it is ".." itself, where it is dropped at the root
    and kept otherwise. *)
Definition cleanStep (rooted : bool) (kept : list string) (elem : string)
  : list string :=
  if String.eqb elem EmptyString || String.eqb elem "." then kept
  else if String.eqb elem ".." then
    match kept with
    | [] => if rooted then [] else [".."]
    | top :: below => if String.eqb top ".." then ".." :: kept else below
    end
  else elem :: kept.

(** The elements of the cleaned path, the last one first. *)
Definition cleanElems (path : string) : list string :=
  foldl (cleanStep (isRooted path)) [] (splitSlash path).

(** filepath.Clean, with the slash as separator: the shortest path name
    equivalent to [path] by purely lexical processing. *)
Definition Clean (path : string) : string :=
  let elems := rev (cleanElems path) in
  if isRooted path then "/" +:+ Join elems "/"
  else match elems with
       | [] => "."
       | _ => Join elems "/"
       end.

(** The elements from the first one that is not empty on, separated by
    slashes: what filepath.Join cleans. *)
Fixpoint joinFromFirst (elem : list string) : string :=
  match elem with
  | [] => EmptyString
  | e :: rest =>
      if String.eqb e EmptyString then joinFromFirst rest
      else Join elem "/"
  end.

(** filepath.Join *)
Definition filepathJoin (elem : list string) : string :=
  match joinFromFirst elem with
  | EmptyString => EmptyString
  | joined => Clean joined
  end.

(** strings.Cut(s, "="): the text before and after the first "=". *)
Fixpoint Cut (s : string) : option (string * string) :=
  match s with
  | EmptyString => None
  | String c rest =>
      if Ascii.eqb c "="%char then Some (EmptyString, rest)
      else match Cut rest with
           | Some (before, after) => Some (String c before, after)
           | None => None
           end
  end.

(** os.Getenv over the entries of os.Environ(): the value of the first
    entry for [key], and the empty string when there is none. *)
Fixpoint LookupEnv (env : list string) (key : string) : option string :=
  match env with
  | [] => None
  | kv :: rest =>
      match Cut kv with
      | Some (k, v) => if String.eqb k key then Some v else LookupEnv rest key
      | None => LookupEnv rest key
      end
  end.

Definition Getenv (h : Host) (key : string) : string :=
  default EmptyString (LookupEnv (environ h) key).

(** strconv.ParseBool; [None] is its syntax error. *)
Definition ParseBool (str : string) : option bool :=
  if Contains ["1"; "t"; "T"; "TRUE"; "true"; "True"] str then Some true
  else if Contains ["0"; "f"; "F"; "FALSE"; "false"; "False"] str
       then Some false
       else None.

(** ** Package intent: Add, Remove and the profile sync *)

Definition IsDevboxShellEnabled (h : Host) : bool :=
  match ParseBool (Getenv h "DEVBOX_SHELL_ENABLED") with
  | None => false
  | Some inDevboxShell => inDevboxShell
  end.

(** saveCfg writes the config file to the devbox directory.  A write that
    fails leaves devbox.json as it was. *)
Definition saveCfg (h : Host) : M unit := fun w =>
  match writeFileErr h (writes w) (cfg w) with
  | None =>
      (mkWorld (cfg w) (RawPackages (cfg w)) (S (writes w)) (scriptFiles w)
               (trace w ++ [WroteConfig (RawPackages (cfg w))]), Ok tt)
  | Some e =>
      (mkWorld (cfg w) (persisted w) (S (writes w)) (scriptFiles w)
               (trace w), Err e)
  end.

(** installNixProfile installs or uninstalls packages to or from this
    devbox's Nix profile so that it matches what's in development.nix *)
Definition installNixProfile (h : Host) : M unit :=
  _ <- lift (profilePath h) ;;
  c <- getCfg ;;
  emit (NixEnvInstall (RawPackages c)) ;;;
  check (nixEnvInstall h c).

Definition ensurePackagesAreInstalled (h : Host) (mode : installMode)
  : M unit :=
  c <- getCfg ;;
  emit (GenerateShellFiles (RawPackages c)) ;;;
  check (generateShellFiles h c) ;;;
  (if installMode_eqb mode ensure
   then emit (Output ("Ensuring packages are installed." +:+ nl))
   else ret tt) ;;;
  (if Flakes h
   then emit (AddPackagesToProfile mode) ;;;
        check (addPackagesToProfile h mode c)
   else
     (if installMode_eqb mode install || installMode_eqb mode uninstall
      then
        let installingVerb :=
          if installMode_eqb mode uninstall then "Uninstalling"
          else "Installing" in
        emit (Output (installingVerb +:+ " nix packages." +:+ nl))
      else ret tt) ;;;
     (* We need to re-install the packages *)
     r <- try (installNixProfile h) ;;
     match r with
     | Err e => emit (Output nl) ;;; fail (ErrWrap e "apply Nix derivation")
     | Ok _ => ret tt
     end) ;;;
  emit RemoveInvalidSymlinks ;;;
  check (pluginRemoveInvalidSymlinks h).

Definition printPackageUpdateMessage (h : Host) (mode : installMode)
    (pkgs : list string) : M unit :=
  c <- getCfg ;;
  let infos := List.map (PkgInfo h (Commit c)) pkgs in
  let verb := if installMode_eqb mode uninstall then "removed"
              else "installed" in
  match pkgs, infos with
  | pkg0 :: morePkgs, info0 :: _ =>
      let successMsg :=
        match morePkgs with
        | [] => pkg0 +:+ " (" +:+ info0 +:+ ") is now " +:+ verb +:+ "." +:+ nl
        | _ :: _ =>
            let pkgsWithVersion :=
              List.map (fun pi => fst pi +:+ " (" +:+ snd pi +:+ ")")
                       (List.combine pkgs infos) in
            Join pkgsWithVersion ", " +:+ " are now " +:+ verb +:+ "." +:+ nl
        end in
      emit (Output successMsg) ;;;
      (* (Only when in devbox shell) Prompt the user to run hash -r *)
      if IsDevboxShellEnabled h
      then
        let shown := if installMode_eqb mode install then pkgs else [] in
        emit (PrintEnvUpdateMessage shown) ;;;
        check (pluginPrintEnvUpdateMessage h shown)
      else ret tt
  | _, _ => emit (Output ("No packages " +:+ verb +:+ "." +:+ nl))
  end.

Definition Add (h : Host) (pkgs : list string) : M unit :=
  c0 <- getCfg ;;
  let original := RawPackages c0 in
  (* Check packages are valid before adding. *)
  forEach pkgs (fun pkg =>
    if PkgExists h (Commit c0) pkg then ret tt
    else fail (ErrPackageNotFound pkg)) ;;;
  (* Add to Packages to config only if it's not already there *)
  forEach pkgs (fun pkg =>
    c <- getCfg ;;
    if Contains (RawPackages c) pkg then ret tt
    else putCfg (withRawPackages c (RawPackages c ++ [pkg]))) ;;;
  saveCfg h ;;;
  emit ApplyOptions ;;;
  r <- try (ensurePackagesAreInstalled h install) ;;
  match r with
  | Err e =>
      (* if error installing, revert devbox.json *)
      emit (Output ("There was an error installing nix packages: "
                   +:+ Join pkgs ", "
                   +:+ ". Packages were not added to devbox.json" +:+ nl)) ;;;
      c <- getCfg ;;
      putCfg (withRawPackages c original) ;;;
      _ <- try (saveCfg h) ;; (* ignore error to return the original error *)
      fail e
  | Ok _ =>
      forEach pkgs (fun pkg =>
        emit (PrintReadme pkg) ;;; check (pluginPrintReadme h pkg)) ;;;
      printPackageUpdateMessage h install pkgs
  end.

Definition Remove (h : Host) (pkgs : list string) : M unit :=
  c0 <- getCfg ;;
  (* First, save which packages are being uninstalled. *)
  let uninstalledPackages := Intersect (RawPackages c0) pkgs in
  let '(remaining, missingPkgs) := Difference (RawPackages c0) pkgs in
  putCfg (withRawPackages c0 remaining) ;;;
  (if Nat.ltb 0 (List.length missingPkgs)
   then emit (Warning
     ("the following packages were not found in your devbox.json: "
      +:+ Join missingPkgs ", " +:+ nl))
   else ret tt) ;;;
  saveCfg h ;;;
  emit (PluginRemove uninstalledPackages) ;;;
  check (pluginRemove h uninstalledPackages) ;;;
  emit (RemovePackagesFromProfile uninstalledPackages) ;;;
  check (removePackagesFromProfile h uninstalledPackages) ;;;
  ensurePackagesAreInstalled h uninstall ;;;
  printPackageUpdateMessage h uninstall uninstalledPackages.

(** ** Ignore-set filters *)

(** ignoreCurrentEnvVar contains environment variables that Devbox should
    remove from the slice of [os.Environ] variables before sourcing them. *)
Definition ignoreCurrentEnvVar (key : string) : bool :=
  Contains ["PWD"; "OLDPWD"; "SHLVL"; "SHELL"] key.

(** ignoreDevEnvVar contains environment variables that Devbox should remove
    from the slice of [Devbox.PrintDevEnv] variables before sourcing them. *)
Definition ignoreDevEnvVar (key : string) : bool :=
  Contains ["BASHOPTS"; "HOME"; "NIX_BUILD_TOP"; "NIX_ENFORCE_PURITY";
            "NIX_LOG_FD"; "NIX_REMOTE"; "PPID"; "SHELL"; "SHELLOPTS";
            "TEMP"; "TEMPDIR"; "TERM"; "TMP"; "TMPDIR"; "TZ"; "UID"] key.

(** ** os.Expand *)

Definition inRange (lo hi : nat) (c : ascii) : bool :=
  Nat.leb lo (nat_of_ascii c) && Nat.leb (nat_of_ascii c) hi.

(** isShellSpecialVar reports whether the character identifies a special
    shell variable such as $*. *)
Definition isShellSpecialVar (c : ascii) : bool :=
  existsb (Ascii.eqb c)
    ["*"; "#"; "$"; "@"; "!"; "?"; "-";
     "0"; "1"; "2"; "3"; "4"; "5"; "6"; "7"; "8"; "9"]%char.

(** isAlphaNum reports whether the byte is an ASCII letter, number, or
    underscore. *)
Definition isAlphaNum (c : ascii) : bool :=
  Ascii.eqb c "_"%char || inRange 48 57 c || inRange 97 122 c
  || inRange 65 90 c.

(** The index of the first [c] in [s]. *)
Fixpoint indexByte (c : ascii) (s : string) : option nat :=
  match s with
  | EmptyString => None
  | String d rest =>
      if Ascii.eqb d c then Some 0 else S <$> indexByte c rest
  end.

(** The number of leading alphanumerics of [s]. *)
Fixpoint alphaNumPrefix (s : string) : nat :=
  match s with
  | EmptyString => 0
  | String c rest => if isAlphaNum c then S (alphaNumPrefix rest) else 0
  end.

(** getShellName returns the name that begins the string and the number of
    bytes consumed to extract it.  The string is never empty. *)
Definition getShellName (s : string) : string * nat :=
  match s with
  | EmptyString => (EmptyString, 0)
  | String c0 rest =>
      if Ascii.eqb c0 "{"%char then
        let scan :=
          (* Scan to closing brace *)
          match indexByte "}"%char rest with
          | Some 0 => (EmptyString, 2)        (* Bad syntax; eat "${}" *)
          | Some k => (String.substring 0 k rest, k + 2)
          | None => (EmptyString, 1)          (* Bad syntax; eat "${" *)
          end in
        match rest with
        | String c1 (String c2 _) =>
            if isShellSpecialVar c1 && Ascii.eqb c2 "}"%char
            then (String c1 EmptyString, 3)
            else scan
        | _ => scan
        end
      else if isShellSpecialVar c0 then (String c0 EmptyString, 1)
      else
        (* Scan alphanumerics. *)
        let i := alphaNumPrefix s in
        (String.substring 0 i s, i)
  end.

(** The loop of os.Expand from the current byte on; [skip] bytes are still
    to be jumped over (the "j += w" of the loop). *)
Fixpoint expandFrom (mapping : string -> string) (skip : nat) (s : string)
  : string :=
  match s with
  | EmptyString => EmptyString
  | String c rest =>
      match skip with
      | S k => expandFrom mapping k rest
      | O =>
          if Ascii.eqb c "$"%char && Nat.ltb 0 (String.length rest) then
            let '(name, w) := getShellName rest in
            let piece :=
              if String.eqb name EmptyString
              then (if Nat.ltb 0 w then EmptyString else "$")
              else mapping name in
            piece +:+ expandFrom mapping w rest
          else String c (expandFrom mapping 0 rest)
      end
  end.

(** Expand replaces ${var} or $var in the string based on the mapping
    function. *)
Definition Expand (s : string) (mapping : string -> string) : string :=
  expandFrom mapping 0 s.

(** ** Environment composition *)

(** [env[key]] of Go: the zero value for a missing key. *)
Definition at_ (env : gmap string string) (key : string) : string :=
  default EmptyString (env !! key).

(** [for k, v := range src { dst[k] = v }] *)
Definition mergeInto (src dst : gmap string string) : gmap string string :=
  map_fold (fun k v acc => <[k:=v]> acc) dst src.

(** The first loop of computeNixEnv, over os.Environ(). *)
Fixpoint copyCurrentEnv (currentEnv : list string)
    (env : gmap string string) : result (gmap string string) :=
  match currentEnv with
  | [] => Ok env
  | kv :: rest =>
      match Cut kv with
      | None => Err (ErrKeyval kv)
      | Some (key, val) =>
          if ignoreCurrentEnvVar key then copyCurrentEnv rest env
          else copyCurrentEnv rest (<[key:=val]> env)
      end
  end.

(** [val.Value.(string)] *)
Definition assertString (v : anyValue) : result string :=
  match v with
  | VString s => Ok s
  | VOther => Err (ErrPanic "interface conversion: interface {} is not string")
  end.

(** The body of the loop over vaf.Variables. *)
Definition devEnvStep (key : string) (val : variable)
    (acc : result (gmap string string)) : result (gmap string string) :=
  match acc with
  | Err e => Err e
  | Ok env =>
      if negb (String.eqb (Type_ val) "exported") then Ok env
      else
        (* SSL_CERT_FILE is a special-case. *)
        let sentinel :=
          if String.eqb key "SSL_CERT_FILE"
          then match assertString (Value val) with
               | Ok s => Ok (String.eqb s "/no-cert-file.crt")
               | Err e => Err e
               end
          else Ok false in
        match sentinel with
        | Err e => Err e
        | Ok true => Ok env
        | Ok false =>
            if ignoreDevEnvVar key then Ok env
            else match assertString (Value val) with
                 | Ok s => Ok (<[key:=s]> env)
                 | Err e => Err e
                 end
        end
  end.

Definition mergeDevEnv (vars : gmap string variable)
    (env : gmap string string) : result (gmap string string) :=
  map_fold devEnvStep (Ok env) vars.

(** The mapper of configEnvs. *)
Definition mapperfunc (h : Host) (computedEnv : gmap string string)
    (value : string) : string :=
  (* Special variables that should return correct value *)
  if String.eqb value "PWD" then projectDir h
  else
    (* check if referenced variables exists in computed environment *)
    match computedEnv !! value with
    | Some v => v
    | None => EmptyString
    end.

(** configEnvs takes the computed env variables (nix + plugin) and adds env
    variables defined in Config. *)
Definition configEnvs (h : Host) (c : Config)
    (computedEnv : gmap string string) : gmap string string :=
  map_fold (fun key value acc =>
              <[key := Expand value (mapperfunc h computedEnv)]> acc)
           ∅ (Env c).

Definition computeNixEnv (h : Host) : M (gmap string string) :=
  env <- lift (copyCurrentEnv (environ h) ∅) ;;
  let currentEnvPath := at_ env "PATH" in
  emit (DebugLog ("current environment PATH is: " +:+ currentEnvPath)) ;;;
  emit NixPrintDevEnv ;;;
  vaf <- lift (PrintDevEnv h) ;;
  env <- lift (mergeDevEnv vaf env) ;;
  let nixEnvPath := at_ env "PATH" in
  emit (DebugLog ("nix environment PATH is: " +:+ nixEnvPath)) ;;;
  let env := <["__ETC_PROFILE_NIX_SOURCED" := "1"]> env in
  let env := <["DEVBOX_SHELL_ENABLED" := "1"]> env in
  (* Add any vars defined in plugins. *)
  c <- getCfg ;;
  pluginEnv <- lift (pluginEnv h c) ;;
  let env := mergeInto pluginEnv env in
  (* Include env variables in devbox.json *)
  let env := if EnvConfig h then mergeInto (configEnvs h c env) env
             else env in
  emit (DebugLog ("plugin virtual environment PATH is: "
                  +:+ pluginVirtenvPath h)) ;;;
  let env :=
    <["PATH" := JoinPathLists h [pluginVirtenvPath h; nixEnvPath;
                                 currentEnvPath]]> env in
  emit (DebugLog ("computed unified environment PATH is: "
                  +:+ at_ env "PATH")) ;;;
  ret env.

(** ** Script files *)

Definition hooksFilename : string := ".hooks".
Definition arbitraryCmdFilename : string := ".cmd".

Definition scriptFilename (scriptName : string) : string :=
  scriptName +:+ ".sh".

Definition scriptsDir : string := ".devbox/gen/scripts".

Definition scriptPath (h : Host) (filename : string) : string :=
  filepathJoin [projectDir h; scriptsDir; filename].

(** The entry of the scripts directory that [scriptPath h filename] names,
    if it names one: the cleaned path is then the cleaned path of the
    directory, filepath.Join(d.projectDir, scriptsDir), and one more
    element.  Other paths lead into a subdirectory or out of the scripts
    directory. *)
Definition scriptEntry (h : Host) (filename : string) : option string :=
  match cleanElems (joinFromFirst [projectDir h; scriptsDir; filename]) with
  | entry :: dir =>
      if decide (dir = cleanElems (joinFromFirst [projectDir h; scriptsDir]))
      then Some entry else None
  | [] => None
  end.

(** The scripts directory when the node [n] is stored at the place
    [entry]; a place that is no entry of the directory leaves it as it
    is. *)
Definition storeAt (entry : option string) (n : node)
    (files : gmap string node) : gmap string node :=
  match entry with
  | Some name => <[name := n]> files
  | None => files
  end.

Definition scriptBody (h : Host) (body : string) : string :=
  ". " +:+ scriptPath h (scriptFilename hooksFilename) +:+ nl +:+ nl
  +:+ body.

Definition isDir (n : node) : bool :=
  match n with
  | Dir => true
  | File _ _ => false
  end.

(** Mode 0755. *)
Definition perm0755 : N := 493.

(** writeScriptFile: os.Create (which truncates, and fails on a directory),
    Chmod, WriteString and the deferred Close.  The scripts directory is a
    finite map from entry names to nodes.  The file is created at
    [scriptPath h (scriptFilename name)], which filepath.Join has cleaned:
    the entry it names, if any, is [scriptEntry]; a file in a subdirectory
    or outside the scripts directory is no entry of it, and only the
    outcome of the steps is kept.  A failed step leaves what the steps
    before it did. *)
Definition writeScriptFile (h : Host) (name body : string) : M unit :=
  fun w =>
  let filename := scriptFilename name in
  let entry := scriptEntry h filename in
  let files := scriptFiles w in
  match entry ≫= (fun name => files !! name) with
  | Some Dir => (w, Err (ErrCollaborator "open: is a directory"))
  | old =>
      match createErr h filename with
      | Some e => (w, Err e)
      | None =>
          let perm := match old with
                      | Some (File _ p) => p
                      | _ => createPerm h
                      end in
          let created := storeAt entry (File EmptyString perm) files in
          match chmodErr h filename with
          | Some e => (setScriptFiles created w, Err e)
          | None =>
              let chmodded :=
                storeAt entry (File EmptyString perm0755) files in
              match writeStringErr h filename with
              | Some e => (setScriptFiles chmodded w, Err e)
              | None =>
                  let done := storeAt entry (File body perm0755) files in
                  match closeErr h filename with
                  | Some e => (setScriptFiles done w, Err e)
                  | None => (setScriptFiles done w, Ok tt)
                  end
              end
          end
      end
  end.

(** os.ReadDir of the scripts directory: names and kinds. *)
Definition readDir : M (list (string * bool)) :=
  fun w => (w, Ok (List.map (fun e => (fst e, isDir (snd e)))
                            (map_to_list (scriptFiles w)))).

(** os.Remove(d.scriptPath(entry.Name())) for an entry of the scripts
    directory: a name that os.ReadDir gives is a single path element,
    which filepath.Join leaves as it is, so the path is that of the
    entry. *)
Definition removeFile (h : Host) (filename : string) : M unit :=
  fun w =>
  match removeErr h filename with
  | Some e => (w, Err e)
  | None => (setScriptFiles (delete filename (scriptFiles w)) w, Ok tt)
  end.

(** The loop over d.cfg.Shell.Scripts; it hands back the names written. *)
Definition writeScripts (h : Host) (scripts : gmap string string)
    (written : gset string) : M (gset string) :=
  map_fold (fun name body acc =>
              written <- acc ;;
              writeScriptFile h name (scriptBody h body) ;;;
              ret ({[scriptFilename name]} ∪ written))
           (ret written) scripts.

(** Delete any files that weren't written just now. *)
Definition pruneScripts (h : Host) (entries : list (string * bool))
    (written : gset string) : M unit :=
  forEach entries (fun entry =>
    if negb (bool_decide (fst entry ∈ written)) && negb (snd entry)
    then
      r <- try (removeFile h (fst entry)) ;;
      match r with
      | Err err =>
          (* no need to fail run *)
          emit (DebugLogErr ("failed to clean up script file " +:+ fst entry
                             +:+ ", error = ") err)
      | Ok _ => ret tt
      end
    else ret tt).

(** writeScriptsToFiles writes scripts defined in devbox.json into files
    inside .devbox/gen/scripts. *)
Definition writeScriptsToFiles (h : Host) : M unit :=
  check (mkdirAllErr h) ;;;            (* Ensure directory exists. *)
  (* Read dir contents before writing, so we can clean up later. *)
  check (readDirErr h) ;;;
  entries <- readDir ;;
  (* Write all hooks to a file. *)
  c <- getCfg ;;
  pluginHooks <- lift (pluginInitHooks h c) ;;
  let hooks := Join (InitHook c :: pluginHooks) (nl +:+ nl) in
  (* always write it, even if there are no hooks *)
  writeScriptFile h hooksFilename hooks ;;;
  let written : gset string := {[scriptFilename hooksFilename]} in
  (* Write scripts to files. *)
  written <- writeScripts h (Scripts c) written ;;
  pruneScripts h entries written.

(** ** Sessions: Shell, RunScript, Exec, PrintEnv *)

(** DEVBOX_SHELL_START_TIME, or the start time of the command. *)
Definition shellStartTime (h : Host) : string :=
  if String.eqb (Getenv h "DEVBOX_SHELL_START_TIME") EmptyString
  then commandStartTime h
  else Getenv h "DEVBOX_SHELL_START_TIME".

Definition Shell (h : Host) : M unit :=
  ensurePackagesAreInstalled h ensure ;;;
  emit (Output ("Starting a devbox shell..." +:+ nl)) ;;;
  profileDir <- lift (profilePath h) ;;
  c <- getCfg ;;
  pluginHooks <- lift (pluginInitHooks h c) ;;
  env <- (if UnifiedEnv h then computeNixEnv h else lift (pluginEnv h c)) ;;
  let opts :=
    mkShellOptions (Join pluginHooks nl) profileDir (shellHistoryPath h)
      (projectDir h) env (pluginVirtenvPath h) (Some (shellStartTime h))
      None (InitHook c) in
  emit (ShellRun opts) ;;;
  check (shellRun h opts).

(** RunScriptInNewNixShell implements "devbox run" (from outside a devbox
    shell) using a nix shell. *)
Definition RunScriptInNewNixShell (h : Host) (scriptName : string)
  : M unit :=
  ensurePackagesAreInstalled h ensure ;;;
  emit (Output ("Starting a devbox shell..." +:+ nl)) ;;;
  profileDir <- lift (profilePath h) ;;
  c <- getCfg ;;
  match Scripts c !! scriptName with
  | None => fail (ErrScriptNotFound scriptName)
  | Some script =>
      pluginHooks <- lift (pluginInitHooks h c) ;;
      env <- lift (pluginEnv h c) ;;
      let opts :=
        mkShellOptions (Join pluginHooks nl) profileDir (shellHistoryPath h)
          (projectDir h) env (pluginVirtenvPath h) None
          (Some (scriptName, script)) (InitHook c) in
      emit (ShellRun opts) ;;;
      check (shellRun h opts)
  end.

Definition RunScript (h : Host) (cmdName : string) (cmdArgs : list string)
  : M unit :=
  if negb (UnifiedEnv h) then RunScriptInNewNixShell h cmdName
  else
    ensurePackagesAreInstalled h ensure ;;;
    writeScriptsToFiles h ;;;
    env <- computeNixEnv h ;;
    c <- getCfg ;;
    match Scripts c !! cmdName with
    | Some _ =>
        (* it's a script, so replace the command with the script file's
           path. *)
        let cmdWithArgs :=
          scriptPath h (scriptFilename cmdName) :: cmdArgs in
        emit (NixRunScript (Join cmdWithArgs " ") env) ;;;
        check (nixRunScript h (Join cmdWithArgs " ") env)
    | None =>
        (* we save the entire command (with args) into the DEVBOX_RUN_CMD
           var, and then the script evals it. *)
        writeScriptFile h arbitraryCmdFilename
          (scriptBody h ("eval $DEVBOX_RUN_CMD" +:+ nl)) ;;;
        let cmdWithArgs :=
          [scriptPath h (scriptFilename arbitraryCmdFilename)] in
        let env :=
          <["DEVBOX_RUN_CMD" := Join (cmdName :: cmdArgs) " "]> env in
        emit (NixRunScript (Join cmdWithArgs " ") env) ;;;
        check (nixRunScript h (Join cmdWithArgs " ") env)
    end.

Definition RunScriptInShell (h : Host) (scriptName : string) : M unit :=
  profileDir <- lift (profilePath h) ;;
  c <- getCfg ;;
  match Scripts c !! scriptName with
  | None => fail (ErrScriptNotFound scriptName)
  | Some script =>
      let opts :=
        mkShellOptions EmptyString profileDir (shellHistoryPath h)
          (projectDir h) ∅ EmptyString None (Some (scriptName, script))
          EmptyString in
      emit (ShellRunInShell opts) ;;;
      check (shellRunInShell h opts)
  end.

Definition ExecWithShell (h : Host) (cmds : list string) : M unit :=
  ensurePackagesAreInstalled h ensure ;;;
  profileBin <- lift (profileBinPath h) ;;
  c <- getCfg ;;
  env <- lift (pluginEnv h c) ;;
  let virtenvBinPath := pluginVirtenvPath h +:+ ":" in
  let pathWithProfileBin :=
    "PATH=" +:+ virtenvBinPath +:+ profileBin +:+ ":$PATH" in
  let cmds := pathWithProfileBin :: cmds in
  emit (NixExec cmds) ;;;
  check (nixExec h cmds env).

Definition Exec (h : Host) (cmds : list string) : M unit :=
  if negb (UnifiedEnv h) then ExecWithShell h cmds
  else
    match cmds with
    | cmd0 :: cmdArgs => RunScript h cmd0 cmdArgs
    | [] => fail (ErrEmptyCommand cmds)
    end.

(** PrintEnv: the exported variables, and whether their values are quoted
    (the format verb is q in the unified environment, s otherwise). *)
Definition PrintEnv (h : Host) : M (bool * gmap string string) :=
  if negb (UnifiedEnv h)
  then c <- getCfg ;; envs <- lift (pluginEnv h c) ;; ret (false, envs)
  else envs <- computeNixEnv h ;; ret (true, envs).

(** ** The shell command of boxcli *)

Definition shellInceptionErrorMsg (cmdPath : string) : error :=
  ErrShellInception cmdPath.

Definition deprecationWarning : string :=
  String.concat EmptyString
    [ String (ascii_of_nat 34) "devbox shell -- <cmd>";
      String (ascii_of_nat 34) " is deprecated and will disappear ";
      "in a future version. Use ";
      String (ascii_of_nat 34) "devbox run -- <cmd>";
      String (ascii_of_nat 34) " instead"; nl ].

(** parseShellArgs; [lenAtDash] is cmd.ArgsLenAtDash(), negative when the
    command line has no dash. *)
Definition parseShellArgs (h : Host) (args : list string) (lenAtDash : Z)
  : result (string * list string) :=
  if (lenAtDash <? 0)%Z then
    match configPathFromUser h args with
    | Err e => Err e
    | Ok configPath => Ok (configPath, [])
    end
  else
    match configPathFromUser h (take (Z.to_nat lenAtDash) args) with
    | Err e => Err e
    | Ok path => Ok (path, drop (Z.to_nat lenAtDash) args)
    end.

Definition runShellCmd (h : Host) (args : list string) (lenAtDash : Z)
    (printEnvFlag : bool) : M unit :=
  parsed <- lift (parseShellArgs h args lenAtDash) ;;
  let cmds := snd parsed in
  (* Check the directory exists. *)
  check (openErr h (fst parsed)) ;;;
  if printEnvFlag then
    script <- PrintEnv h ;;
    (* explicitly print to stdout instead of stderr *)
    emit (StdoutExports (fst script) (snd script))
    (* return here to prevent opening a devbox shell *)
  else if IsDevboxShellEnabled h then
    fail (shellInceptionErrorMsg "devbox shell")
  else if Nat.ltb 0 (List.length cmds) then
    (if UnifiedEnv h then emit (Warning deprecationWarning) else ret tt) ;;;
    Exec h cmds
  else Shell h.

(** ** Notions used by the statements *)

(** The world after the events [evs] and nothing else. *)
Definition addEvents (evs : list Event) (w : World) : World :=
  mkWorld (cfg w) (persisted w) (writes w) (scriptFiles w) (trace w ++ evs).

(** A computation that reads the configuration, emits events, and does
    nothing else to the world. *)
Definition readsCfg {A} (m : M A) : Prop :=
  exists f : Config -> list Event * result A,
    forall w, m w = (addEvents (fst (f (cfg w))) w, snd (f (cfg w))).

(** A world that holds the configuration [c] and nothing else. *)
Definition blankWorld (c : Config) : World := mkWorld c [] 0 ∅ [].

(** The outcome of the profile sync when [c] is declared. *)
Definition syncError (h : Host) (mode : installMode) (c : Config)
  : option error :=
  match snd (ensurePackagesAreInstalled h mode (blankWorld c)) with
  | Ok _ => None
  | Err e => Some e
  end.

(** The events of the profile sync when [c] is declared. *)
Definition syncEvents (h : Host) (mode : installMode) (c : Config)
  : list Event :=
  trace (fst (ensurePackagesAreInstalled h mode (blankWorld c))).

(** The declared packages followed by those of [pkgs] not yet declared. *)
Definition addNew (declared pkgs : list string) : list string :=
  fold_left (fun acc pkg => if Contains acc pkg then acc else acc ++ [pkg])
            pkgs declared.

(** Modelled from the spec: nix.JoinPathLists is not among the sources.
    The spec has PATH "a colon-joined ordered sequence of directories",
    recomputed "as the ordered concatenation" of its segments, where
    "duplicates across the three segments are permitted (not
    deduplicated)". *)
Definition specJoinPathLists (pathLists : list string) : string :=
  String.concat ":" pathLists.

(** The entry of os.Environ() for a variable. *)
Definition envEntry (kv : string * string) : string :=
  fst kv +:+ "=" +:+ snd kv.

(** The entries of nix print-dev-env of type "exported" hold strings. *)
Definition exportedAreStrings (vars : gmap string variable) : Prop :=
  forall key val, vars !! key = Some val -> Type_ val = "exported" ->
    exists s, Value val = VString s.

(** What the loop over vaf.Variables stores for an entry, if anything. *)
Definition copiedValue (key : string) (val : variable) : option string :=
  match Value val with
  | VString s =>
      if String.eqb (Type_ val) "exported"
         && negb (String.eqb key "SSL_CERT_FILE"
                  && String.eqb s "/no-cert-file.crt")
         && negb (ignoreDevEnvVar key)
      then Some s else None
  | VOther => None
  end.

(** The mapping after the plugin layer of computeNixEnv, from the mapping
    [built] after the layer of nix print-dev-env. *)
Definition afterPlugins (built plug : gmap string string)
  : gmap string string :=
  mergeInto plug
    (<["DEVBOX_SHELL_ENABLED" := "1"]>
       (<["__ETC_PROFILE_NIX_SOURCED" := "1"]> built)).

(** The values of DEVBOX_SHELL_ENABLED that strconv.ParseBool reads as
    true. *)
Definition truthy : list string := ["1"; "t"; "T"; "TRUE"; "true"; "True"].

(** The events that start a process: nix-env, nix print-dev-env, a script
    run, a command run or a shell. *)
Definition startsProcess (ev : Event) : bool :=
  match ev with
  | NixEnvInstall _ | NixPrintDevEnv | NixRunScript _ _ | NixExec _
  | ShellRun _ | ShellRunInShell _ => true
  | _ => false
  end.

(** The warnings among the events. *)
Definition isWarning (ev : Event) : bool :=
  match ev with
  | Warning _ => true
  | _ => false
  end.

(** The body of the hooks file. *)
Definition hooksBody (c : Config) (pluginHooks : list string) : string :=
  Join (InitHook c :: pluginHooks) (nl +:+ nl).

(** The script files of the declared scripts. *)
Definition scriptFilesOf (h : Host) (scripts : gmap string string)
  : gmap string node :=
  kmap scriptFilename
    ((fun body => File (scriptBody h body) perm0755) <$> scripts).

(** The files that one pass of writeScriptsToFiles writes. *)
Definition writtenFiles (h : Host) (c : Config) (pluginHooks : list string)
  : gmap string node :=
  scriptFilesOf h (Scripts c)
  ∪ {[scriptFilename hooksFilename :=
        File (hooksBody c pluginHooks) perm0755]}.

(** What the clean-up leaves of entries that were not written: the
    directories, and the files that os.Remove fails on. *)
Definition leftBehind (h : Host) (files : gmap string node)
  : gmap string node :=
  filter (fun e => isDir (snd e) = true \/ is_Some (removeErr h (fst e)))
         files.

(** The script [name] can be written as an entry of the scripts
    directory: no directory has the name of its file, no step of
    writeScriptFile fails on it, and the name is a single path element (it
    holds no slash), so that its file is the entry [scriptFilename name]. *)
Definition writable (h : Host) (files : gmap string node) (name : string)
  : Prop :=
  files !! scriptFilename name <> Some Dir /\
  createErr h (scriptFilename name) = None /\
  chmodErr h (scriptFilename name) = None /\
  writeStringErr h (scriptFilename name) = None /\
  closeErr h (scriptFilename name) = None /\
  indexByte "/"%char name = None.

(** One step of the clean-up loop, on the files alone. *)
Definition pruneStep (h : Host) (written : gset string)
    (files : gmap string node) (entry : string * bool) : gmap string node :=
  if negb (bool_decide (fst entry ∈ written)) && negb (snd entry)
  then match removeErr h (fst entry) with
       | None => delete (fst entry) files
       | Some _ => files
       end
  else files.

(** Whether the clean-up loop over [entries] removes the file [f]. *)
Definition removedBy (h : Host) (written : gset string)
    (entries : list (string * bool)) (f : string) : bool :=
  existsb (fun entry =>
             String.eqb (fst entry) f
             && (negb (bool_decide (fst entry ∈ written))
                 && negb (snd entry))
             && match removeErr h (fst entry) with
                | None => true
                | Some _ => false
                end) entries.

(** What the clean-up loop over [entries] logs: the files that os.Remove
    fails on. *)
Definition pruneLog (h : Host) (written : gset string)
    (entries : list (string * bool)) : list Event :=
  flat_map (fun entry =>
              if negb (bool_decide (fst entry ∈ written)) && negb (snd entry)
              then match removeErr h (fst entry) with
                   | Some err =>
                       [DebugLogErr ("failed to clean up script file "
                                     +:+ fst entry +:+ ", error = ") err]
                   | None => []
                   end
              else []) entries.

(** ** Hosts and worlds to run the code on *)

(** A host where every collaborator succeeds, but for what the arguments
    say: the feature flag of the unified environment, the process
    environment, the outcomes of the writes of devbox.json, of nix-env
    and of os.Remove, the output of nix print-dev-env and the variables of
    the plugins. *)
Definition hostWith (unified : bool) (env : list string)
    (writeErr : nat -> Config -> option error)
    (installErr : Config -> option error)
    (rmErr : string -> option error)
    (devEnv : gmap string variable)
    (plugins : gmap string string) : Host :=
  {| configPathFromUser := fun _ => Ok "/p";
     openErr := fun _ => None;
     UnifiedEnv := unified;
     EnvConfig := true;
     Flakes := false;
     environ := env;
     mkdirAllErr := None;
     readDirErr := None;
     createErr := fun _ => None;
     createPerm := 420;
     chmodErr := fun _ => None;
     writeStringErr := fun _ => None;
     closeErr := fun _ => None;
     removeErr := rmErr;
     writeFileErr := writeErr;
     PkgExists := fun _ _ => true;
     PkgInfo := fun _ pkg => pkg;
     PrintDevEnv := Ok devEnv;
     JoinPathLists := specJoinPathLists;
     nixEnvInstall := installErr;
     nixRunScript := fun _ _ => None;
     nixExec := fun _ _ => None;
     shellRun := fun _ => None;
     shellRunInShell := fun _ => None;
     projectDir := "/p";
     profilePath := Ok "/p/.devbox/nix/profile/default";
     profileBinPath := Ok "/p/.devbox/nix/profile/default/bin";
     pluginVirtenvPath := "/a";
     shellHistoryPath := "/p/.devbox/shell_history";
     generateShellFiles := fun _ => None;
     addPackagesToProfile := fun _ _ => None;
     removePackagesFromProfile := fun _ => None;
     commandStartTime := "0";
     pluginEnv := fun _ => Ok plugins;
     pluginInitHooks := fun _ => Ok [];
     pluginRemove := fun _ => None;
     pluginRemoveInvalidSymlinks := None;
     pluginPrintReadme := fun _ => None;
     pluginPrintEnvUpdateMessage := fun _ => None |}.

(** Collaborators that never fail. *)
Definition noWriteErr : nat -> Config -> option error := fun _ _ => None.
Definition noInstallErr : Config -> option error := fun _ => None.
Definition noRemoveErr : string -> option error := fun _ => None.

(** nix-env fails. *)
Definition installFails : Config -> option error :=
  fun _ => Some (ErrCollaborator "running command nix-env: exit status 1").

(** The first write of devbox.json succeeds, the later ones fail. *)
Definition secondWriteFails : nat -> Config -> option error :=
  fun n _ => match n with
             | O => None
             | S _ => Some (ErrCollaborator "write devbox.json: no space left")
             end.

(** A project that declares the packages [pkgs] and nothing else, with
    devbox.json in step and an empty scripts directory. *)
Definition projectWith (pkgs : list string) : World :=
  mkWorld (mkConfig pkgs ∅ EmptyString ∅ "commit") pkgs 0 ∅ [].

(** A project that declares the variables [envs] in devbox.json. *)
Definition projectWithEnv (envs : gmap string string) : World :=
  mkWorld (mkConfig [] envs EmptyString ∅ "commit") [] 0 ∅ [].

(** A project that declares the scripts [scripts] and the init hook
    [hook], with the scripts directory [files]. *)
Definition projectWithScripts (hook : string) (scripts : gmap string string)
    (files : gmap string node) : World :=
  mkWorld (mkConfig [] ∅ hook scripts "commit") [] 0 files [].

(** ** More notions used by the statements *)


(** A computation that leaves the declared intent alone: the in-memory
    configuration, devbox.json and the count of its writes. *)
Definition keepsIntent {A} (m : M A) : Prop :=
  forall w,
    cfg (fst (m w)) = cfg w /\
    persisted (fst (m w)) = persisted w /\
    writes (fst (m w)) = writes w.

(** The host [h] with a resolver that knows the packages [known]. *)
Definition knowing (known : string -> bool) (h : Host) : Host :=
  {| configPathFromUser := configPathFromUser h;
     openErr := openErr h;
     UnifiedEnv := UnifiedEnv h;
     EnvConfig := EnvConfig h;
     Flakes := Flakes h;
     environ := environ h;
     mkdirAllErr := mkdirAllErr h;
     readDirErr := readDirErr h;
     createErr := createErr h;
     createPerm := createPerm h;
     chmodErr := chmodErr h;
     writeStringErr := writeStringErr h;
     closeErr := closeErr h;
     removeErr := removeErr h;
     writeFileErr := writeFileErr h;
     PkgExists := fun _ pkg => known pkg;
     PkgInfo := PkgInfo h;
     PrintDevEnv := PrintDevEnv h;
     JoinPathLists := JoinPathLists h;
     nixEnvInstall := nixEnvInstall h;
     nixRunScript := nixRunScript h;
     nixExec := nixExec h;
     shellRun := shellRun h;
     shellRunInShell := shellRunInShell h;
     projectDir := projectDir h;
     profilePath := profilePath h;
     profileBinPath := profileBinPath h;
     pluginVirtenvPath := pluginVirtenvPath h;
     shellHistoryPath := shellHistoryPath h;
     generateShellFiles := generateShellFiles h;
     addPackagesToProfile := addPackagesToProfile h;
     removePackagesFromProfile := removePackagesFromProfile h;
     commandStartTime := commandStartTime h;
     pluginEnv := pluginEnv h;
     pluginInitHooks := pluginInitHooks h;
     pluginRemove := pluginRemove h;
     pluginRemoveInvalidSymlinks := pluginRemoveInvalidSymlinks h;
     pluginPrintReadme := pluginPrintReadme h;
     pluginPrintEnvUpdateMessage := pluginPrintEnvUpdateMessage h |}.

(** A computation that does nothing to the world but emit events, all of
    which satisfy [P]. *)
Definition emitsOnly {A} (P : Event -> Prop) (m : M A) : Prop :=
  forall w, exists evs,
    fst (m w) = addEvents evs w /\ Forall P evs.

(** The events of printing the environment: the debug log, the call of
    nix print-dev-env and the exports on standard output. *)
Definition printEnvEvent (ev : Event) : Prop :=
  match ev with
  | DebugLog _ | NixPrintDevEnv | StdoutExports _ _ => True
  | _ => False
  end.

(** The events that hand control to a shell, a script or a command. *)
Definition startsSession (ev : Event) : Prop :=
  match ev with
  | ShellRun _ | ShellRunInShell _ | NixRunScript _ _ | NixExec _ => True
  | _ => False
  end.

(** The events that do not. *)
Definition quietEvent (ev : Event) : Prop :=
  match ev with
  | ShellRun _ | ShellRunInShell _ | NixRunScript _ _ | NixExec _ => False
  | _ => True
  end.

(** A computation that only adds to the trace, and only events that
    satisfy [P]. *)
Definition tracks {A} (P : Event -> Prop) (m : M A) : Prop :=
  forall w, exists evs,
    trace (fst (m w)) = trace w ++ evs /\ Forall P evs.

(** A computation that either fails without handing control to a shell, a
    script or a command, or hands it over once, as the last thing it
    does. *)
Definition sessionLast {A} (m : M A) : Prop :=
  forall w, exists pre,
    Forall quietEvent pre /\
    ((trace (fst (m w)) = trace w ++ pre /\ exists e, snd (m w) = Err e) \/
     (exists s, startsSession s /\
                trace (fst (m w)) = trace w ++ pre ++ [s])).

(** ** The arguments of the shell command *)

(** fmt.Errorf("accepts at most 1 directory, received %d", lenAtDash) *)
Inductive argsError : Type :=
  | ErrTooManyDirectories (received : Z).

(** validateShellArgs; [lenAtDash] is cmd.ArgsLenAtDash(). *)
Definition validateShellArgs (lenAtDash : Z) : option argsError :=
  if (1 <? lenAtDash)%Z then Some (ErrTooManyDirectories lenAtDash)
  else None.

(** ** Generated files: devcontainer, Dockerfile and .envrc *)

(** The collaborators of the generators: the file system queries, the
    generators of the generate package, direnv and the prompt. *)
Record GenHost : Type := mkGenHost {
  genProjectDir : string;                         (* d.projectDir *)
  joinPath : string -> string -> string;          (* filepath.Join *)
  planFileExists : string -> bool;                (* plansdk.FileExists *)
  fileutilExists : string -> bool;                (* fileutil.Exists *)
  genMkdirAllErr : string -> option error;        (* os.MkdirAll *)
  createDockerfileErr : string -> option error;
                                        (* generate.CreateDockerfile *)
  createDevcontainerErr : string -> Config -> option error;
                                        (* generate.CreateDevcontainer *)
  createEnvrcErr : string -> option error;        (* generate.CreateEnvrc *)
  direnvExists : bool;                            (* commandExists("direnv") *)
  askOne : result string;                         (* survey.AskOne *)
  direnvAllowErr : option error                   (* direnv allow *)
}.

(** What the generators do to the outside. *)
Inductive GenEvent : Type :=
  | MkdirAll (path : string)
  | CreateDockerfile (dir : string)
  | CreateDevcontainer (dir : string) (pkgs : list string)
  | CreateEnvrc (dir : string)
  | Prompt (message : string)
  | DirenvAllow.

(** The errors of the generators: a usererr.New of their own, or the error
    of a collaborator. *)
Inductive genError : Type :=
  | GenUserErr (msg : string)
  | GenErr (e : error).

Definition devcontainerPresentMsg : string :=
  "Files devcontainer.json or Dockerfile are already present in .devcontainer/. "
  +:+ "Remove the files or use --force to overwrite them.".

Definition dockerfilePresentMsg : string :=
  "Dockerfile is already present in the current directory. "
  +:+ "Remove it or use --force to overwrite it.".

Definition envrcPresentMsg : string :=
  "A .envrc is already present in the current directory. "
  +:+ "Remove it or use --force to overwrite it.".

Definition direnvPrompt : string :=
  "Do you want to enable direnv integration for this devbox project? [y/N]".

(** generates devcontainer.json and Dockerfile for vscode run-in-container
    and Github Codespaces *)
Definition GenerateDevcontainer (g : GenHost) (c : Config) (force : bool)
  : list GenEvent * option genError :=
  (* construct path to devcontainer directory *)
  let devContainerPath := joinPath g (genProjectDir g) ".devcontainer/" in
  let devContainerJSONPath := joinPath g devContainerPath "devcontainer.json" in
  let dockerfilePath := joinPath g devContainerPath "Dockerfile" in
  (* check if devcontainer.json or Dockerfile exist *)
  let filesExist :=
    planFileExists g devContainerJSONPath || planFileExists g dockerfilePath in
  if force || negb filesExist then
    (* create directory *)
    match genMkdirAllErr g devContainerPath with
    | Some e => ([MkdirAll devContainerPath], Some (GenErr e))
    | None =>
        (* generate dockerfile *)
        match createDockerfileErr g devContainerPath with
        | Some e =>
            ([MkdirAll devContainerPath; CreateDockerfile devContainerPath],
             Some (GenErr e))
        | None =>
            (* generate devcontainer.json *)
            match createDevcontainerErr g devContainerPath c with
            | Some e =>
                ([MkdirAll devContainerPath;
                  CreateDockerfile devContainerPath;
                  CreateDevcontainer devContainerPath (RawPackages c)],
                 Some (GenErr e))
            | None =>
                ([MkdirAll devContainerPath;
                  CreateDockerfile devContainerPath;
                  CreateDevcontainer devContainerPath (RawPackages c)],
                 None)
            end
        end
    end
  else ([], Some (GenUserErr devcontainerPresentMsg)).

(** generates a Dockerfile that replicates the devbox shell *)
Definition GenerateDockerfile (g : GenHost) (force : bool)
  : list GenEvent * option genError :=
  let dockerfilePath := joinPath g (genProjectDir g) "Dockerfile" in
  (* check if Dockerfile doesn't exist *)
  let filesExist := planFileExists g dockerfilePath in
  if force || negb filesExist then
    (* generate dockerfile *)
    match createDockerfileErr g (genProjectDir g) with
    | Some e => ([CreateDockerfile (genProjectDir g)], Some (GenErr e))
    | None => ([CreateDockerfile (genProjectDir g)], None)
    end
  else ([], Some (GenUserErr dockerfilePresentMsg)).

(** strings.ToLower on the ASCII letters; the other bytes are left as they
    are, which is all that the comparison with y depends on. *)
Definition toLowerByte (c : ascii) : ascii :=
  if inRange 65 90 c then ascii_of_nat (nat_of_ascii c + 32) else c.

Fixpoint ToLower (s : string) : string :=
  match s with
  | EmptyString => EmptyString
  | String c rest => String (toLowerByte c) (ToLower rest)
  end.

(** generates a .envrc file that makes direnv integration convenient *)
Definition GenerateEnvrc (g : GenHost) (force : bool) (source : string)
  : list GenEvent * option genError :=
  let envrcfilePath := joinPath g (genProjectDir g) ".envrc" in
  let filesExist := fileutilExists g envrcfilePath in
  (* confirm .envrc doesn't exist and don't overwrite an existing .envrc *)
  if force || negb filesExist then
    if direnvExists g then
      (* prompt for direnv allow *)
      match askOne g with
      | Err e => ([Prompt direnvPrompt], Some (GenErr e))
      | Ok answer =>
          if String.eqb (ToLower answer) "y" then
            (* .envrc file creation *)
            match createEnvrcErr g (genProjectDir g) with
            | Some e =>
                ([Prompt direnvPrompt; CreateEnvrc (genProjectDir g)],
                 Some (GenErr e))
            | None =>
                match direnvAllowErr g with
                | Some e =>
                    ([Prompt direnvPrompt; CreateEnvrc (genProjectDir g);
                      DirenvAllow], Some (GenErr e))
                | None =>
                    ([Prompt direnvPrompt; CreateEnvrc (genProjectDir g);
                      DirenvAllow], None)
                end
            end
          else if String.eqb source "generate" then
            (* .envrc file creation *)
            match createEnvrcErr g (genProjectDir g) with
            | Some e =>
                ([Prompt direnvPrompt; CreateEnvrc (genProjectDir g)],
                 Some (GenErr e))
            | None =>
                ([Prompt direnvPrompt; CreateEnvrc (genProjectDir g)], None)
            end
          else ([Prompt direnvPrompt], None)
      end
    else ([], None)
  else ([], Some (GenUserErr envrcPresentMsg)).

(** A host for the generators where every collaborator succeeds:
    [existing] are the files that exist, direnv is installed as [direnv]
    says and the prompt is answered with [answer]. *)
Definition genHostWith (existing : list string) (direnv : bool)
    (answer : string) : GenHost :=
  {| genProjectDir := "/p";
     joinPath := fun dir name =>
       if String.eqb name ".devcontainer/" then dir +:+ "/.devcontainer"
       else dir +:+ "/" +:+ name;
     planFileExists := Contains existing;
     fileutilExists := Contains existing;
     genMkdirAllErr := fun _ => None;
     createDockerfileErr := fun _ => None;
     createDevcontainerErr := fun _ _ => None;
     createEnvrcErr := fun _ => None;
     direnvExists := direnv;
     askOne := Ok answer;
     direnvAllowErr := None |}.

(** * Proofs *)

(** ** The monad *)

Lemma bind_ok {A B} (m : M A) (k : A -> M B) w w1 a :
  m w = (w1, Ok a) -> bind m k w = k a w1.
Proof. intros Hm. unfold bind. now rewrite Hm. Qed.

Lemma bind_err {A B} (m : M A) (k : A -> M B) w w1 e :
  m w = (w1, Err e) -> bind m k w = (w1, Err e).
Proof. intros Hm. unfold bind. now rewrite Hm. Qed.

Lemma addEvents_nil w : addEvents [] w = w.
Proof. destruct w. unfold addEvents. simpl. now rewrite app_nil_r. Qed.

Lemma addEvents_app evs1 evs2 w :
  addEvents evs2 (addEvents evs1 w) = addEvents (evs1 ++ evs2) w.
Proof. unfold addEvents. simpl. now rewrite app_assoc. Qed.

Lemma cfg_addEvents evs w : cfg (addEvents evs w) = cfg w.
Proof. reflexivity. Qed.

Lemma withRawPackages_same c : withRawPackages c (RawPackages c) = c.
Proof. now destruct c. Qed.

Lemma withRawPackages_twice c p q :
  withRawPackages (withRawPackages c p) q = withRawPackages c q.
Proof. reflexivity. Qed.

Lemma setCfg_same w : setCfg (cfg w) w = w.
Proof. now destruct w. Qed.

(** ** Computations that only read the configuration *)

Create HintDb readsCfg.

Lemma readsCfg_ret {A} (a : A) : readsCfg (ret a).
Proof.
  exists (fun _ => ([], Ok a)). intros w. simpl.
  now rewrite addEvents_nil.
Qed.

Lemma readsCfg_fail {A} e : readsCfg (@fail A e).
Proof.
  exists (fun _ => ([], Err e)). intros w. simpl.
  now rewrite addEvents_nil.
Qed.

Lemma readsCfg_emit ev : readsCfg (emit ev).
Proof. now exists (fun _ => ([ev], Ok tt)). Qed.

Lemma readsCfg_getCfg : readsCfg getCfg.
Proof.
  exists (fun c => ([], Ok c)). intros w. simpl.
  now rewrite addEvents_nil.
Qed.

Lemma readsCfg_check o : readsCfg (check o).
Proof. destruct o; [apply readsCfg_fail | apply readsCfg_ret]. Qed.

Lemma readsCfg_lift {A} (r : result A) : readsCfg (lift r).
Proof. destruct r; [apply readsCfg_ret | apply readsCfg_fail]. Qed.

Lemma readsCfg_bind {A B} (m : M A) (k : A -> M B) :
  readsCfg m -> (forall a, readsCfg (k a)) -> readsCfg (bind m k).
Proof.
  intros [f Hf] Hk.
  (* the continuation's description, chosen per value *)
  assert (Hk' : forall a, exists g : Config -> list Event * result B,
             forall w, k a w = (addEvents (fst (g (cfg w))) w,
                                snd (g (cfg w)))) by exact Hk.
  exists (fun c =>
            match snd (f c) with
            | Ok a =>
                (fst (f c) ++ trace (fst (k a (blankWorld c))),
                 snd (k a (blankWorld c)))
            | Err e => (fst (f c), Err e)
            end).
  intros w. unfold bind. rewrite Hf.
  destruct (snd (f (cfg w))) as [a|e]; [|reflexivity].
  destruct (Hk' a) as [g Hg]. rewrite !Hg. simpl.
  now rewrite addEvents_app.
Qed.

Lemma readsCfg_try {A} (m : M A) : readsCfg m -> readsCfg (try m).
Proof.
  intros [f Hf]. exists (fun c => (fst (f c), Ok (snd (f c)))).
  intros w. unfold try. now rewrite Hf.
Qed.

Lemma readsCfg_if {A} (b : bool) (m1 m2 : M A) :
  readsCfg m1 -> readsCfg m2 -> readsCfg (if b then m1 else m2).
Proof. now destruct b. Qed.

Lemma readsCfg_result {A B} (r : result A) (k1 : A -> M B) (k2 : error -> M B) :
  (forall a, readsCfg (k1 a)) -> (forall e, readsCfg (k2 e)) ->
  readsCfg (match r with Ok a => k1 a | Err e => k2 e end).
Proof. now destruct r. Qed.

#[export] Hint Resolve readsCfg_ret readsCfg_fail readsCfg_emit
  readsCfg_getCfg readsCfg_check readsCfg_lift readsCfg_try readsCfg_if
  : readsCfg.

Ltac reads_cfg :=
  repeat first
    [ apply readsCfg_bind; [|intros ?]
    | apply readsCfg_result; intros ?
    | apply readsCfg_if
    | apply readsCfg_try
    | solve [auto with readsCfg] ].

Lemma readsCfg_installNixProfile h : readsCfg (installNixProfile h).
Proof. unfold installNixProfile. reads_cfg. Qed.

Lemma readsCfg_ensure h mode :
  readsCfg (ensurePackagesAreInstalled h mode).
Proof.
  unfold ensurePackagesAreInstalled. pose proof (readsCfg_installNixProfile h).
  reads_cfg.
Qed.

(** What a computation that only reads the configuration does to a world. *)
Lemma readsCfg_run {A} (m : M A) w :
  readsCfg m ->
  m w = (addEvents (trace (fst (m (blankWorld (cfg w))))) w,
         snd (m (blankWorld (cfg w)))).
Proof.
  intros [f Hf]. rewrite (Hf (blankWorld (cfg w))). simpl. apply Hf.
Qed.

Lemma ensure_run h mode w :
  ensurePackagesAreInstalled h mode w =
  (addEvents (syncEvents h mode (cfg w)) w,
   match syncError h mode (cfg w) with
   | None => Ok tt
   | Some e => Err e
   end).
Proof.
  rewrite (readsCfg_run _ w (readsCfg_ensure h mode)).
  unfold syncEvents, syncError.
  destruct (snd (ensurePackagesAreInstalled h mode (blankWorld (cfg w))))
    as [[]|e]; reflexivity.
Qed.

(** ** Add and Remove *)

Lemma Contains_spec (l : list string) (x : string) :
  Contains l x = true <-> x ∈ l.
Proof.
  unfold Contains. rewrite existsb_exists. split.
  - intros (y & Hy & Heq). apply String.eqb_eq in Heq. subst.
    now apply list_elem_of_In.
  - intros Hx. exists x. split; [now apply list_elem_of_In|].
    apply String.eqb_refl.
Qed.

Lemma validate_loop h commit pkgs w :
  forEach pkgs (fun pkg =>
    if PkgExists h commit pkg then ret tt
    else fail (ErrPackageNotFound pkg)) w =
  (w, match List.find (fun pkg => negb (PkgExists h commit pkg)) pkgs with
      | None => Ok tt
      | Some pkg => Err (ErrPackageNotFound pkg)
      end).
Proof.
  induction pkgs as [|pkg pkgs IH]; simpl; [reflexivity|].
  unfold bind. destruct (PkgExists h commit pkg); simpl; [apply IH|reflexivity].
Qed.

Lemma find_none_Forall {A} (p : A -> bool) l :
  Forall (fun x => p x = false) l -> List.find p l = None.
Proof.
  induction 1 as [|x l Hx _ IH]; simpl; [reflexivity|]. now rewrite Hx.
Qed.

Lemma append_loop pkgs : forall w,
  forEach pkgs (fun pkg =>
    c <- getCfg ;;
    if Contains (RawPackages c) pkg then ret tt
    else putCfg (withRawPackages c (RawPackages c ++ [pkg]))) w =
  (setCfg (withRawPackages (cfg w) (addNew (RawPackages (cfg w)) pkgs)) w,
   Ok tt).
Proof.
  induction pkgs as [|pkg pkgs IH]; intros w; simpl.
  - unfold ret, addNew. simpl. now rewrite withRawPackages_same, setCfg_same.
  - unfold bind at 1. unfold bind at 1. unfold getCfg at 1.
    unfold addNew. simpl.
    destruct (Contains (RawPackages (cfg w)) pkg); simpl.
    + apply IH.
    + rewrite IH. reflexivity.
Qed.

Lemma addNew_nil declared : addNew declared [] = declared.
Proof. reflexivity. Qed.

Lemma addNew_prefix pkgs : forall declared,
  exists more, addNew declared pkgs = declared ++ more.
Proof.
  induction pkgs as [|pkg pkgs IH]; intros declared.
  - exists []. now rewrite app_nil_r.
  - unfold addNew. simpl. destruct (Contains declared pkg).
    + apply IH.
    + destruct (IH (declared ++ [pkg])) as [more Hm].
      exists (pkg :: more). unfold addNew in Hm. rewrite Hm.
      now rewrite <- app_assoc.
Qed.

Section AddFails.
Variables (h : Host) (pkgs : list string) (w : World) (e : error).

Let declared := RawPackages (cfg w).
Let added := withRawPackages (cfg w) (addNew declared pkgs).

Hypothesis valid :
  Forall (fun pkg => PkgExists h (Commit (cfg w)) pkg = true) pkgs.
Hypothesis saved : writeFileErr h (writes w) added = None.
Hypothesis syncFails : syncError h install added = Some e.

(** The world in which Add stops when the sync fails. *)
Lemma Add_sync_failure :
  Add h pkgs w =
  (mkWorld (cfg w)
     (match writeFileErr h (S (writes w)) (cfg w) with
      | None => declared
      | Some _ => addNew declared pkgs
      end)
     (S (S (writes w))) (scriptFiles w)
     (trace w ++ [WroteConfig (addNew declared pkgs); ApplyOptions]
        ++ syncEvents h install added
        ++ [Output ("There was an error installing nix packages: "
                   +:+ Join pkgs ", "
                   +:+ ". Packages were not added to devbox.json"
                   +:+ nl)]
        ++ match writeFileErr h (S (writes w)) (cfg w) with
           | None => [WroteConfig declared]
           | Some _ => []
           end),
   Err e).
Proof.
  unfold Add.
  rewrite (bind_ok _ _ w w (cfg w)) by reflexivity.
  erewrite bind_ok; cycle 1.
  { rewrite validate_loop, find_none_Forall; [reflexivity|].
    eapply Forall_impl; [exact valid|]. intros x Hx. simpl. now rewrite Hx. }
  erewrite bind_ok by apply append_loop.
  fold declared. fold added.
  erewrite bind_ok; cycle 1.
  { unfold saveCfg. simpl. rewrite saved. reflexivity. }
  erewrite bind_ok by reflexivity.
  erewrite bind_ok; cycle 1.
  { unfold try. rewrite ensure_run. simpl. rewrite syncFails. reflexivity. }
  simpl.
  erewrite bind_ok by reflexivity.
  erewrite bind_ok by reflexivity.
  erewrite bind_ok by reflexivity.
  assert (Hback : withRawPackages added declared = cfg w).
  { unfold added, declared. rewrite withRawPackages_twice.
    apply withRawPackages_same. }
  unfold bind, try, saveCfg, fail. simpl. rewrite Hback.
  destruct (writeFileErr h (S (writes w)) (cfg w)); simpl;
    f_equal; f_equal; rewrite <- ?app_assoc; reflexivity.
Qed.
End AddFails.

Section RemoveFails.
Variables (h : Host) (pkgs : list string) (w : World) (e : error).

Let declared := RawPackages (cfg w).
Let uninstalled := Intersect declared pkgs.
Let remaining := fst (Difference declared pkgs).
Let missing := snd (Difference declared pkgs).
Let removed := withRawPackages (cfg w) remaining.

Hypothesis saved : writeFileErr h (writes w) removed = None.
Hypothesis pluginsRemoved : pluginRemove h uninstalled = None.
Hypothesis profileRemoved : removePackagesFromProfile h uninstalled = None.
Hypothesis syncFails : syncError h uninstall removed = Some e.

(** The world in which Remove stops when the sync fails. *)
Lemma Remove_sync_failure :
  Remove h pkgs w =
  (mkWorld removed remaining (S (writes w)) (scriptFiles w)
     (trace w
        ++ (if Nat.ltb 0 (List.length missing)
            then [Warning
              ("the following packages were not found in your devbox.json: "
               +:+ Join missing ", " +:+ nl)]
            else [])
        ++ [WroteConfig remaining; PluginRemove uninstalled;
            RemovePackagesFromProfile uninstalled]
        ++ syncEvents h uninstall removed),
   Err e).
Proof.
  unfold Remove.
  rewrite (bind_ok _ _ w w (cfg w)) by reflexivity.
  unfold Difference. fold declared.
  erewrite bind_ok by reflexivity.
  change (List.filter (fun elem => negb (Contains pkgs elem)) declared)
    with remaining.
  change (List.filter (fun elem => negb (Contains declared elem)) pkgs)
    with missing.
  fold removed.
  destruct (Nat.ltb 0 (List.length missing)).
  - erewrite bind_ok by reflexivity.
    erewrite bind_ok;
      [|unfold saveCfg; simpl; rewrite saved; reflexivity].
    erewrite bind_ok by reflexivity.
    erewrite bind_ok;
      [|fold uninstalled; rewrite pluginsRemoved; reflexivity].
    erewrite bind_ok by reflexivity.
    erewrite bind_ok;
      [|fold uninstalled; rewrite profileRemoved; reflexivity].
    erewrite bind_err;
      [|rewrite ensure_run; simpl; rewrite syncFails; reflexivity].
    unfold addEvents. simpl. f_equal. f_equal.
    rewrite <- ?app_assoc. reflexivity.
  - erewrite bind_ok by reflexivity.
    erewrite bind_ok;
      [|unfold saveCfg; simpl; rewrite saved; reflexivity].
    erewrite bind_ok by reflexivity.
    erewrite bind_ok;
      [|fold uninstalled; rewrite pluginsRemoved; reflexivity].
    erewrite bind_ok by reflexivity.
    erewrite bind_ok;
      [|fold uninstalled; rewrite profileRemoved; reflexivity].
    erewrite bind_err;
      [|rewrite ensure_run; simpl; rewrite syncFails; reflexivity].
    unfold addEvents. simpl. f_equal. f_equal.
    rewrite <- ?app_assoc. reflexivity.
Qed.
End RemoveFails.

Lemma Difference_remaining declared pkgs pkg :
  pkg ∈ fst (Difference declared pkgs) <-> pkg ∈ declared /\ pkg ∉ pkgs.
Proof.
  unfold Difference. simpl.
  rewrite list_elem_of_In, filter_In, <- list_elem_of_In, negb_true_iff.
  pose proof (Contains_spec pkgs pkg) as Hc.
  destruct (Contains pkgs pkg); intuition congruence.
Qed.

Lemma Difference_missing declared pkgs pkg :
  pkg ∈ snd (Difference declared pkgs) <-> pkg ∈ pkgs /\ pkg ∉ declared.
Proof.
  unfold Difference. simpl.
  rewrite list_elem_of_In, filter_In, <- list_elem_of_In, negb_true_iff.
  pose proof (Contains_spec declared pkg) as Hc.
  destruct (Contains declared pkg); intuition congruence.
Qed.

(** C1, as stated, fails: declared intent ["x"], Add("y"), the first write
    of devbox.json succeeds, nix-env fails, and the write that would
    restore devbox.json fails too.  Add ignores that last error: the sync
    error is returned, the in-memory intent is ["x"] again, but devbox.json
    still holds ["x"; "y"]. *)
Lemma Add_rollback_counterexample :
  let h := hostWith true [] secondWriteFails installFails noRemoveErr ∅ ∅ in
  let w := projectWith ["x"] in
  let syncErr :=
    ErrWrap (ErrCollaborator "running command nix-env: exit status 1")
            "apply Nix derivation" in
  RawPackages (cfg w) = ["x"] /\ persisted w = ["x"] /\
  writeFileErr h (writes w) (withRawPackages (cfg w) ["x"; "y"]) = None /\
  syncError h install (withRawPackages (cfg w) ["x"; "y"]) = Some syncErr /\
  snd (Add h ["y"] w) = Err syncErr /\
  RawPackages (cfg (fst (Add h ["y"] w))) = ["x"] /\
  persisted (fst (Add h ["y"] w)) = ["x"; "y"] /\
  persisted (fst (Add h ["y"] w)) <> persisted w.
Proof. vm_compute. repeat split; discriminate. Qed.

(** C1 (amended).  When every package of an Add is known to the resolver,
    the new intent has been written to devbox.json and the profile sync
    then fails with [e]: Add returns [e]; the in-memory configuration is
    the one from before the Add; devbox.json holds the intent from before
    the Add when the write that restores it succeeds, and still holds the
    extended intent when that write fails (its error is ignored). *)
Theorem Add_rollback_on_sync_failure
    (h : Host) (pkgs : list string) (w : World) (e : error) :
  Forall (fun pkg => PkgExists h (Commit (cfg w)) pkg = true) pkgs ->
  writeFileErr h (writes w)
    (withRawPackages (cfg w) (addNew (RawPackages (cfg w)) pkgs)) = None ->
  syncError h install
    (withRawPackages (cfg w) (addNew (RawPackages (cfg w)) pkgs)) = Some e ->
  snd (Add h pkgs w) = Err e /\
  cfg (fst (Add h pkgs w)) = cfg w /\
  persisted (fst (Add h pkgs w)) =
    match writeFileErr h (S (writes w)) (cfg w) with
    | None => RawPackages (cfg w)
    | Some _ => addNew (RawPackages (cfg w)) pkgs
    end.
Proof.
  intros Hvalid Hsaved Hsync.
  rewrite (Add_sync_failure h pkgs w e Hvalid Hsaved Hsync). simpl.
  repeat split.
Qed.

Lemma Add_rollback_on_sync_failure_witness :
  let h := hostWith true [] noWriteErr installFails noRemoveErr ∅ ∅ in
  let w := projectWith ["x"] in
  let syncErr :=
    ErrWrap (ErrCollaborator "running command nix-env: exit status 1")
            "apply Nix derivation" in
  snd (Add h ["y"] w) = Err syncErr /\
  cfg (fst (Add h ["y"] w)) = cfg w /\
  persisted (fst (Add h ["y"] w)) = ["x"].
Proof.
  intros h w syncErr.
  apply (Add_rollback_on_sync_failure h ["y"] w syncErr).
  - repeat constructor.
  - reflexivity.
  - vm_compute. reflexivity.
Defined.

(** C2.  Remove takes the packages out of the intent and writes devbox.json
    before it touches the profile; when the profile sync then fails with
    [e], Remove returns [e] and both the in-memory and the persisted intent
    are the intent without the removed packages.  Packages asked for but
    not declared only add a warning in front of the write. *)
Theorem Remove_keeps_removal_on_sync_failure
    (h : Host) (pkgs : list string) (w : World) (e : error) :
  let declared := RawPackages (cfg w) in
  let uninstalled := Intersect declared pkgs in
  let remaining := fst (Difference declared pkgs) in
  let missing := snd (Difference declared pkgs) in
  writeFileErr h (writes w) (withRawPackages (cfg w) remaining) = None ->
  pluginRemove h uninstalled = None ->
  removePackagesFromProfile h uninstalled = None ->
  syncError h uninstall (withRawPackages (cfg w) remaining) = Some e ->
  snd (Remove h pkgs w) = Err e /\
  RawPackages (cfg (fst (Remove h pkgs w))) = remaining /\
  persisted (fst (Remove h pkgs w)) = remaining /\
  (forall pkg, pkg ∈ remaining <-> pkg ∈ declared /\ pkg ∉ pkgs) /\
  (forall pkg, pkg ∈ missing <-> pkg ∈ pkgs /\ pkg ∉ declared) /\
  trace (fst (Remove h pkgs w)) =
    trace w
    ++ match missing with
       | [] => []
       | _ :: _ =>
           [Warning
              ("the following packages were not found in your devbox.json: "
               +:+ Join missing ", " +:+ nl)]
       end
    ++ [WroteConfig remaining; PluginRemove uninstalled;
        RemovePackagesFromProfile uninstalled]
    ++ syncEvents h uninstall (withRawPackages (cfg w) remaining).
Proof.
  intros declared uninstalled remaining missing Hsaved Hplug Hprof Hsync.
  rewrite (Remove_sync_failure h pkgs w e Hsaved Hplug Hprof Hsync). simpl.
  split; [reflexivity|]. split; [reflexivity|]. split; [reflexivity|].
  split; [intros pkg; apply Difference_remaining|].
  split; [intros pkg; apply Difference_missing|].
  subst missing remaining uninstalled declared. unfold Difference. simpl.
  now destruct (List.filter _ pkgs).
Qed.

Lemma Remove_keeps_removal_on_sync_failure_witness :
  let h := hostWith true [] noWriteErr installFails noRemoveErr ∅ ∅ in
  let w := projectWith ["x"; "y"] in
  let syncErr :=
    ErrWrap (ErrCollaborator "running command nix-env: exit status 1")
            "apply Nix derivation" in
  snd (Remove h ["y"; "z"] w) = Err syncErr /\
  persisted (fst (Remove h ["y"; "z"] w)) = ["x"] /\
  In (Warning ("the following packages were not found in your devbox.json: z"
               +:+ nl))
     (trace (fst (Remove h ["y"; "z"] w))).
Proof.
  intros h w syncErr.
  destruct (Remove_keeps_removal_on_sync_failure h ["y"; "z"] w syncErr)
    as (Hres & _ & Hdisk & _ & _ & Htrace).
  - reflexivity.
  - reflexivity.
  - reflexivity.
  - vm_compute. reflexivity.
  - split; [exact Hres|]. split; [exact Hdisk|].
    rewrite Htrace. vm_compute. left. reflexivity.
Defined.

(** ** Environment composition *)

Lemma lookup_mergeInto (src dst : gmap string string) (key : string) :
  mergeInto src dst !! key =
  match src !! key with
  | Some v => Some v
  | None => dst !! key
  end.
Proof.
  unfold mergeInto.
  apply (map_fold_weak_ind
           (fun acc (m : gmap string string) =>
              acc !! key = match m !! key with
                           | Some v => Some v
                           | None => dst !! key
                           end)).
  - now rewrite lookup_empty.
  - intros k v m acc Hk IH.
    destruct (decide (k = key)) as [->|Hne].
    + now rewrite !lookup_insert_eq.
    + now rewrite !lookup_insert_ne.
Qed.

Lemma mergeInto_empty (dst : gmap string string) : mergeInto ∅ dst = dst.
Proof. apply map_eq. intros k. now rewrite lookup_mergeInto, lookup_empty. Qed.

Lemma lookup_configEnvs h c computedEnv key :
  configEnvs h c computedEnv !! key =
  (fun value => Expand value (mapperfunc h computedEnv)) <$> Env c !! key.
Proof.
  unfold configEnvs.
  apply (map_fold_weak_ind
           (fun acc (m : gmap string string) =>
              acc !! key =
              (fun value => Expand value (mapperfunc h computedEnv))
                <$> m !! key)).
  - now rewrite !lookup_empty.
  - intros k v m acc Hk IH.
    destruct (decide (k = key)) as [->|Hne].
    + now rewrite !lookup_insert_eq.
    + now rewrite !lookup_insert_ne.
Qed.

Section Compose.
Variables (h : Host) (w : World).
Variables (env1 env2 plug : gmap string string).
Variable vars : gmap string variable.

Hypothesis ambient : copyCurrentEnv (environ h) ∅ = Ok env1.
Hypothesis printed : PrintDevEnv h = Ok vars.
Hypothesis built : mergeDevEnv vars env1 = Ok env2.
Hypothesis plugins : pluginEnv h (cfg w) = Ok plug.

(** The mapping after the plugin layer. *)
Let env5 : gmap string string :=
  mergeInto plug
    (<["DEVBOX_SHELL_ENABLED" := "1"]>
       (<["__ETC_PROFILE_NIX_SOURCED" := "1"]> env2)).

Let env6 : gmap string string :=
  if EnvConfig h then mergeInto (configEnvs h (cfg w) env5) env5 else env5.

Let path : string :=
  JoinPathLists h [pluginVirtenvPath h; at_ env2 "PATH"; at_ env1 "PATH"].

Lemma computeNixEnv_layers :
  computeNixEnv h w =
  (addEvents
     [DebugLog ("current environment PATH is: " +:+ at_ env1 "PATH");
      NixPrintDevEnv;
      DebugLog ("nix environment PATH is: " +:+ at_ env2 "PATH");
      DebugLog ("plugin virtual environment PATH is: "
                +:+ pluginVirtenvPath h);
      DebugLog ("computed unified environment PATH is: " +:+ path)] w,
   Ok (<["PATH" := path]> env6)).
Proof.
  unfold computeNixEnv.
  erewrite bind_ok by (rewrite ambient; reflexivity).
  erewrite bind_ok by reflexivity.
  erewrite bind_ok by reflexivity.
  erewrite bind_ok by (rewrite printed; reflexivity).
  erewrite bind_ok by (rewrite built; reflexivity).
  erewrite bind_ok by reflexivity.
  erewrite bind_ok by reflexivity.
  erewrite bind_ok by (simpl; rewrite plugins; reflexivity).
  erewrite bind_ok by reflexivity.
  fold env5. fold env6. fold path.
  unfold bind, emit, ret, addEvent, addEvents. simpl.
  unfold at_ at 3. rewrite lookup_insert_eq. simpl.
  rewrite <- !app_assoc. reflexivity.
Qed.
End Compose.

(** ** The layer of nix print-dev-env *)

Lemma devEnvStep_ok key val env :
  (Type_ val = "exported" -> exists s, Value val = VString s) ->
  devEnvStep key val (Ok env) =
  Ok (match copiedValue key val with
      | Some s => <[key:=s]> env
      | None => env
      end).
Proof.
  intros Htyped. unfold devEnvStep, copiedValue.
  destruct (String.eqb (Type_ val) "exported") eqn:Hexp; simpl.
  - apply String.eqb_eq in Hexp. destruct (Htyped Hexp) as [s ->]. simpl.
    destruct (String.eqb key "SSL_CERT_FILE"); simpl.
    + destruct (String.eqb s "/no-cert-file.crt"); simpl; [reflexivity|].
      now destruct (ignoreDevEnvVar key).
    + now destruct (ignoreDevEnvVar key).
  - now destruct (Value val).
Qed.

Lemma mergeDevEnv_lookup vars env :
  exportedAreStrings vars ->
  exists env', mergeDevEnv vars env = Ok env' /\
    forall key, env' !! key =
      match vars !! key ≫= copiedValue key with
      | Some s => Some s
      | None => env !! key
      end.
Proof.
  unfold mergeDevEnv.
  apply (map_fold_weak_ind
           (fun acc (m : gmap string variable) =>
              exportedAreStrings m ->
              exists env', acc = Ok env' /\
                forall key, env' !! key =
                  match m !! key ≫= copiedValue key with
                  | Some s => Some s
                  | None => env !! key
                  end)).
  - intros _. exists env. split; [reflexivity|]. intros key.
    now rewrite lookup_empty.
  - intros k v m acc Hk IH Htyped.
    destruct IH as (env' & -> & Hlook).
    { intros key val Hkey. apply (Htyped key val).
      rewrite lookup_insert_ne; [exact Hkey|]. intros ->. congruence. }
    rewrite devEnvStep_ok
      by (apply (Htyped k v); apply lookup_insert_eq).
    eexists. split; [reflexivity|]. intros key.
    destruct (decide (k = key)) as [->|Hne].
    + rewrite lookup_insert_eq. simpl.
      destruct (copiedValue key v) as [s|].
      * now rewrite lookup_insert_eq.
      * rewrite Hlook, Hk. reflexivity.
    + rewrite (lookup_insert_ne m) by exact Hne.
      destruct (copiedValue k v) as [s|].
      * rewrite lookup_insert_ne by exact Hne. apply Hlook.
      * apply Hlook.
Qed.

Lemma mergeDevEnv_empty env : mergeDevEnv ∅ env = Ok env.
Proof. unfold mergeDevEnv. apply map_fold_empty. Qed.

Lemma copiedValue_Some key val s :
  copiedValue key val = Some s <->
  Value val = VString s /\ Type_ val = "exported" /\
  ignoreDevEnvVar key = false /\
  ~ (key = "SSL_CERT_FILE" /\ s = "/no-cert-file.crt").
Proof.
  unfold copiedValue. destruct (Value val) as [s'|].
  - destruct (String.eqb_spec (Type_ val) "exported") as [He|He];
      destruct (String.eqb_spec key "SSL_CERT_FILE") as [Hk|Hk];
      destruct (String.eqb_spec s' "/no-cert-file.crt") as [Hs|Hs];
      destruct (ignoreDevEnvVar key); simpl;
      split; try discriminate; try (intros [= <-]); try tauto;
      intros ([= ->] & ? & ? & ?); try congruence; tauto.
  - split; [discriminate|]. intros ([=] & _).
Qed.

(** ** The layer of the process environment *)

Lemma Cut_envEntry key val :
  indexByte "="%char key = None ->
  Cut (key +:+ "=" +:+ val) = Some (key, val).
Proof.
  induction key as [|c key IH]; simpl; [reflexivity|].
  destruct (Ascii.eqb c "="%char); [discriminate|].
  destruct (indexByte "="%char key); [discriminate|].
  intros _. now rewrite IH.
Qed.

Lemma copyCurrentEnv_entries (l : list (string * string)) : forall env,
  Forall (fun kv => indexByte "="%char (fst kv) = None) l ->
  copyCurrentEnv (envEntry <$> l) env =
  Ok (foldl (fun acc kv => if ignoreCurrentEnvVar (fst kv) then acc
                           else <[fst kv := snd kv]> acc) env l).
Proof.
  induction l as [|[k v] l IH]; intros env Hl; simpl; [reflexivity|].
  inversion Hl as [|? ? Hk Hl']; subst. simpl in Hk.
  unfold envEntry at 1. simpl. rewrite Cut_envEntry by exact Hk.
  destruct (ignoreCurrentEnvVar k); now apply IH.
Qed.

Lemma lookup_foldl_entries (l : list (string * string)) :
  forall (env : gmap string string) (key : string),
  NoDup (fst <$> l) ->
  foldl (fun acc kv => if ignoreCurrentEnvVar (fst kv) then acc
                       else <[fst kv := snd kv]> acc) env l !! key =
  if ignoreCurrentEnvVar key then env !! key
  else match (list_to_map l : gmap string string) !! key with
       | Some v => Some v
       | None => env !! key
       end.
Proof.
  induction l as [|[k v] l IH]; intros env key Hnd; simpl.
  - rewrite lookup_empty. now destruct (ignoreCurrentEnvVar key).
  - apply NoDup_cons in Hnd as [Hk Hnd]. rewrite IH by exact Hnd.
    destruct (decide (k = key)) as [->|Hne].
    + rewrite lookup_insert_eq.
      rewrite (not_elem_of_list_to_map_1 l key) by exact Hk.
      destruct (ignoreCurrentEnvVar key); [reflexivity|].
      now rewrite lookup_insert_eq.
    + rewrite (lookup_insert_ne (list_to_map l)) by exact Hne.
      destruct (ignoreCurrentEnvVar key), (ignoreCurrentEnvVar k);
        try reflexivity; now rewrite lookup_insert_ne.
Qed.

(** The first loop of computeNixEnv over the entries of a mapping [A]:
    [A] without the ignored variables. *)
Lemma copyCurrentEnv_mapping (A : gmap string string)
    (l : list (string * string)) :
  l ≡ₚ map_to_list A ->
  (forall key, key ∈ dom A -> indexByte "="%char key = None) ->
  copyCurrentEnv (envEntry <$> l) ∅ =
  Ok (filter (fun kv => ignoreCurrentEnvVar (fst kv) = false) A).
Proof.
  intros Hperm Hkeys.
  rewrite copyCurrentEnv_entries.
  - f_equal. apply map_eq. intros key.
    assert (Hnd : NoDup (fst <$> l)).
    { rewrite Hperm. apply NoDup_fst_map_to_list. }
    rewrite lookup_foldl_entries by exact Hnd.
    rewrite (list_to_map_proper l (map_to_list A)) by assumption.
    rewrite list_to_map_to_list, lookup_empty.
    destruct (ignoreCurrentEnvVar key) eqn:Hig.
    + symmetry. apply map_lookup_filter_None. right. intros v _. simpl.
      congruence.
    + destruct (A !! key) as [v|] eqn:HA.
      * symmetry. apply map_lookup_filter_Some. now split.
      * symmetry. apply map_lookup_filter_None. now left.
  - apply Forall_forall. intros [k v] Hin. simpl. apply Hkeys.
    apply elem_of_dom. exists v. apply elem_of_map_to_list.
    now rewrite <- Hperm.
Qed.

(** ** os.Expand *)

Lemma substring_prefix (a b : string) :
  String.substring 0 (String.length a) (a +:+ b) = a.
Proof.
  induction a as [|c a IH]; simpl.
  - now destruct b.
  - now rewrite IH.
Qed.

Lemma indexByte_append c (a b : string) :
  indexByte c a = None ->
  indexByte c (a +:+ String c b) = Some (String.length a).
Proof.
  induction a as [|d a IH]; simpl.
  - now rewrite Ascii.eqb_refl.
  - destruct (Ascii.eqb d c); [discriminate|].
    destruct (indexByte c a); [discriminate|]. intros _. now rewrite IH.
Qed.

Lemma expandFrom_skip mapping (a b : string) n :
  expandFrom mapping (String.length a + n) (a +:+ b) = expandFrom mapping n b.
Proof. induction a as [|c a IH]; simpl; [reflexivity|exact IH]. Qed.

Lemma length_append_pos (a b : string) :
  a <> EmptyString -> Nat.ltb 0 (String.length (a +:+ b)) = true.
Proof. destruct a; [congruence|reflexivity]. Qed.

(** The name between braces. *)
Lemma getShellName_braced (name rest : string) :
  name <> EmptyString ->
  indexByte "}"%char name = None ->
  getShellName (String "{"%char (name +:+ String "}"%char rest)) =
  (name, String.length name + 2).
Proof.
  intros Hne Hbrace. unfold getShellName.
  change (Ascii.eqb "{"%char "{"%char) with true. cbv iota.
  assert (Hscan :
    match indexByte "}"%char (name +:+ String "}"%char rest) with
    | Some 0 => (EmptyString, 2)
    | Some k => (String.substring 0 k (name +:+ String "}"%char rest), k + 2)
    | None => (EmptyString, 1)
    end = (name, String.length name + 2)).
  { rewrite indexByte_append by exact Hbrace.
    destruct name as [|c name]; [congruence|].
    change (String.length (String c name)) with (S (String.length name)).
    cbv iota. f_equal.
    apply (substring_prefix (String c name)). }
  destruct name as [|c1 [|c2 name]]; [congruence| |].
  - (* one character *)
    simpl. simpl in Hscan.
    destruct (isShellSpecialVar c1); simpl; [reflexivity|exact Hscan].
  - (* two or more: the second one is not the closing brace *)
    simpl in Hbrace.
    destruct (Ascii.eqb c1 "}"%char); [discriminate|].
    destruct (Ascii.eqb c2 "}"%char) eqn:Hc2; [discriminate|].
    change ((String c1 (String c2 name)) +:+ String "}"%char rest)
      with (String c1 (String c2 (name +:+ String "}"%char rest))) in *.
    cbv iota. rewrite Hc2, andb_false_r. exact Hscan.
Qed.

(** A reference in braces is replaced by what the mapping gives. *)
Lemma Expand_braced mapping (name rest : string) :
  name <> EmptyString ->
  indexByte "}"%char name = None ->
  Expand ("${" +:+ name +:+ "}" +:+ rest) mapping =
  mapping name +:+ Expand rest mapping.
Proof.
  intros Hne Hbrace. unfold Expand.
  change ("${" +:+ name +:+ "}" +:+ rest)
    with (String "$"%char (String "{"%char (name +:+ String "}"%char rest))).
  cbn [expandFrom].
  change (Ascii.eqb "$"%char "$"%char) with true.
  change (String.length (String "{"%char (name +:+ String "}"%char rest)))
    with (S (String.length (name +:+ String "}"%char rest))).
  change (Nat.ltb 0 (S (String.length (name +:+ String "}"%char rest))))
    with true.
  cbv beta iota. change (true && true) with true. cbv iota.
  rewrite getShellName_braced by assumption.
  destruct (String.eqb_spec name EmptyString) as [|_]; [congruence|].
  f_equal.
  replace (String.length name + 2) with (S (String.length name + 1)) by lia.
  cbn [expandFrom].
  rewrite (expandFrom_skip mapping name (String "}"%char rest) 1).
  reflexivity.
Qed.

(** Text without a dollar is copied. *)
Lemma Expand_literal mapping (lit rest : string) :
  indexByte "$"%char lit = None ->
  Expand (lit +:+ rest) mapping = lit +:+ Expand rest mapping.
Proof.
  unfold Expand. induction lit as [|c lit IH]; simpl; [reflexivity|].
  destruct (Ascii.eqb c "$"%char); [discriminate|].
  destruct (indexByte "$"%char lit); [discriminate|].
  intros _. simpl. now rewrite IH.
Qed.

Lemma alphaNumPrefix_append (name rest : string) :
  alphaNumPrefix name = String.length name ->
  alphaNumPrefix rest = 0 ->
  alphaNumPrefix (name +:+ rest) = String.length name.
Proof.
  induction name as [|c name IH]; simpl; [auto|].
  destruct (isAlphaNum c); [|discriminate].
  intros [= Hn] Hr. now rewrite IH.
Qed.

Lemma isAlphaNum_not_brace c :
  isAlphaNum c = true -> Ascii.eqb c "{"%char = false.
Proof.
  destruct (Ascii.eqb_spec c "{"%char) as [->|]; [|reflexivity].
  vm_compute. discriminate.
Qed.

(** A bare reference: a name of letters, digits and underscores that does
    not start with a digit, up to the first byte that cannot be part of a
    name. *)
Lemma Expand_bare mapping (c : ascii) (name rest : string) :
  isAlphaNum c = true ->
  isShellSpecialVar c = false ->
  alphaNumPrefix name = String.length name ->
  alphaNumPrefix rest = 0 ->
  Expand ("$" +:+ String c name +:+ rest) mapping =
  mapping (String c name) +:+ Expand rest mapping.
Proof.
  intros Hc Hspecial Hname Hrest. unfold Expand.
  change ("$" +:+ String c name +:+ rest)
    with (String "$"%char (String c (name +:+ rest))).
  cbn [expandFrom].
  change (Ascii.eqb "$"%char "$"%char) with true.
  change (Nat.ltb 0 (String.length (String c (name +:+ rest)))) with true.
  cbv beta iota. change (true && true) with true. cbv iota.
  assert (Hget : getShellName (String c (name +:+ rest)) =
                 (String c name, S (String.length name))).
  { unfold getShellName. rewrite (isAlphaNum_not_brace c Hc), Hspecial.
    cbn [alphaNumPrefix]. rewrite Hc.
    rewrite alphaNumPrefix_append by assumption.
    f_equal. apply (substring_prefix (String c name) rest). }
  rewrite Hget. cbn [String.eqb]. 
  destruct (String.eqb_spec (String c name) EmptyString) as [|_];
    [discriminate|].
  f_equal. cbn [expandFrom].
  rewrite <- (Nat.add_0_r (String.length name)).
  apply expandFrom_skip.
Qed.

Lemma append_empty_r (s : string) : s +:+ EmptyString = s.
Proof.
  induction s as [|c s IH]; [reflexivity|].
  change (String c (s +:+ EmptyString) = String c s). now rewrite IH.
Qed.

Lemma Expand_only_braced mapping (name : string) :
  name <> EmptyString ->
  indexByte "}"%char name = None ->
  Expand ("${" +:+ name +:+ "}") mapping = mapping name.
Proof.
  intros Hne Hbrace.
  change ("${" +:+ name +:+ "}")
    with ("${" +:+ name +:+ "}" +:+ EmptyString).
  rewrite (Expand_braced mapping name EmptyString Hne Hbrace).
  apply append_empty_r.
Qed.

Example Expand_BAR mapping : Expand "${BAR}" mapping = mapping "BAR".
Proof. now apply (Expand_only_braced mapping "BAR"). Qed.

Example Expand_PWD_bin mapping :
  Expand "$PWD/bin:${HOME}" mapping =
  mapping "PWD" +:+ "/bin:" +:+ mapping "HOME".
Proof.
  transitivity (mapping "PWD" +:+ Expand "/bin:${HOME}" mapping).
  { now apply (Expand_bare mapping "P" "WD" "/bin:${HOME}"). }
  f_equal.
  transitivity ("/bin:" +:+ Expand "${HOME}" mapping).
  { now apply (Expand_literal mapping "/bin:" "${HOME}"). }
  f_equal. now apply (Expand_only_braced mapping "HOME").
Qed.

(** C3.  When the layers of a composition succeed, the PATH of the result
    is the plugin virtual environment's binary directory, the PATH after
    the layer of nix print-dev-env and the PATH of the process environment,
    in this order, joined by colons and with nothing removed. *)
Theorem computeNixEnv_PATH_order
    (h : Host) (w : World) (env1 env2 plug : gmap string string)
    (vars : gmap string variable) :
  copyCurrentEnv (environ h) ∅ = Ok env1 ->
  PrintDevEnv h = Ok vars ->
  mergeDevEnv vars env1 = Ok env2 ->
  pluginEnv h (cfg w) = Ok plug ->
  JoinPathLists h = specJoinPathLists ->
  exists env,
    snd (computeNixEnv h w) = Ok env /\
    env !! "PATH" =
      Some (pluginVirtenvPath h +:+ ":" +:+ at_ env2 "PATH" +:+ ":"
            +:+ at_ env1 "PATH").
Proof.
  intros Hamb Hprint Hbuilt Hplug Hjoin.
  rewrite (computeNixEnv_layers h w env1 env2 plug vars) by assumption.
  eexists. split; [reflexivity|].
  rewrite lookup_insert_eq, Hjoin. reflexivity.
Qed.

Lemma computeNixEnv_PATH_order_witness :
  let h := hostWith true ["PATH=/c"] noWriteErr noInstallErr noRemoveErr
             {["PATH" := mkVariable "exported" (VString "/b")]} ∅ in
  exists env,
    snd (computeNixEnv h (projectWith [])) = Ok env /\
    env !! "PATH" = Some "/a:/b:/c".
Proof.
  intros h.
  destruct (computeNixEnv_PATH_order h (projectWith [])
              {["PATH" := "/c"]} {["PATH" := "/b"]} ∅
              {["PATH" := mkVariable "exported" (VString "/b")]})
    as (env & Hres & Hpath).
  - vm_compute. reflexivity.
  - reflexivity.
  - vm_compute. reflexivity.
  - reflexivity.
  - reflexivity.
  - exists env. split; [exact Hres|]. rewrite Hpath. vm_compute. reflexivity.
Defined.

(** Nothing is removed from the three segments: with the ambient PATH
    /a, which is also the plugin directory, and no PATH from nix, the
    result names /a three times. *)
Example computeNixEnv_PATH_keeps_duplicates :
  let h := hostWith true ["PATH=/a"] noWriteErr noInstallErr noRemoveErr
             ∅ ∅ in
  exists env,
    snd (computeNixEnv h (projectWith [])) = Ok env /\
    env !! "PATH" = Some "/a:/a:/a".
Proof. eexists. split; vm_compute; reflexivity. Qed.

(** C4, as stated, fails: with the process environment PATH=/c alone, an
    empty build environment, no plugin variables and no declared
    variables, the result is not the ambient mapping: it holds the two
    flags, and its PATH has the plugin directory in front. *)
Lemma computeNixEnv_ambient_only_counterexample :
  let A : gmap string string := {["PATH" := "/c"]} in
  let h := hostWith true (envEntry <$> map_to_list A)
             noWriteErr noInstallErr noRemoveErr ∅ ∅ in
  exists env,
    snd (computeNixEnv h (projectWith [])) = Ok env /\
    filter (fun kv => ignoreCurrentEnvVar (fst kv) = false) A = A /\
    env !! "DEVBOX_SHELL_ENABLED" = Some "1" /\
    A !! "DEVBOX_SHELL_ENABLED" = None /\
    env !! "PATH" = Some "/a:/c:/c" /\
    A !! "PATH" = Some "/c" /\
    env <> A.
Proof.
  intros A h. eexists. split; [vm_compute; reflexivity|].
  split; [vm_compute; reflexivity|].
  split; [vm_compute; reflexivity|].
  split; [vm_compute; reflexivity|].
  split; [vm_compute; reflexivity|].
  split; [vm_compute; reflexivity|].
  intros Heq.
  apply (f_equal (fun m : gmap string string =>
                    m !! "DEVBOX_SHELL_ENABLED")) in Heq.
  vm_compute in Heq. discriminate.
Qed.

(** C4 (amended).  With the entries of an ambient mapping [A] as process
    environment, an empty build environment, no plugin variables and no
    declared variables, the result is [A] without the ignored variables,
    plus the two flags set to "1", and with PATH set to the join of the
    plugin directory and twice the ambient PATH. *)
Theorem computeNixEnv_ambient_only
    (h : Host) (w : World) (A : gmap string string)
    (l : list (string * string)) :
  l ≡ₚ map_to_list A ->
  environ h = envEntry <$> l ->
  (forall key, key ∈ dom A -> indexByte "="%char key = None) ->
  PrintDevEnv h = Ok ∅ ->
  pluginEnv h (cfg w) = Ok ∅ ->
  EnvConfig h = false \/ Env (cfg w) = ∅ ->
  exists env,
    snd (computeNixEnv h w) = Ok env /\
    env !! "__ETC_PROFILE_NIX_SOURCED" = Some "1" /\
    env !! "DEVBOX_SHELL_ENABLED" = Some "1" /\
    env !! "PATH" =
      Some (JoinPathLists h [pluginVirtenvPath h; at_ A "PATH";
                             at_ A "PATH"]) /\
    forall key,
      key <> "__ETC_PROFILE_NIX_SOURCED" ->
      key <> "DEVBOX_SHELL_ENABLED" ->
      key <> "PATH" ->
      env !! key = if ignoreCurrentEnvVar key then None else A !! key.
Proof.
  intros Hperm Henviron Hkeys Hprint Hplug Hcfg.
  set (A' := filter (fun kv => ignoreCurrentEnvVar (fst kv) = false) A).
  assert (Hamb : copyCurrentEnv (environ h) ∅ = Ok A').
  { rewrite Henviron. now apply copyCurrentEnv_mapping. }
  assert (HA' : forall key, A' !! key =
                  if ignoreCurrentEnvVar key then None else A !! key).
  { intros key. unfold A'. destruct (ignoreCurrentEnvVar key) eqn:Hig.
    - apply map_lookup_filter_None. right. intros v _. simpl. congruence.
    - destruct (A !! key) as [v|] eqn:HA.
      + apply map_lookup_filter_Some. now split.
      + apply map_lookup_filter_None. now left. }
  rewrite (computeNixEnv_layers h w A' A' ∅ ∅ Hamb Hprint
             (mergeDevEnv_empty A') Hplug).
  eexists. split; [reflexivity|].
  assert (Hsix :
    (if EnvConfig h
     then mergeInto
            (configEnvs h (cfg w)
               (mergeInto ∅
                  (<["DEVBOX_SHELL_ENABLED" := "1"]>
                     (<["__ETC_PROFILE_NIX_SOURCED" := "1"]> A'))))
            (mergeInto ∅
               (<["DEVBOX_SHELL_ENABLED" := "1"]>
                  (<["__ETC_PROFILE_NIX_SOURCED" := "1"]> A')))
     else mergeInto ∅
            (<["DEVBOX_SHELL_ENABLED" := "1"]>
               (<["__ETC_PROFILE_NIX_SOURCED" := "1"]> A')))
    = <["DEVBOX_SHELL_ENABLED" := "1"]>
        (<["__ETC_PROFILE_NIX_SOURCED" := "1"]> A')).
  { rewrite !mergeInto_empty.
    destruct Hcfg as [-> | Hempty]; [reflexivity|].
    destruct (EnvConfig h); [|reflexivity].
    unfold configEnvs. rewrite Hempty, map_fold_empty.
    apply mergeInto_empty. }
  rewrite Hsix.
  assert (Hpath : at_ A' "PATH" = at_ A "PATH").
  { unfold at_. now rewrite HA'. }
  rewrite Hpath.
  split; [now rewrite lookup_insert_ne, lookup_insert_ne, lookup_insert_eq|].
  split; [now rewrite lookup_insert_ne, lookup_insert_eq|].
  split; [now rewrite lookup_insert_eq|].
  intros key H1 H2 H3.
  rewrite !lookup_insert_ne by congruence. apply HA'.
Qed.

Lemma computeNixEnv_ambient_only_witness :
  let A : gmap string string := {["PATH" := "/c"; "PWD" := "/tmp"]} in
  let h := hostWith true (envEntry <$> map_to_list A)
             noWriteErr noInstallErr noRemoveErr ∅ ∅ in
  exists env,
    snd (computeNixEnv h (projectWith [])) = Ok env /\
    env !! "__ETC_PROFILE_NIX_SOURCED" = Some "1" /\
    env !! "DEVBOX_SHELL_ENABLED" = Some "1" /\
    env !! "PATH" =
      Some (JoinPathLists h [pluginVirtenvPath h; at_ A "PATH";
                             at_ A "PATH"]) /\
    forall key,
      key <> "__ETC_PROFILE_NIX_SOURCED" ->
      key <> "DEVBOX_SHELL_ENABLED" ->
      key <> "PATH" ->
      env !! key = if ignoreCurrentEnvVar key then None else A !! key.
Proof.
  intros A h.
  apply (computeNixEnv_ambient_only h (projectWith []) A (map_to_list A)).
  - reflexivity.
  - reflexivity.
  - intros key Hkey. apply elem_of_dom in Hkey as [v Hv].
    unfold A in Hv.
    apply lookup_insert_Some in Hv as [[<- _]|[_ Hv]]; [reflexivity|].
    apply lookup_singleton_Some in Hv as [<- _]. reflexivity.
  - reflexivity.
  - reflexivity.
  - right. reflexivity.
Defined.

(** C5.  The loop over the build environment (whose exported entries hold
    strings) ends, and it stores the value of an entry under its key
    exactly when the entry is of type "exported", the key is not in
    ignoreDevEnvVar and the entry is not SSL_CERT_FILE with the value
    "/no-cert-file.crt"; every other key keeps what it had.  So
    SSL_CERT_FILE is dropped for that value and kept for any other. *)
Theorem mergeDevEnv_copies_exported
    (vars : gmap string variable) (env : gmap string string) :
  exportedAreStrings vars ->
  exists env',
    mergeDevEnv vars env = Ok env' /\
    (forall key val,
       vars !! key = Some val ->
       (Type_ val = "exported" /\ ignoreDevEnvVar key = false /\
        ~ (key = "SSL_CERT_FILE" /\ Value val = VString "/no-cert-file.crt")
        -> VString <$> env' !! key = Some (Value val)) /\
       (~ (Type_ val = "exported" /\ ignoreDevEnvVar key = false /\
           ~ (key = "SSL_CERT_FILE"
              /\ Value val = VString "/no-cert-file.crt"))
        -> env' !! key = env !! key)) /\
    (forall key, vars !! key = None -> env' !! key = env !! key) /\
    (forall s,
       vars !! "SSL_CERT_FILE" = Some (mkVariable "exported" (VString s)) ->
       env' !! "SSL_CERT_FILE" =
         if String.eqb s "/no-cert-file.crt"
         then env !! "SSL_CERT_FILE" else Some s).
Proof.
  intros Htyped.
  destruct (mergeDevEnv_lookup vars env Htyped) as (env' & Hrun & Hlook).
  exists env'. split; [exact Hrun|]. split; [|split].
  - intros key val Hkey. rewrite Hlook, Hkey. simpl. split.
    + intros (Hexp & Hign & Hssl).
      destruct (Htyped key val Hkey Hexp) as [s Hs].
      assert (Hc : copiedValue key val = Some s).
      { apply copiedValue_Some. repeat split; try assumption.
        intros [-> ->]. apply Hssl. now split. }
      rewrite Hc, Hs. reflexivity.
    + intros Hnot. destruct (copiedValue key val) as [s|] eqn:Hc;
        [|reflexivity].
      apply copiedValue_Some in Hc as (Hs & Hexp & Hign & Hssl).
      exfalso. apply Hnot. repeat split; try assumption.
      intros [-> Hv]. apply Hssl. split; congruence.
  - intros key Hkey. now rewrite Hlook, Hkey.
  - intros s Hkey. rewrite Hlook, Hkey. simpl. unfold copiedValue. simpl.
    now destruct (String.eqb s "/no-cert-file.crt").
Qed.

Lemma mergeDevEnv_copies_exported_witness :
  let vars : gmap string variable :=
    {["SSL_CERT_FILE" := mkVariable "exported" (VString "/no-cert-file.crt");
      "HOME" := mkVariable "exported" (VString "/homeless-shelter");
      "CC" := mkVariable "exported" (VString "gcc");
      "buildInputs" := mkVariable "var" (VString "gcc");
      "pkgsArr" := mkVariable "array" VOther]} in
  let env : gmap string string :=
    {["HOME" := "/home/me"; "SSL_CERT_FILE" := "/etc/ssl/cert.pem"]} in
  exists env',
    mergeDevEnv vars env = Ok env' /\
    env' !! "CC" = Some "gcc" /\
    env' !! "HOME" = Some "/home/me" /\
    env' !! "SSL_CERT_FILE" = Some "/etc/ssl/cert.pem" /\
    env' !! "buildInputs" = None /\
    env' !! "pkgsArr" = None.
Proof.
  intros vars env.
  destruct (mergeDevEnv_copies_exported vars env)
    as (env' & Hrun & Hentries & Habsent & Hssl).
  - intros key val Hkey Hexp. unfold vars in Hkey.
    repeat (apply lookup_insert_Some in Hkey as [[_ <-]|[_ Hkey]];
            [simpl in *; try discriminate; eauto|]).
    apply lookup_singleton_Some in Hkey as [_ <-]. discriminate.
  - exists env'. split; [exact Hrun|].
    split.
    { destruct (Hentries "CC" (mkVariable "exported" (VString "gcc")))
        as [Hcopied _]; [reflexivity|].
      destruct (env' !! "CC") as [s|] eqn:Hcc.
      - specialize (Hcopied ltac:(repeat split; [intros [[=] _]])).
        now injection Hcopied as ->.
      - specialize (Hcopied ltac:(repeat split; [intros [[=] _]])).
        discriminate. }
    split.
    { destruct (Hentries "HOME"
                  (mkVariable "exported" (VString "/homeless-shelter")))
        as [_ Hkept]; [reflexivity|].
      rewrite Hkept; [reflexivity|]. intros (_ & [=] & _). }
    split.
    { rewrite (Hssl "/no-cert-file.crt"); reflexivity. }
    split.
    { destruct (Hentries "buildInputs" (mkVariable "var" (VString "gcc")))
        as [_ Hkept]; [reflexivity|].
      rewrite Hkept; [reflexivity|]. intros ([=] & _). }
    { destruct (Hentries "pkgsArr" (mkVariable "array" VOther))
        as [_ Hkept]; [reflexivity|].
      rewrite Hkept; [reflexivity|]. intros ([=] & _). }
Defined.

Lemma mapperfunc_PWD h computedEnv : mapperfunc h computedEnv "PWD" = projectDir h.
Proof. reflexivity. Qed.

Lemma mapperfunc_other h computedEnv name :
  name <> "PWD" -> mapperfunc h computedEnv name = at_ computedEnv name.
Proof.
  intros Hne. unfold mapperfunc, at_.
  destruct (String.eqb_spec name "PWD") as [|_]; [congruence|].
  now destruct (computedEnv !! name).
Qed.

(** C6.  When the layers of a composition succeed and the variables of
    devbox.json are enabled, the value of every declared variable is
    expanded by os.Expand against the mapping after the plugin layer,
    which holds no declared variable, and the result is what the
    composition returns for it (but for PATH, which is set afterwards).
    The name PWD gives the project directory whatever that mapping holds,
    any other name gives its value in that mapping, and the empty string
    when it has none.  A reference in braces, and a bare reference, are
    replaced by what that gives for their name; other text is copied. *)
Theorem configEnvs_expand_against_composed
    (h : Host) (w : World) (env1 env2 plug : gmap string string)
    (vars : gmap string variable) (key value : string) :
  copyCurrentEnv (environ h) ∅ = Ok env1 ->
  PrintDevEnv h = Ok vars ->
  mergeDevEnv vars env1 = Ok env2 ->
  pluginEnv h (cfg w) = Ok plug ->
  EnvConfig h = true ->
  Env (cfg w) !! key = Some value ->
  let mapping := mapperfunc h (afterPlugins env2 plug) in
  configEnvs h (cfg w) (afterPlugins env2 plug) !! key =
    Some (Expand value mapping) /\
  (exists env,
     snd (computeNixEnv h w) = Ok env /\
     (key <> "PATH" -> env !! key = Some (Expand value mapping))) /\
  mapping "PWD" = projectDir h /\
  (forall name v,
     name <> "PWD" -> afterPlugins env2 plug !! name = Some v ->
     mapping name = v) /\
  (forall name,
     name <> "PWD" -> afterPlugins env2 plug !! name = None ->
     mapping name = EmptyString) /\
  (forall name rest,
     name <> EmptyString -> indexByte "}"%char name = None ->
     Expand ("${" +:+ name +:+ "}" +:+ rest) mapping =
     mapping name +:+ Expand rest mapping) /\
  (forall c name rest,
     isAlphaNum c = true -> isShellSpecialVar c = false ->
     alphaNumPrefix name = String.length name -> alphaNumPrefix rest = 0 ->
     Expand ("$" +:+ String c name +:+ rest) mapping =
     mapping (String c name) +:+ Expand rest mapping) /\
  (forall lit rest,
     indexByte "$"%char lit = None ->
     Expand (lit +:+ rest) mapping = lit +:+ Expand rest mapping).
Proof.
  intros Hamb Hprint Hbuilt Hplug Hflag Hkey mapping.
  split; [now rewrite lookup_configEnvs, Hkey|].
  split.
  { rewrite (computeNixEnv_layers h w env1 env2 plug vars) by assumption.
    eexists. split; [reflexivity|]. intros Hne.
    rewrite lookup_insert_ne by congruence.
    rewrite Hflag, lookup_mergeInto, lookup_configEnvs, Hkey.
    reflexivity. }
  split; [reflexivity|].
  split.
  { intros name v Hname Hv. unfold mapping.
    rewrite mapperfunc_other by exact Hname. unfold at_. now rewrite Hv. }
  split.
  { intros name Hname Hv. unfold mapping.
    rewrite mapperfunc_other by exact Hname. unfold at_. now rewrite Hv. }
  split; [intros; now apply Expand_braced|].
  split; [intros; now apply Expand_bare|].
  intros; now apply Expand_literal.
Qed.

Lemma configEnvs_expand_against_composed_witness :
  let h := hostWith true ["BAR=baz"; "PWD=/elsewhere"]
             noWriteErr noInstallErr noRemoveErr ∅ ∅ in
  let w := projectWithEnv {["FOO" := "${BAR}"]} in
  exists env,
    snd (computeNixEnv h w) = Ok env /\ env !! "FOO" = Some "baz".
Proof.
  intros h w.
  destruct (configEnvs_expand_against_composed h w
              {["BAR" := "baz"]} {["BAR" := "baz"]} ∅ ∅ "FOO" "${BAR}")
    as (_ & (env & Hres & Hfoo) & _).
  - vm_compute. reflexivity.
  - reflexivity.
  - vm_compute. reflexivity.
  - reflexivity.
  - reflexivity.
  - vm_compute. reflexivity.
  - exists env. split; [exact Hres|].
    rewrite Hfoo by discriminate. vm_compute. reflexivity.
Defined.

(** With BAR absent from the process environment, FOO=${BAR} is empty. *)
Example configEnvs_reference_absent :
  let h := hostWith true ["PWD=/elsewhere"]
             noWriteErr noInstallErr noRemoveErr ∅ ∅ in
  let w := projectWithEnv {["FOO" := "${BAR}"]} in
  exists env,
    snd (computeNixEnv h w) = Ok env /\ env !! "FOO" = Some EmptyString.
Proof. eexists. split; vm_compute; reflexivity. Qed.

(** Declared variables do not see each other, and PWD is the project
    directory, not the PWD of the process environment. *)
Example configEnvs_no_cross_reference :
  let h := hostWith true ["PWD=/elsewhere"]
             noWriteErr noInstallErr noRemoveErr ∅ ∅ in
  let w := projectWithEnv
             {["ONE" := "1"; "TWO" := "${ONE}2"; "BIN" := "$PWD/bin"]} in
  exists env,
    snd (computeNixEnv h w) = Ok env /\
    env !! "ONE" = Some "1" /\ env !! "TWO" = Some "2" /\
    env !! "BIN" = Some "/p/bin".
Proof. eexists. repeat split; vm_compute; reflexivity. Qed.

(** ** The shell command *)

Lemma readsCfg_computeNixEnv h : readsCfg (computeNixEnv h).
Proof. unfold computeNixEnv. reads_cfg. Qed.

Lemma IsDevboxShellEnabled_truthy h :
  IsDevboxShellEnabled h = true <->
  In (Getenv h "DEVBOX_SHELL_ENABLED") truthy.
Proof.
  unfold IsDevboxShellEnabled, ParseBool, truthy.
  set (v := Getenv h "DEVBOX_SHELL_ENABLED").
  destruct (Contains ["1"; "t"; "T"; "TRUE"; "true"; "True"] v) eqn:Ht;
    cbv iota.
  - split; [intros _|reflexivity].
    apply Contains_spec in Ht. now apply list_elem_of_In.
  - split.
    + intros Hen. exfalso.
      destruct (Contains ["0"; "f"; "F"; "FALSE"; "false"; "False"] v);
        discriminate Hen.
    + intros Hin. apply list_elem_of_In, Contains_spec in Hin. congruence.
Qed.

(** C7, as stated, fails: DEVBOX_SHELL_ENABLED is present in the process
    environment with the value "0"; devbox shell, with and without a
    trailing command, goes on and starts processes. *)
Lemma runShellCmd_inception_counterexample :
  let h := hostWith true ["DEVBOX_SHELL_ENABLED=0"]
             noWriteErr noInstallErr noRemoveErr ∅ ∅ in
  let w := projectWith [] in
  LookupEnv (environ h) "DEVBOX_SHELL_ENABLED" = Some "0" /\
  snd (runShellCmd h [] (-1) false w) = Ok tt /\
  existsb startsProcess (trace (fst (runShellCmd h [] (-1) false w))) = true /\
  snd (runShellCmd h ["echo"; "hi"] 0 false w) = Ok tt /\
  existsb startsProcess
    (trace (fst (runShellCmd h ["echo"; "hi"] 0 false w))) = true.
Proof. vm_compute. repeat split. Qed.

(** C7 (amended).  When the value of DEVBOX_SHELL_ENABLED in the process
    environment is one that strconv.ParseBool reads as true, devbox shell
    without --print-env, once its arguments are parsed and the project is
    opened, returns the shell inception error, with or without a trailing
    command, and leaves the world as it was: no event, so no process. *)
Theorem runShellCmd_inception_guard
    (h : Host) (args : list string) (lenAtDash : Z) (w : World)
    (path : string) (cmds : list string) :
  parseShellArgs h args lenAtDash = Ok (path, cmds) ->
  openErr h path = None ->
  In (Getenv h "DEVBOX_SHELL_ENABLED") truthy ->
  runShellCmd h args lenAtDash false w =
  (w, Err (ErrShellInception "devbox shell")).
Proof.
  intros Hparse Hopen Hmarker. unfold runShellCmd.
  erewrite bind_ok by (rewrite Hparse; reflexivity).
  erewrite bind_ok by (simpl; rewrite Hopen; reflexivity).
  apply IsDevboxShellEnabled_truthy in Hmarker. now rewrite Hmarker.
Qed.

Lemma runShellCmd_inception_guard_witness :
  let h := hostWith true ["DEVBOX_SHELL_ENABLED=1"]
             noWriteErr noInstallErr noRemoveErr ∅ ∅ in
  let w := projectWith [] in
  runShellCmd h [] (-1) false w =
    (w, Err (ErrShellInception "devbox shell")) /\
  runShellCmd h ["echo"; "hi"] 0 false w =
    (w, Err (ErrShellInception "devbox shell")).
Proof.
  intros h w. split.
  - apply (runShellCmd_inception_guard h [] (-1) w "/p" []).
    + reflexivity.
    + reflexivity.
    + vm_compute. left. reflexivity.
  - apply (runShellCmd_inception_guard h ["echo"; "hi"] 0 w "/p"
             ["echo"; "hi"]).
    + reflexivity.
    + reflexivity.
    + vm_compute. left. reflexivity.
Defined.

(** C9, as stated, fails: with the unified environment switched off,
    devbox shell -- echo hi runs the command and warns about nothing. *)
Lemma runShellCmd_deprecation_counterexample :
  let h := hostWith false [] noWriteErr noInstallErr noRemoveErr ∅ ∅ in
  let w := projectWith [] in
  parseShellArgs h ["echo"; "hi"] 0 = Ok ("/p", ["echo"; "hi"]) /\
  snd (runShellCmd h ["echo"; "hi"] 0 false w) = Ok tt /\
  existsb startsProcess
    (trace (fst (runShellCmd h ["echo"; "hi"] 0 false w))) = true /\
  existsb isWarning
    (trace (fst (runShellCmd h ["echo"; "hi"] 0 false w))) = false.
Proof. vm_compute. repeat split. Qed.

(** C9 (amended).  devbox shell with a trailing command, outside a devbox
    shell and without --print-env, runs Exec on the command, which with
    the unified environment is RunScript on its first word; with the
    unified environment switched on, and only then, it first emits the
    deprecation warning, once.  The warning is one more event in the
    trace: what computeNixEnv returns does not depend on the trace. *)
Theorem runShellCmd_trailing_command
    (h : Host) (args : list string) (lenAtDash : Z) (w : World)
    (path cmd0 : string) (cmdArgs : list string) :
  parseShellArgs h args lenAtDash = Ok (path, cmd0 :: cmdArgs) ->
  openErr h path = None ->
  IsDevboxShellEnabled h = false ->
  runShellCmd h args lenAtDash false w =
    (if UnifiedEnv h
     then RunScript h cmd0 cmdArgs (addEvents [Warning deprecationWarning] w)
     else ExecWithShell h (cmd0 :: cmdArgs) w) /\
  forall evs,
    snd (computeNixEnv h (addEvents evs w)) = snd (computeNixEnv h w).
Proof.
  intros Hparse Hopen Hout. split.
  - unfold runShellCmd.
    erewrite bind_ok by (rewrite Hparse; reflexivity).
    erewrite bind_ok by (simpl; rewrite Hopen; reflexivity).
    rewrite Hout. simpl. unfold Exec.
    destruct (UnifiedEnv h); simpl.
    + erewrite bind_ok by reflexivity. reflexivity.
    + erewrite bind_ok by reflexivity. reflexivity.
  - intros evs.
    rewrite (readsCfg_run _ (addEvents evs w) (readsCfg_computeNixEnv h)).
    rewrite (readsCfg_run _ w (readsCfg_computeNixEnv h)).
    reflexivity.
Qed.

Lemma runShellCmd_trailing_command_witness :
  let h := hostWith true [] noWriteErr noInstallErr noRemoveErr ∅ ∅ in
  let w := projectWith [] in
  runShellCmd h ["echo"; "hi"] 0 false w =
    RunScript h "echo" ["hi"] (addEvents [Warning deprecationWarning] w) /\
  hd_error (trace (fst (runShellCmd h ["echo"; "hi"] 0 false w))) =
    Some (Warning deprecationWarning).
Proof.
  intros h w.
  destruct (runShellCmd_trailing_command h ["echo"; "hi"] 0 w "/p" "echo"
              ["hi"]) as [Hrun _].
  - reflexivity.
  - reflexivity.
  - reflexivity.
  - split; [exact Hrun|]. rewrite Hrun. vm_compute. reflexivity.
Defined.

(** C10, as stated, fails: with the unified environment switched off,
    Exec with no command syncs the packages and runs nix. *)
Lemma Exec_empty_counterexample :
  let h := hostWith false [] noWriteErr noInstallErr noRemoveErr ∅ ∅ in
  let w := projectWith [] in
  snd (Exec h [] w) = Ok tt /\
  existsb startsProcess (trace (fst (Exec h [] w))) = true /\
  fst (Exec h [] w) <> w.
Proof.
  split; [vm_compute; reflexivity|]. split; [vm_compute; reflexivity|].
  intros Heq. apply (f_equal (fun x => List.length (trace x))) in Heq.
  vm_compute in Heq. discriminate.
Qed.

(** C10 (amended).  With the unified environment switched on, Exec with
    no command returns the error for the empty command and leaves the
    world as it was: nothing is synced, written or composed. *)
Theorem Exec_empty_command (h : Host) (w : World) :
  UnifiedEnv h = true ->
  Exec h [] w = (w, Err (ErrEmptyCommand [])).
Proof. intros Hflag. unfold Exec. now rewrite Hflag. Qed.

Lemma Exec_empty_command_witness :
  let h := hostWith true [] noWriteErr noInstallErr noRemoveErr ∅ ∅ in
  Exec h [] (projectWith ["x"]) =
    (projectWith ["x"], Err (ErrEmptyCommand [])).
Proof. intros h. apply Exec_empty_command. reflexivity. Defined.

(** ** Script files *)

Lemma length_append (a b : string) :
  String.length (a +:+ b) = String.length a + String.length b.
Proof.
  induction a as [|c a IH]; [reflexivity|].
  change (S (String.length (a +:+ b)) = S (String.length a + String.length b)).
  now rewrite IH.
Qed.

Lemma append_inj_suffix (a1 a2 b : string) : a1 +:+ b = a2 +:+ b -> a1 = a2.
Proof.
  revert a2. induction a1 as [|c a1 IH]; intros [|c2 a2] Heq.
  - reflexivity.
  - apply (f_equal String.length) in Heq.
    rewrite !length_append in Heq. simpl in Heq. lia.
  - apply (f_equal String.length) in Heq.
    rewrite !length_append in Heq. simpl in Heq. lia.
  - change (String c (a1 +:+ b) = String c2 (a2 +:+ b)) in Heq.
    injection Heq as -> Heq. f_equal. now apply IH.
Qed.

#[export] Instance scriptFilename_inj : Inj (=) (=) scriptFilename.
Proof. intros a1 a2. unfold scriptFilename. apply append_inj_suffix. Qed.

Lemma setScriptFiles_same w : setScriptFiles (scriptFiles w) w = w.
Proof. now destruct w. Qed.

Lemma splitSlash_nonempty (s : string) : splitSlash s <> [].
Proof.
  destruct s as [|c s]; simpl; [discriminate|].
  destruct (Ascii.eqb c "/"%char); [discriminate|].
  destruct (splitSlash s); discriminate.
Qed.

(** Splitting a path that ends with one more element. *)
Lemma splitSlash_app (a b : string) :
  splitSlash (a +:+ "/" +:+ b) = splitSlash a ++ splitSlash b.
Proof.
  induction a as [|c a IH]; [reflexivity|].
  change (String c a +:+ "/" +:+ b) with (String c (a +:+ "/" +:+ b)).
  cbn [splitSlash]. rewrite IH.
  destruct (Ascii.eqb c "/"%char); [reflexivity|].
  pose proof (splitSlash_nonempty a) as Hne.
  destruct (splitSlash a) as [|first others]; [congruence|reflexivity].
Qed.

Lemma splitSlash_simple (f : string) :
  indexByte "/"%char f = None -> splitSlash f = [f].
Proof.
  induction f as [|c f IH]; simpl; [reflexivity|].
  destruct (Ascii.eqb c "/"%char); [discriminate|].
  destruct (indexByte "/"%char f); [discriminate|]. intros _.
  now rewrite IH.
Qed.

Lemma isRooted_app (a b : string) :
  a <> EmptyString -> isRooted (a +:+ b) = isRooted a.
Proof. now destruct a. Qed.

(** A single path element after the scripts directory is an entry of
    it. *)
Lemma scriptEntry_simple h (f : string) :
  indexByte "/"%char f = None ->
  f <> EmptyString -> f <> "." -> f <> ".." ->
  scriptEntry h f = Some f.
Proof.
  intros Hslash Hempty Hdot Hdotdot. unfold scriptEntry.
  set (dir := joinFromFirst [projectDir h; scriptsDir]).
  assert (Hdir : dir <> EmptyString).
  { unfold dir. cbn [joinFromFirst].
    destruct (String.eqb_spec (projectDir h) EmptyString) as [|Hp].
    - discriminate.
    - unfold Join. cbn [String.concat]. destruct (projectDir h);
        [congruence|discriminate]. }
  assert (Hjoin : joinFromFirst [projectDir h; scriptsDir; f] =
                  dir +:+ "/" +:+ f).
  { unfold dir. cbn [joinFromFirst].
    destruct (String.eqb_spec (projectDir h) EmptyString) as [Hp|Hp].
    - reflexivity.
    - unfold Join. cbn [String.concat].
      generalize (projectDir h). intros a. induction a as [|c a IH];
        [reflexivity|].
      change (String c (a +:+ "/" +:+ scriptsDir +:+ "/" +:+ f) =
              String c ((a +:+ "/" +:+ scriptsDir) +:+ "/" +:+ f)).
      now rewrite IH. }
  rewrite Hjoin. unfold cleanElems.
  rewrite (isRooted_app dir _ Hdir), splitSlash_app, foldl_app.
  rewrite (splitSlash_simple f Hslash). cbn [foldl]. unfold cleanStep at 1.
  destruct (String.eqb_spec f EmptyString) as [|_]; [congruence|].
  destruct (String.eqb_spec f ".") as [|_]; [congruence|].
  destruct (String.eqb_spec f "..") as [|_]; [congruence|].
  cbn [orb]. now rewrite decide_True by reflexivity.
Qed.

Lemma indexByte_app_None c (a b : string) :
  indexByte c a = None -> indexByte c b = None ->
  indexByte c (a +:+ b) = None.
Proof.
  intros Ha Hb. induction a as [|d a IH]; [exact Hb|].
  change (indexByte c (String d (a +:+ b)) = None). simpl in *.
  destruct (Ascii.eqb d c); [discriminate|].
  destruct (indexByte c a); [discriminate|]. now rewrite IH.
Qed.

(** The file of a script whose name holds no slash is an entry of the
    scripts directory, under the name of the file. *)
Lemma scriptEntry_scriptFilename h (name : string) :
  indexByte "/"%char name = None ->
  scriptEntry h (scriptFilename name) = Some (scriptFilename name).
Proof.
  intros Hslash.
  assert (Hlen : 3 <= String.length (scriptFilename name)).
  { unfold scriptFilename. rewrite length_append. simpl. lia. }
  apply scriptEntry_simple.
  - unfold scriptFilename. now apply indexByte_app_None.
  - intros Heq. now rewrite Heq in Hlen.
  - intros Heq. rewrite Heq in Hlen. simpl in Hlen. lia.
  - intros Heq. rewrite Heq in Hlen. simpl in Hlen. lia.
Qed.

Lemma writeScriptFile_ok h name body w :
  writable h (scriptFiles w) name ->
  writeScriptFile h name body w =
  (setScriptFiles
     (<[scriptFilename name := File body perm0755]> (scriptFiles w)) w,
   Ok tt).
Proof.
  intros (Hdir & Hcreate & Hchmod & Hwrite & Hclose & Hslash).
  unfold writeScriptFile.
  rewrite (scriptEntry_scriptFilename h name Hslash).
  rewrite Hcreate, Hchmod, Hwrite, Hclose. cbn [mbind option_bind storeAt].
  destruct (scriptFiles w !! scriptFilename name) as [[body0 perm|]|];
    [reflexivity|congruence|reflexivity].
Qed.

Lemma scriptFilesOf_empty h : scriptFilesOf h ∅ = ∅.
Proof. unfold scriptFilesOf. now rewrite fmap_empty, kmap_empty. Qed.

Lemma scriptFilesOf_insert h scripts name body :
  scriptFilesOf h (<[name := body]> scripts) =
  <[scriptFilename name := File (scriptBody h body) perm0755]>
    (scriptFilesOf h scripts).
Proof.
  unfold scriptFilesOf. rewrite fmap_insert.
  now rewrite kmap_insert by apply scriptFilename_inj.
Qed.

Lemma lookup_scriptFilesOf h scripts name :
  scriptFilesOf h scripts !! scriptFilename name =
  (fun body => File (scriptBody h body) perm0755) <$> scripts !! name.
Proof.
  unfold scriptFilesOf. rewrite lookup_kmap by apply scriptFilename_inj.
  now rewrite lookup_fmap.
Qed.

Lemma scriptFilesOf_files h scripts f n :
  scriptFilesOf h scripts !! f = Some n ->
  exists name body, f = scriptFilename name /\ scripts !! name = Some body /\
                    n = File (scriptBody h body) perm0755.
Proof.
  unfold scriptFilesOf. intros Hf.
  apply lookup_kmap_Some in Hf as (name & -> & Hname);
    [|apply scriptFilename_inj].
  rewrite lookup_fmap in Hname.
  destruct (scripts !! name) as [body|] eqn:Hs; [|discriminate].
  injection Hname as <-. now exists name, body.
Qed.

Lemma writeScripts_ok h (written : gset string) (scripts : gmap string string) :
  forall w,
  (forall name, is_Some (scripts !! name) -> writable h (scriptFiles w) name) ->
  writeScripts h scripts written w =
  (setScriptFiles (scriptFilesOf h scripts ∪ scriptFiles w) w,
   Ok (dom (scriptFilesOf h scripts) ∪ written)).
Proof.
  unfold writeScripts.
  apply (map_fold_weak_ind
           (fun (acc : M (gset string)) (m : gmap string string) =>
              forall w,
                (forall name, is_Some (m !! name) ->
                              writable h (scriptFiles w) name) ->
                acc w =
                (setScriptFiles (scriptFilesOf h m ∪ scriptFiles w) w,
                 Ok (dom (scriptFilesOf h m) ∪ written)))).
  - intros w _. rewrite scriptFilesOf_empty, dom_empty_L.
    rewrite !(left_id_L ∅ (∪)). now rewrite setScriptFiles_same.
  - intros name body m acc Hfresh IH w Hw.
    erewrite bind_ok; cycle 1.
    { apply IH. intros name' Hname'. apply Hw.
      destruct (decide (name = name')) as [->|Hne].
      - rewrite lookup_insert_eq. eauto.
      - now rewrite lookup_insert_ne. }
    assert (Hnone : scriptFilesOf h m !! scriptFilename name = None).
    { now rewrite lookup_scriptFilesOf, Hfresh. }
    erewrite bind_ok; cycle 1.
    { apply writeScriptFile_ok.
      destruct (Hw name) as (Hdir & Hrest).
      { rewrite lookup_insert_eq. eauto. }
      split; [|exact Hrest]. simpl.
      rewrite lookup_union_r by exact Hnone. exact Hdir. }
    unfold ret. simpl. f_equal.
    + unfold setScriptFiles. simpl. f_equal.
      rewrite scriptFilesOf_insert. now rewrite insert_union_l.
    + f_equal. rewrite scriptFilesOf_insert, dom_insert_L.
      now rewrite (assoc_L (∪)).
Qed.

Lemma pruneEntry_run h (written : gset string) (entry : string * bool) w :
  (if negb (bool_decide (fst entry ∈ written)) && negb (snd entry)
   then
     r <- try (removeFile h (fst entry)) ;;
     match r with
     | Err err =>
         emit (DebugLogErr ("failed to clean up script file " +:+ fst entry
                            +:+ ", error = ") err)
     | Ok _ => ret tt
     end
   else ret tt) w =
  (addEvents (pruneLog h written [entry])
     (setScriptFiles (pruneStep h written (scriptFiles w) entry) w),
   Ok tt).
Proof.
  unfold pruneStep, pruneLog. cbn [flat_map].
  destruct (negb (bool_decide (fst entry ∈ written)) && negb (snd entry)).
  - unfold bind, try, removeFile.
    destruct (removeErr h (fst entry)) as [e|].
    + simpl. now rewrite setScriptFiles_same.
    + simpl. now rewrite addEvents_nil.
  - unfold ret. simpl. now rewrite setScriptFiles_same, addEvents_nil.
Qed.

Lemma pruneLog_cons h (written : gset string) entry entries :
  pruneLog h written (entry :: entries) =
  pruneLog h written [entry] ++ pruneLog h written entries.
Proof.
  unfold pruneLog. change (entry :: entries) with ([entry] ++ entries).
  now rewrite flat_map_app.
Qed.

Lemma pruneScripts_run h (written : gset string)
    (entries : list (string * bool)) :
  forall w,
    pruneScripts h entries written w =
    (addEvents (pruneLog h written entries)
       (setScriptFiles (foldl (pruneStep h written) (scriptFiles w) entries)
                       w),
     Ok tt).
Proof.
  unfold pruneScripts.
  induction entries as [|entry entries IH]; intros w.
  - simpl. unfold ret. now rewrite setScriptFiles_same, addEvents_nil.
  - cbn [forEach foldl].
    erewrite bind_ok by apply pruneEntry_run.
    rewrite IH, (pruneLog_cons h written entry entries).
    unfold addEvents, setScriptFiles.
    cbn [cfg persisted writes scriptFiles trace]. now rewrite app_assoc.
Qed.

Lemma pruneLog_In h (written : gset string) (files : gmap string node)
    (f body : string) (perm : N) (e : error) :
  files !! f = Some (File body perm) ->
  f ∉ written ->
  removeErr h f = Some e ->
  In (DebugLogErr ("failed to clean up script file " +:+ f +:+ ", error = ")
        e)
     (pruneLog h written
        (List.map (fun e => (fst e, isDir (snd e))) (map_to_list files))).
Proof.
  intros Hf Hw He. unfold pruneLog. apply in_flat_map.
  exists (f, false). split.
  - apply in_map_iff. exists (f, File body perm). split; [reflexivity|].
    now apply list_elem_of_In, elem_of_map_to_list.
  - cbn [fst snd]. rewrite (bool_decide_eq_false_2 _ Hw), He. now left.
Qed.

Lemma lookup_pruned h (written : gset string)
    (entries : list (string * bool)) :
  forall (files : gmap string node) (f : string),
    foldl (pruneStep h written) files entries !! f =
    if removedBy h written entries f then None else files !! f.
Proof.
  induction entries as [|[name dir] entries IH]; intros files f;
    [reflexivity|].
  cbn [foldl]. rewrite IH. unfold removedBy. cbn [existsb fst snd].
  fold (removedBy h written entries f).
  destruct (removedBy h written entries f); [now rewrite orb_true_r|].
  rewrite orb_false_r. unfold pruneStep. cbn [fst snd].
  destruct (negb (bool_decide (name ∈ written)) && negb dir);
    [|now rewrite andb_false_r].
  rewrite andb_true_r.
  destruct (removeErr h name) as [e|]; [now rewrite andb_false_r|].
  rewrite andb_true_r.
  destruct (String.eqb_spec name f) as [->|Hne].
  - now rewrite lookup_delete_eq.
  - now rewrite lookup_delete_ne.
Qed.

Lemma removedBy_readDir h (written : gset string)
    (files : gmap string node) (f : string) :
  removedBy h written
    (List.map (fun e => (fst e, isDir (snd e))) (map_to_list files)) f = true
  <->
  exists n, files !! f = Some n /\ (f ∉ written) /\ isDir n = false
            /\ removeErr h f = None.
Proof.
  unfold removedBy. rewrite existsb_exists. split.
  - intros ([name dir] & Hin & Hcond). cbn [fst snd] in Hcond.
    apply in_map_iff in Hin as ([name' n] & [= <- <-] & Hin).
    apply list_elem_of_In, elem_of_map_to_list in Hin. cbn [fst snd] in *.
    apply andb_true_iff in Hcond as [Hcond Hrm].
    apply andb_true_iff in Hcond as [Heq Hcond].
    apply andb_true_iff in Hcond as [Hw Hdir].
    apply String.eqb_eq in Heq. subst name'.
    exists n. split; [exact Hin|]. split.
    + apply negb_true_iff in Hw. now apply bool_decide_eq_false in Hw.
    + split; [now apply negb_true_iff|].
      now destruct (removeErr h f).
  - intros (n & Hf & Hw & Hdir & Hrm).
    exists (f, isDir n). split.
    + apply in_map_iff. exists (f, n). split; [reflexivity|].
      now apply list_elem_of_In, elem_of_map_to_list.
    + cbn [fst snd]. rewrite String.eqb_refl, Hdir, Hrm.
      now rewrite (bool_decide_eq_false_2 _ Hw).
Qed.


Lemma leftBehind_lookup h (files : gmap string node) f :
  leftBehind h files !! f =
  match files !! f with
  | Some Dir => Some Dir
  | Some (File body perm) =>
      match removeErr h f with
      | Some _ => Some (File body perm)
      | None => None
      end
  | None => None
  end.
Proof.
  unfold leftBehind. destruct (files !! f) as [n|] eqn:Hf.
  - destruct n as [body perm|].
    + destruct (removeErr h f) as [e|] eqn:Hrm.
      * apply map_lookup_filter_Some. split; [exact Hf|]. right. simpl.
        rewrite Hrm. eauto.
      * apply map_lookup_filter_None. right. intros n Hn [Hd|Hs];
          simpl in *.
        -- rewrite Hf in Hn. injection Hn as <-. discriminate.
        -- rewrite Hrm in Hs. now destruct Hs.
    + apply map_lookup_filter_Some. split; [exact Hf|]. now left.
  - apply map_lookup_filter_None. now left.
Qed.

Section Materialize.
Variables (h : Host) (w : World) (pluginHooks : list string).

Hypothesis mkdir : mkdirAllErr h = None.
Hypothesis readdir : readDirErr h = None.
Hypothesis hooks : pluginInitHooks h (cfg w) = Ok pluginHooks.
Hypothesis canWrite :
  forall name,
    name = hooksFilename \/ is_Some (Scripts (cfg w) !! name) ->
    writable h (scriptFiles w) name.

Lemma writeScriptsToFiles_run :
  writeScriptsToFiles h w =
  (addEvents
     (pruneLog h (dom (writtenFiles h (cfg w) pluginHooks))
        (List.map (fun e => (fst e, isDir (snd e)))
                  (map_to_list (scriptFiles w))))
     (setScriptFiles
        (writtenFiles h (cfg w) pluginHooks ∪ leftBehind h (scriptFiles w))
        w),
   Ok tt).
Proof.
  unfold writeScriptsToFiles.
  erewrite bind_ok by (rewrite mkdir; reflexivity).
  erewrite bind_ok by (rewrite readdir; reflexivity).
  erewrite bind_ok by reflexivity.
  erewrite bind_ok by reflexivity.
  erewrite bind_ok by (rewrite hooks; reflexivity).
  erewrite bind_ok; cycle 1.
  { apply writeScriptFile_ok. apply canWrite. now left. }
  erewrite bind_ok; cycle 1.
  { apply writeScripts_ok. intros name Hname. simpl.
    destruct (canWrite name (or_intror Hname)) as (Hdir & Hrest).
    split; [|exact Hrest].
    destruct (decide (scriptFilename hooksFilename = scriptFilename name))
      as [<-|Hne].
    - now rewrite lookup_insert_eq.
    - now rewrite lookup_insert_ne. }
  fold (hooksBody (cfg w) pluginHooks).
  set (written := dom (scriptFilesOf h (Scripts (cfg w)))
                  ∪ {[scriptFilename hooksFilename]}).
  set (entries := List.map (fun e => (fst e, isDir (snd e)))
                           (map_to_list (scriptFiles w))).
  rewrite pruneScripts_run.
  assert (Hdom : written = dom (writtenFiles h (cfg w) pluginHooks)).
  { unfold written, writtenFiles. now rewrite dom_union_L, dom_singleton_L. }
  f_equal.
  unfold addEvents, setScriptFiles.
  cbn [cfg persisted writes scriptFiles trace].
  rewrite <- Hdom. f_equal.
  apply map_eq. intros f. rewrite lookup_pruned.
  rewrite insert_union_singleton_l, (assoc_L (∪)).
  fold (writtenFiles h (cfg w) pluginHooks).
  destruct (writtenFiles h (cfg w) pluginHooks !! f) as [n|] eqn:Hw.
  - (* a file written in this pass *)
    destruct (removedBy h written entries f) eqn:Hrm.
    + apply removedBy_readDir in Hrm as (n' & _ & Hnot & _).
      exfalso. apply Hnot. rewrite Hdom. apply elem_of_dom. eauto.
    + rewrite !(lookup_union_l' _ _ _) by (rewrite Hw; eauto).
      reflexivity.
  - (* an entry from before *)
    rewrite !lookup_union_r by exact Hw.
    rewrite leftBehind_lookup.
    destruct (removedBy h written entries f) eqn:Hrm.
    + apply removedBy_readDir in Hrm as (n & -> & _ & Hdir & ->).
      now destruct n.
    + destruct (scriptFiles w !! f) as [[body perm|]|] eqn:Hf;
        try reflexivity.
      destruct (removeErr h f) as [e|] eqn:He; [reflexivity|].
      exfalso. apply not_true_iff_false in Hrm. apply Hrm.
      apply removedBy_readDir. exists (File body perm).
      repeat split; try assumption.
      rewrite Hdom. intros Hin. apply elem_of_dom in Hin as [n Hn].
      congruence.
Qed.
End Materialize.

Lemma lookup_writtenFiles_script h c pluginHooks name body :
  Scripts c !! name = Some body ->
  writtenFiles h c pluginHooks !! scriptFilename name =
  Some (File (scriptBody h body) perm0755).
Proof.
  intros Hname. unfold writtenFiles. apply lookup_union_Some_l.
  now rewrite lookup_scriptFilesOf, Hname.
Qed.

Lemma lookup_writtenFiles_hooks h c pluginHooks :
  Scripts c !! hooksFilename = None ->
  writtenFiles h c pluginHooks !! scriptFilename hooksFilename =
  Some (File (hooksBody c pluginHooks) perm0755).
Proof.
  intros Hname. unfold writtenFiles.
  rewrite lookup_union_r by (now rewrite lookup_scriptFilesOf, Hname).
  apply lookup_singleton_eq.
Qed.

Lemma lookup_writtenFiles_other h c pluginHooks f :
  f <> scriptFilename hooksFilename ->
  (forall name, is_Some (Scripts c !! name) -> f <> scriptFilename name) ->
  writtenFiles h c pluginHooks !! f = None.
Proof.
  intros Hhooks Hscripts. unfold writtenFiles.
  apply lookup_union_None. split.
  - destruct (scriptFilesOf h (Scripts c) !! f) as [n|] eqn:Hf;
      [|reflexivity].
    apply scriptFilesOf_files in Hf as (name & body & -> & Hname & _).
    exfalso. apply (Hscripts name); [eauto|reflexivity].
  - apply lookup_singleton_ne. congruence.
Qed.

Lemma writtenFiles_is_written h c pluginHooks name :
  name = hooksFilename \/ is_Some (Scripts c !! name) ->
  exists body,
    writtenFiles h c pluginHooks !! scriptFilename name =
    Some (File body perm0755).
Proof.
  intros [->|[body Hname]].
  - destruct (Scripts c !! hooksFilename) as [body|] eqn:Hs.
    + exists (scriptBody h body). now apply lookup_writtenFiles_script.
    + exists (hooksBody c pluginHooks). now apply lookup_writtenFiles_hooks.
  - exists (scriptBody h body). now apply lookup_writtenFiles_script.
Qed.

Lemma leftBehind_twice h (written files : gmap string node) :
  written ∪ leftBehind h (written ∪ leftBehind h files) =
  written ∪ leftBehind h files.
Proof.
  apply map_eq. intros f.
  destruct (written !! f) as [n|] eqn:Hw.
  - now rewrite !(lookup_union_Some_l _ _ _ _ Hw).
  - rewrite !lookup_union_r by exact Hw.
    rewrite (leftBehind_lookup h (written ∪ leftBehind h files)).
    rewrite lookup_union_r by exact Hw.
    rewrite leftBehind_lookup.
    destruct (files !! f) as [[body perm|]|]; try reflexivity.
    now destruct (removeErr h f).
Qed.

(** C8.  The file of a script is created at the path that filepath.Join
    has cleaned, but the pass remembers it under the name as declared.
    For a script named ./b the first pass writes the entry b.sh of the
    scripts directory; the second pass, with the same inputs, writes it
    again and then removes it, because among the names written it finds
    ./b.sh and not b.sh: both passes succeed, nothing is logged, and the
    directory after the second pass is not the directory after the first,
    the file of the declared script is gone. *)
Theorem writeScriptsToFiles_removes_written_script :
  let h := hostWith true [] noWriteErr noInstallErr noRemoveErr ∅ ∅ in
  let w := projectWithScripts EmptyString {["./b" := "echo b"]} ∅ in
  let once := fst (writeScriptsToFiles h w) in
  let twice := fst (writeScriptsToFiles h once) in
  scriptPath h (scriptFilename "./b") = "/p/.devbox/gen/scripts/b.sh" /\
  snd (writeScriptsToFiles h w) = Ok tt /\
  scriptFiles once !! "b.sh" =
    Some (File (". /p/.devbox/gen/scripts/.hooks.sh" +:+ nl +:+ nl
                +:+ "echo b") perm0755) /\
  snd (writeScriptsToFiles h once) = Ok tt /\
  scriptFiles twice !! "b.sh" = None /\
  scriptFiles twice <> scriptFiles once /\
  trace twice = [].
Proof.
  intros h w once twice.
  split; [vm_compute; reflexivity|].
  split; [vm_compute; reflexivity|].
  split; [vm_compute; reflexivity|].
  split; [vm_compute; reflexivity|].
  split; [vm_compute; reflexivity|].
  split; [|vm_compute; reflexivity].
  intros Heq. apply (f_equal (fun files => files !! "b.sh")) in Heq.
  vm_compute in Heq. discriminate Heq.
Qed.

(** X21.  For scripts whose names are single path elements (they hold no
    slash): when the scripts directory can be made and read and the hooks
    file and the declared scripts can be written, a pass of
    writeScriptsToFiles succeeds, whether or not os.Remove fails, and so
    does a second pass on its result, which leaves every file as the first
    pass left it.  After a pass there is a hooks file, which holds the
    hooks (unless a script is itself named ".hooks") even when they are
    empty; every declared script has its file, which sources the hooks
    file and then runs the body; of the other entries only the
    directories and the files that os.Remove failed on are left, and each
    such failure is logged with its error. *)
Theorem writeScriptsToFiles_idempotent
    (h : Host) (w : World) (pluginHooks : list string) :
  mkdirAllErr h = None ->
  readDirErr h = None ->
  pluginInitHooks h (cfg w) = Ok pluginHooks ->
  (forall name,
     name = hooksFilename \/ is_Some (Scripts (cfg w) !! name) ->
     writable h (scriptFiles w) name) ->
  let once := fst (writeScriptsToFiles h w) in
  snd (writeScriptsToFiles h w) = Ok tt /\
  snd (writeScriptsToFiles h once) = Ok tt /\
  scriptFiles (fst (writeScriptsToFiles h once)) = scriptFiles once /\
  (exists body,
     scriptFiles once !! scriptFilename hooksFilename =
     Some (File body perm0755)) /\
  (Scripts (cfg w) !! hooksFilename = None ->
   scriptFiles once !! scriptFilename hooksFilename =
   Some (File (hooksBody (cfg w) pluginHooks) perm0755)) /\
  (forall name body,
     Scripts (cfg w) !! name = Some body ->
     scriptFiles once !! scriptFilename name =
     Some (File (". " +:+ scriptPath h ".hooks.sh" +:+ nl +:+ nl +:+ body)
                perm0755)) /\
  (forall f,
     f <> scriptFilename hooksFilename ->
     (forall name, is_Some (Scripts (cfg w) !! name) ->
                   f <> scriptFilename name) ->
     scriptFiles once !! f =
     match scriptFiles w !! f with
     | Some Dir => Some Dir
     | Some (File body perm) =>
         match removeErr h f with
         | Some _ => Some (File body perm)
         | None => None
         end
     | None => None
     end) /\
  (forall f body perm e,
     scriptFiles w !! f = Some (File body perm) ->
     f <> scriptFilename hooksFilename ->
     (forall name, is_Some (Scripts (cfg w) !! name) ->
                   f <> scriptFilename name) ->
     removeErr h f = Some e ->
     In (DebugLogErr
           ("failed to clean up script file " +:+ f +:+ ", error = ") e)
        (trace once)).
Proof.
  intros Hmkdir Hreaddir Hhooks Hwrite once.
  pose proof (writeScriptsToFiles_run h w pluginHooks Hmkdir Hreaddir Hhooks
                Hwrite) as Hrun.
  set (evs := pruneLog h (dom (writtenFiles h (cfg w) pluginHooks))
                (List.map (fun e => (fst e, isDir (snd e)))
                          (map_to_list (scriptFiles w)))) in Hrun.
  assert (Honce : once =
            addEvents evs
              (setScriptFiles
                 (writtenFiles h (cfg w) pluginHooks
                  ∪ leftBehind h (scriptFiles w)) w)).
  { unfold once. now rewrite Hrun. }
  assert (Hfiles : scriptFiles once =
            writtenFiles h (cfg w) pluginHooks
            ∪ leftBehind h (scriptFiles w)).
  { now rewrite Honce. }
  assert (Hcfg : cfg once = cfg w) by now rewrite Honce.
  assert (Hrun2 : exists evs2,
            writeScriptsToFiles h once =
            (addEvents evs2
               (setScriptFiles
                  (writtenFiles h (cfg once) pluginHooks
                   ∪ leftBehind h (scriptFiles once)) once), Ok tt)).
  { eexists. apply writeScriptsToFiles_run; try assumption;
      [now rewrite Hcfg|].
    intros name Hname. rewrite Hcfg in Hname.
    destruct (Hwrite name Hname) as (_ & Hrest).
    split; [|exact Hrest].
    destruct (writtenFiles_is_written h (cfg w) pluginHooks name Hname)
      as [body Hbody].
    rewrite Hfiles, (lookup_union_Some_l _ _ _ _ Hbody). discriminate. }
  destruct Hrun2 as [evs2 Hrun2].
  split; [now rewrite Hrun|].
  split; [now rewrite Hrun2|].
  split.
  { rewrite Hrun2. cbn [fst addEvents setScriptFiles scriptFiles].
    rewrite Hcfg, Hfiles. apply leftBehind_twice. }
  split.
  { destruct (writtenFiles_is_written h (cfg w) pluginHooks hooksFilename)
      as [body Hbody]; [now left|].
    exists body. rewrite Hfiles. now apply lookup_union_Some_l. }
  split.
  { intros Hnone. rewrite Hfiles. apply lookup_union_Some_l.
    now apply lookup_writtenFiles_hooks. }
  split.
  { intros name body Hname. rewrite Hfiles. apply lookup_union_Some_l.
    now apply (lookup_writtenFiles_script h (cfg w) pluginHooks name body). }
  split.
  { intros f Hf1 Hf2. rewrite Hfiles.
    rewrite lookup_union_r by now apply lookup_writtenFiles_other.
    apply leftBehind_lookup. }
  intros f body perm e Hf Hf1 Hf2 Hfail. rewrite Honce.
  cbn [trace addEvents]. apply in_or_app. right.
  apply (pruneLog_In h _ (scriptFiles w) f body perm e Hf); [|exact Hfail].
  intros Hin. apply elem_of_dom in Hin as [n Hn].
  now rewrite lookup_writtenFiles_other in Hn.
Qed.

Lemma writeScriptsToFiles_idempotent_witness :
  let h := hostWith true [] noWriteErr noInstallErr noRemoveErr ∅ ∅ in
  let prior :=
    scriptFiles
      (fst (writeScriptsToFiles h
              (projectWithScripts EmptyString
                 {["a" := "echo a"; "b" := "echo b"]} ∅))) in
  let w := projectWithScripts EmptyString {["a" := "echo a"]} prior in
  let once := fst (writeScriptsToFiles h w) in
  is_Some (prior !! "b.sh") /\
  snd (writeScriptsToFiles h w) = Ok tt /\
  scriptFiles (fst (writeScriptsToFiles h once)) = scriptFiles once /\
  scriptFiles once !! ".hooks.sh" = Some (File EmptyString perm0755) /\
  is_Some (scriptFiles once !! "a.sh") /\
  scriptFiles once !! "b.sh" = None.
Proof.
  intros h prior w once.
  destruct (writeScriptsToFiles_idempotent h w [])
    as (Hok & _ & Hsame & _ & Hhooks & Hscripts & Hothers & _).
  - reflexivity.
  - reflexivity.
  - reflexivity.
  - intros name Hname.
    assert (Hcases : name = ".hooks" \/ name = "a").
    { destruct Hname as [->|[body Hbody]]; [now left|right].
      change (Scripts (cfg w)) with ({["a" := "echo a"]} : gmap string string)
        in Hbody.
      now apply lookup_singleton_Some in Hbody as [<- _]. }
    destruct Hcases as [-> | ->]; vm_compute; repeat split; discriminate.
  - split; [vm_compute; eauto|].
    split; [exact Hok|].
    split; [exact Hsame|].
    split; [exact (Hhooks eq_refl)|].
    split; [eexists; exact (Hscripts "a" "echo a" eq_refl)|].
    fold once in Hothers. rewrite Hothers.
    + vm_compute. reflexivity.
    + discriminate.
    + intros name [body Hbody].
      change (Scripts (cfg w)) with ({["a" := "echo a"]} : gmap string string)
        in Hbody.
      apply lookup_singleton_Some in Hbody as [<- _]. discriminate.
Defined.

(** A prior pass wrote the scripts a and b; a pass that declares only a
    leaves the hooks file and a.sh. *)
Example writeScriptsToFiles_prunes_stale :
  let h := hostWith true [] noWriteErr noInstallErr noRemoveErr ∅ ∅ in
  let prior :=
    scriptFiles
      (fst (writeScriptsToFiles h
              (projectWithScripts "echo hook"
                 {["a" := "echo a"; "b" := "echo b"]} ∅))) in
  let w := projectWithScripts "echo hook" {["a" := "echo a"]} prior in
  let after := scriptFiles (fst (writeScriptsToFiles h w)) in
  size prior = 3 /\ is_Some (prior !! "b.sh") /\
  size after = 2 /\
  is_Some (after !! ".hooks.sh") /\ is_Some (after !! "a.sh").
Proof. vm_compute. repeat split; eauto. Qed.

(** * Further properties of the code *)

(** ** More on Add and Remove *)

Lemma readsCfg_forEach {A} (xs : list A) (body : A -> M unit) :
  (forall x, readsCfg (body x)) -> readsCfg (forEach xs body).
Proof.
  intros Hbody. induction xs as [|x xs IH]; simpl.
  - apply readsCfg_ret.
  - apply readsCfg_bind; [apply Hbody|intros _; exact IH].
Qed.

Lemma readsCfg_printPackageUpdateMessage h mode pkgs :
  readsCfg (printPackageUpdateMessage h mode pkgs).
Proof.
  unfold printPackageUpdateMessage.
  apply readsCfg_bind; [apply readsCfg_getCfg|intros c].
  destruct pkgs as [|pkg0 morePkgs]; simpl; [apply readsCfg_emit|].
  reads_cfg.
Qed.

Lemma printPackageUpdateMessage_outside h mode pkgs w :
  IsDevboxShellEnabled h = false ->
  exists msg,
    printPackageUpdateMessage h mode pkgs w = (addEvents [Output msg] w, Ok tt).
Proof.
  intros Hout. unfold printPackageUpdateMessage.
  rewrite (bind_ok _ _ w w (cfg w)) by reflexivity.
  destruct pkgs as [|pkg0 morePkgs]; simpl.
  - eexists. reflexivity.
  - rewrite Hout. eexists. unfold bind, emit, ret. simpl. reflexivity.
Qed.

Lemma addNew_cons declared pkg pkgs :
  addNew declared (pkg :: pkgs) =
  addNew (if Contains declared pkg then declared else declared ++ [pkg]) pkgs.
Proof. reflexivity. Qed.

Lemma addNew_elem pkgs : forall declared pkg,
  pkg ∈ addNew declared pkgs <-> pkg ∈ declared \/ pkg ∈ pkgs.
Proof.
  induction pkgs as [|p pkgs IH]; intros declared pkg.
  - rewrite addNew_nil. split; [now left|]. intros [H|H]; [exact H|].
    now apply elem_of_nil in H.
  - rewrite addNew_cons, IH, elem_of_cons.
    destruct (Contains declared p) eqn:Hc.
    + apply Contains_spec in Hc. split; [tauto|].
      intros [H|[->|H]]; tauto.
    + rewrite elem_of_app, list_elem_of_singleton. tauto.
Qed.

Lemma addNew_NoDup pkgs : forall declared,
  NoDup declared -> NoDup (addNew declared pkgs).
Proof.
  induction pkgs as [|p pkgs IH]; intros declared Hnd; [exact Hnd|].
  rewrite addNew_cons. apply IH.
  destruct (Contains declared p) eqn:Hc; [exact Hnd|].
  apply NoDup_app. split; [exact Hnd|]. split.
  - intros x Hx Hp. apply list_elem_of_singleton in Hp. subst x.
    apply Contains_spec in Hx. congruence.
  - apply NoDup_singleton.
Qed.

Lemma addNew_declared pkgs : forall declared,
  Forall (fun pkg => pkg ∈ declared) pkgs -> addNew declared pkgs = declared.
Proof.
  induction pkgs as [|p pkgs IH]; intros declared Hall; [reflexivity|].
  inversion Hall as [|? ? Hp Hrest]; subst.
  rewrite addNew_cons. apply Contains_spec in Hp. rewrite Hp. now apply IH.
Qed.


Section AddSucceeds.
Variables (h : Host) (pkgs : list string) (w : World).

Let declared := RawPackages (cfg w).
Let added := withRawPackages (cfg w) (addNew declared pkgs).

Hypothesis valid :
  Forall (fun pkg => PkgExists h (Commit (cfg w)) pkg = true) pkgs.
Hypothesis saved : writeFileErr h (writes w) added = None.
Hypothesis synced : syncError h install added = None.

(** What is left of Add after a sync that succeeds. *)
Lemma Add_sync_success :
  Add h pkgs w =
  (forEach pkgs (fun pkg =>
     emit (PrintReadme pkg) ;;; check (pluginPrintReadme h pkg)) ;;;
   printPackageUpdateMessage h install pkgs)
    (mkWorld added (addNew declared pkgs) (S (writes w)) (scriptFiles w)
       (trace w ++ [WroteConfig (addNew declared pkgs); ApplyOptions]
          ++ syncEvents h install added)).
Proof.
  unfold Add.
  rewrite (bind_ok _ _ w w (cfg w)) by reflexivity.
  erewrite bind_ok; cycle 1.
  { rewrite validate_loop, find_none_Forall; [reflexivity|].
    eapply Forall_impl; [exact valid|]. intros x Hx. simpl. now rewrite Hx. }
  erewrite bind_ok by apply append_loop.
  fold declared. fold added.
  erewrite bind_ok; cycle 1.
  { unfold saveCfg. simpl. rewrite saved. reflexivity. }
  erewrite bind_ok by reflexivity.
  erewrite bind_ok; cycle 1.
  { unfold try. rewrite ensure_run. simpl. rewrite synced. reflexivity. }
  cbv iota. unfold addEvents, addEvent. simpl.
  rewrite <- !app_assoc. reflexivity.
Qed.

Lemma readsCfg_Add_tail :
  readsCfg
    (forEach pkgs (fun pkg =>
       emit (PrintReadme pkg) ;;; check (pluginPrintReadme h pkg)) ;;;
     printPackageUpdateMessage h install pkgs).
Proof.
  apply readsCfg_bind.
  - apply readsCfg_forEach. intros pkg. reads_cfg.
  - intros _. apply readsCfg_printPackageUpdateMessage.
Qed.
End AddSucceeds.

(** X1.  Add checks every package before it touches anything: when a
    package is not known to the resolver, Add returns the not-found error
    for the first such package and the world is as it was (nothing is
    declared, written or synced), whatever follows in the list. *)
Theorem Add_unknown_package
    (h : Host) (known : list string) (pkg : string) (rest : list string)
    (w : World) :
  Forall (fun p => PkgExists h (Commit (cfg w)) p = true) known ->
  PkgExists h (Commit (cfg w)) pkg = false ->
  Add h (known ++ pkg :: rest) w = (w, Err (ErrPackageNotFound pkg)).
Proof.
  intros Hknown Hpkg. unfold Add.
  rewrite (bind_ok _ _ w w (cfg w)) by reflexivity.
  erewrite bind_err; [reflexivity|].
  rewrite validate_loop. f_equal.
  induction Hknown as [|p known Hp _ IH]; simpl.
  - now rewrite Hpkg.
  - rewrite Hp. simpl. exact IH.
Qed.

Lemma Add_unknown_package_witness :
  let h := knowing (fun pkg => negb (String.eqb pkg "nope"))
             (hostWith true [] noWriteErr noInstallErr noRemoveErr ∅ ∅) in
  Add h ["go"; "nope"; "also-nope"] (projectWith ["x"]) =
    (projectWith ["x"], Err (ErrPackageNotFound "nope")).
Proof.
  intros h.
  apply (Add_unknown_package h ["go"] "nope" ["also-nope"] (projectWith ["x"])).
  - repeat constructor.
  - reflexivity.
Defined.

(** X2.  When the write of devbox.json fails after the packages were
    appended, Add returns that error at once: devbox.json is as it was and
    nothing is synced or printed, but the configuration in memory keeps
    the appended packages. *)
Theorem Add_write_failure
    (h : Host) (pkgs : list string) (w : World) (e : error) :
  Forall (fun pkg => PkgExists h (Commit (cfg w)) pkg = true) pkgs ->
  writeFileErr h (writes w)
    (withRawPackages (cfg w) (addNew (RawPackages (cfg w)) pkgs)) = Some e ->
  snd (Add h pkgs w) = Err e /\
  persisted (fst (Add h pkgs w)) = persisted w /\
  trace (fst (Add h pkgs w)) = trace w /\
  RawPackages (cfg (fst (Add h pkgs w))) = addNew (RawPackages (cfg w)) pkgs.
Proof.
  intros Hvalid Hwrite. unfold Add.
  rewrite (bind_ok _ _ w w (cfg w)) by reflexivity.
  erewrite bind_ok; cycle 1.
  { rewrite validate_loop, find_none_Forall; [reflexivity|].
    eapply Forall_impl; [exact Hvalid|]. intros x Hx. simpl. now rewrite Hx. }
  erewrite bind_ok by apply append_loop.
  erewrite bind_err; cycle 1.
  { unfold saveCfg. simpl. rewrite Hwrite. reflexivity. }
  simpl. repeat split.
Qed.

Lemma Add_write_failure_witness :
  let h := hostWith true []
             (fun _ _ => Some (ErrCollaborator "devbox.json: read-only"))
             noInstallErr noRemoveErr ∅ ∅ in
  let w := projectWith ["x"] in
  snd (Add h ["y"] w) = Err (ErrCollaborator "devbox.json: read-only") /\
  persisted (fst (Add h ["y"] w)) = ["x"] /\
  trace (fst (Add h ["y"] w)) = [] /\
  RawPackages (cfg (fst (Add h ["y"] w))) = ["x"; "y"].
Proof.
  intros h w.
  apply (Add_write_failure h ["y"] w
           (ErrCollaborator "devbox.json: read-only")).
  - repeat constructor.
  - reflexivity.
Defined.

(** X3.  When the packages are known, devbox.json is written and the
    profile syncs, the intent after Add, in memory and in devbox.json, is
    the old intent followed by new packages: the old intent is a prefix of
    it, it holds exactly the old and the asked packages, it has no
    duplicate if the old intent had none, and it is the old intent when
    every asked package was already declared.  This holds whatever the
    readme and the message printed afterwards do. *)
Theorem Add_success_intent
    (h : Host) (pkgs : list string) (w : World) :
  Forall (fun pkg => PkgExists h (Commit (cfg w)) pkg = true) pkgs ->
  writeFileErr h (writes w)
    (withRawPackages (cfg w) (addNew (RawPackages (cfg w)) pkgs)) = None ->
  syncError h install
    (withRawPackages (cfg w) (addNew (RawPackages (cfg w)) pkgs)) = None ->
  let declared := RawPackages (cfg w) in
  let intent := persisted (fst (Add h pkgs w)) in
  RawPackages (cfg (fst (Add h pkgs w))) = intent /\
  (exists more, intent = declared ++ more) /\
  (forall pkg, pkg ∈ intent <-> pkg ∈ declared \/ pkg ∈ pkgs) /\
  (NoDup declared -> NoDup intent) /\
  (Forall (fun pkg => pkg ∈ declared) pkgs -> intent = declared).
Proof.
  intros Hvalid Hsaved Hsynced declared intent.
  assert (Hintent : intent = addNew declared pkgs /\
                    RawPackages (cfg (fst (Add h pkgs w))) = addNew declared pkgs).
  { unfold intent.
    rewrite (Add_sync_success h pkgs w Hvalid Hsaved Hsynced).
    rewrite (readsCfg_run _ _ (readsCfg_Add_tail h pkgs)). simpl.
    split; reflexivity. }
  destruct Hintent as [-> Hmem].
  split; [exact Hmem|].
  split; [apply addNew_prefix|].
  split; [intros pkg; apply addNew_elem|].
  split; [apply addNew_NoDup|apply addNew_declared].
Qed.

Lemma Add_success_intent_witness :
  let h := hostWith true [] noWriteErr noInstallErr noRemoveErr ∅ ∅ in
  let w := projectWith ["x"; "y"] in
  RawPackages (cfg (fst (Add h ["y"; "z"; "z"] w))) =
    persisted (fst (Add h ["y"; "z"; "z"] w)) /\
  persisted (fst (Add h ["y"; "z"; "z"] w)) = ["x"; "y"; "z"] /\
  NoDup (persisted (fst (Add h ["y"; "z"; "z"] w))).
Proof.
  intros h w.
  destruct (Add_success_intent h ["y"; "z"; "z"] w)
    as (Hmem & _ & _ & Hnd & _).
  - repeat constructor.
  - reflexivity.
  - vm_compute. reflexivity.
  - split; [exact Hmem|]. split; [vm_compute; reflexivity|].
    apply Hnd. vm_compute.
    repeat (constructor; [intros Hin; repeat (apply elem_of_cons in Hin as [Hin|Hin]; [discriminate|]); now apply elem_of_nil in Hin|]).
    constructor.
Defined.

Lemma Contains_false (l : list string) (x : string) :
  Contains l x = false <-> x ∉ l.
Proof.
  rewrite <- Contains_spec. destruct (Contains l x); split; intros H;
    try reflexivity; try discriminate; try congruence.
Qed.



Lemma filter_sublist {A} (f : A -> bool) (l : list A) :
  sublist (List.filter f l) l.
Proof.
  induction l as [|x l IH]; simpl; [constructor|].
  destruct (f x); [now apply sublist_skip|now apply sublist_cons].
Qed.

Lemma Intersect_elem declared pkgs pkg :
  pkg ∈ Intersect declared pkgs <-> pkg ∈ pkgs /\ pkg ∈ declared.
Proof.
  unfold Intersect.
  rewrite list_elem_of_In, filter_In, <- list_elem_of_In.
  now rewrite Contains_spec.
Qed.


Section RemoveSucceeds.
Variables (h : Host) (pkgs : list string) (w : World).

Let declared := RawPackages (cfg w).
Let uninstalled := Intersect declared pkgs.
Let remaining := fst (Difference declared pkgs).
Let missing := snd (Difference declared pkgs).
Let removed := withRawPackages (cfg w) remaining.

Hypothesis saved : writeFileErr h (writes w) removed = None.
Hypothesis pluginsRemoved : pluginRemove h uninstalled = None.
Hypothesis profileRemoved : removePackagesFromProfile h uninstalled = None.
Hypothesis synced : syncError h uninstall removed = None.

(** What is left of Remove after a sync that succeeds. *)
Lemma Remove_sync_success :
  Remove h pkgs w =
  printPackageUpdateMessage h uninstall uninstalled
    (mkWorld removed remaining (S (writes w)) (scriptFiles w)
       (trace w
          ++ (if Nat.ltb 0 (List.length missing)
              then [Warning
                ("the following packages were not found in your devbox.json: "
                 +:+ Join missing ", " +:+ nl)]
              else [])
          ++ [WroteConfig remaining; PluginRemove uninstalled;
              RemovePackagesFromProfile uninstalled]
          ++ syncEvents h uninstall removed)).
Proof.
  unfold Remove.
  rewrite (bind_ok _ _ w w (cfg w)) by reflexivity.
  unfold Difference. fold declared.
  erewrite bind_ok by reflexivity.
  change (List.filter (fun elem => negb (Contains pkgs elem)) declared)
    with remaining.
  change (List.filter (fun elem => negb (Contains declared elem)) pkgs)
    with missing.
  fold removed.
  destruct (Nat.ltb 0 (List.length missing)).
  - erewrite bind_ok by reflexivity.
    erewrite bind_ok;
      [|unfold saveCfg; simpl; rewrite saved; reflexivity].
    erewrite bind_ok by reflexivity.
    erewrite bind_ok;
      [|fold uninstalled; rewrite pluginsRemoved; reflexivity].
    erewrite bind_ok by reflexivity.
    erewrite bind_ok;
      [|fold uninstalled; rewrite profileRemoved; reflexivity].
    erewrite bind_ok;
      [|rewrite ensure_run; simpl; rewrite synced; reflexivity].
    fold uninstalled. f_equal.
    unfold addEvents, addEvent. simpl. f_equal.
    rewrite <- ?app_assoc. reflexivity.
  - erewrite bind_ok by reflexivity.
    erewrite bind_ok;
      [|unfold saveCfg; simpl; rewrite saved; reflexivity].
    erewrite bind_ok by reflexivity.
    erewrite bind_ok;
      [|fold uninstalled; rewrite pluginsRemoved; reflexivity].
    erewrite bind_ok by reflexivity.
    erewrite bind_ok;
      [|fold uninstalled; rewrite profileRemoved; reflexivity].
    erewrite bind_ok;
      [|rewrite ensure_run; simpl; rewrite synced; reflexivity].
    fold uninstalled. f_equal.
    unfold addEvents, addEvent. simpl. f_equal.
    rewrite <- ?app_assoc. reflexivity.
Qed.
End RemoveSucceeds.

(** X4.  When devbox.json is written, the plugins and the profile are
    cleaned and the profile syncs, outside a devbox shell, Remove
    succeeds; the intent, in memory and in devbox.json, is the old intent
    without the asked packages, in the old order; what is handed to the
    plugins and the profile for removal is what was asked and declared,
    and every asked package that was not declared is in the list of the
    missing ones, which is warned about. *)
Theorem Remove_success
    (h : Host) (pkgs : list string) (w : World) :
  let declared := RawPackages (cfg w) in
  let uninstalled := Intersect declared pkgs in
  let remaining := fst (Difference declared pkgs) in
  let missing := snd (Difference declared pkgs) in
  writeFileErr h (writes w) (withRawPackages (cfg w) remaining) = None ->
  pluginRemove h uninstalled = None ->
  removePackagesFromProfile h uninstalled = None ->
  syncError h uninstall (withRawPackages (cfg w) remaining) = None ->
  IsDevboxShellEnabled h = false ->
  snd (Remove h pkgs w) = Ok tt /\
  RawPackages (cfg (fst (Remove h pkgs w))) = remaining /\
  persisted (fst (Remove h pkgs w)) = remaining /\
  sublist remaining declared /\
  (forall pkg, pkg ∈ remaining <-> pkg ∈ declared /\ pkg ∉ pkgs) /\
  In (PluginRemove uninstalled) (trace (fst (Remove h pkgs w))) /\
  In (RemovePackagesFromProfile uninstalled)
     (trace (fst (Remove h pkgs w))) /\
  (forall pkg, pkg ∈ pkgs ->
     (pkg ∈ declared /\ pkg ∈ uninstalled) \/
     ((pkg ∉ declared) /\ pkg ∈ missing)) /\
  (missing <> [] ->
   In (Warning
         ("the following packages were not found in your devbox.json: "
          +:+ Join missing ", " +:+ nl))
      (trace (fst (Remove h pkgs w)))).
Proof.
  intros declared uninstalled remaining missing Hsaved Hplug Hprof Hsync
         Hout.
  rewrite (Remove_sync_success h pkgs w Hsaved Hplug Hprof Hsync).
  match goal with
  | |- context [printPackageUpdateMessage h uninstall ?u ?w0] =>
      destruct (printPackageUpdateMessage_outside h uninstall u w0 Hout)
        as [msg ->]
  end.
  cbn [fst snd addEvents cfg persisted trace].
  split; [reflexivity|]. split; [reflexivity|]. split; [reflexivity|].
  split; [apply filter_sublist|].
  split; [intros pkg; apply Difference_remaining|].
  fold declared uninstalled missing.
  split.
  { apply in_or_app. left. apply in_or_app. right.
    apply in_or_app. right. simpl. auto. }
  split.
  { apply in_or_app. left. apply in_or_app. right.
    apply in_or_app. right. simpl. auto. }
  split.
  { intros pkg Hpkg. destruct (Contains declared pkg) eqn:Hc.
    - apply Contains_spec in Hc. left. split; [exact Hc|].
      now apply Intersect_elem.
    - apply Contains_false in Hc. right. split; [exact Hc|].
      now apply Difference_missing. }
  intros Hmissing.
  apply in_or_app. left. apply in_or_app. right. apply in_or_app. left.
  destruct missing; [congruence|]. simpl. now left.
Qed.

Lemma Remove_success_witness :
  let h := hostWith true [] noWriteErr noInstallErr noRemoveErr ∅ ∅ in
  let w := projectWith ["x"; "y"; "z"] in
  snd (Remove h ["y"; "q"] w) = Ok tt /\
  persisted (fst (Remove h ["y"; "q"] w)) = ["x"; "z"] /\
  In (PluginRemove ["y"]) (trace (fst (Remove h ["y"; "q"] w))) /\
  In (Warning ("the following packages were not found in your devbox.json: q"
               +:+ nl))
     (trace (fst (Remove h ["y"; "q"] w))).
Proof.
  intros h w.
  destruct (Remove_success h ["y"; "q"] w)
    as (Hres & _ & Hdisk & _ & _ & Hplug & _ & _ & Hwarn).
  - reflexivity.
  - reflexivity.
  - reflexivity.
  - vm_compute. reflexivity.
  - reflexivity.
  - split; [exact Hres|]. split; [exact Hdisk|]. split; [exact Hplug|].
    apply Hwarn. discriminate.
Defined.



(** ** What sessions leave alone *)

Create HintDb keepsIntent.

Lemma keepsIntent_readsCfg {A} (m : M A) : readsCfg m -> keepsIntent m.
Proof. intros Hm w. rewrite (readsCfg_run m w Hm). now simpl. Qed.

Lemma keepsIntent_ret {A} (a : A) : keepsIntent (ret a).
Proof. now intros w. Qed.

Lemma keepsIntent_fail {A} e : keepsIntent (@fail A e).
Proof. now intros w. Qed.

Lemma keepsIntent_emit ev : keepsIntent (emit ev).
Proof. now intros w. Qed.

Lemma keepsIntent_getCfg : keepsIntent getCfg.
Proof. now intros w. Qed.

Lemma keepsIntent_check o : keepsIntent (check o).
Proof. destruct o; now intros w. Qed.

Lemma keepsIntent_lift {A} (r : result A) : keepsIntent (lift r).
Proof. destruct r; now intros w. Qed.

Lemma keepsIntent_bind {A B} (m : M A) (k : A -> M B) :
  keepsIntent m -> (forall a, keepsIntent (k a)) -> keepsIntent (bind m k).
Proof.
  intros Hm Hk w. unfold bind. specialize (Hm w).
  destruct (m w) as [w1 [a|e]]; simpl in Hm.
  - destruct (Hk a w1) as (H1 & H2 & H3). destruct Hm as (H4 & H5 & H6).
    repeat split; congruence.
  - exact Hm.
Qed.

Lemma keepsIntent_try {A} (m : M A) : keepsIntent m -> keepsIntent (try m).
Proof.
  intros Hm w. unfold try. specialize (Hm w). now destruct (m w).
Qed.

Lemma keepsIntent_if {A} (b : bool) (m1 m2 : M A) :
  keepsIntent m1 -> keepsIntent m2 -> keepsIntent (if b then m1 else m2).
Proof. now destruct b. Qed.

Lemma keepsIntent_result {A B} (r : result A) (k1 : A -> M B)
    (k2 : error -> M B) :
  (forall a, keepsIntent (k1 a)) -> (forall e, keepsIntent (k2 e)) ->
  keepsIntent (match r with Ok a => k1 a | Err e => k2 e end).
Proof. now destruct r. Qed.

Lemma keepsIntent_option {A B} (o : option A) (k1 : A -> M B) (k2 : M B) :
  (forall a, keepsIntent (k1 a)) -> keepsIntent k2 ->
  keepsIntent (match o with Some a => k1 a | None => k2 end).
Proof. now destruct o. Qed.

Lemma keepsIntent_forEach {A} (xs : list A) (body : A -> M unit) :
  (forall x, keepsIntent (body x)) -> keepsIntent (forEach xs body).
Proof.
  intros Hbody. induction xs as [|x xs IH]; simpl.
  - apply keepsIntent_ret.
  - apply keepsIntent_bind; [apply Hbody|intros _; exact IH].
Qed.

Lemma keepsIntent_writeScriptFile h name body :
  keepsIntent (writeScriptFile h name body).
Proof.
  intros w. unfold writeScriptFile.
  destruct (scriptEntry h (scriptFilename name) ≫= _) as [[b p|]|];
    destruct (createErr h (scriptFilename name));
    destruct (chmodErr h (scriptFilename name));
    destruct (writeStringErr h (scriptFilename name));
    destruct (closeErr h (scriptFilename name)); now simpl.
Qed.

Lemma keepsIntent_removeFile h name : keepsIntent (removeFile h name).
Proof. intros w. unfold removeFile. now destruct (removeErr h name). Qed.

Lemma keepsIntent_readDir : keepsIntent readDir.
Proof. now intros w. Qed.

#[export] Hint Resolve keepsIntent_ret keepsIntent_fail keepsIntent_emit
  keepsIntent_getCfg keepsIntent_check keepsIntent_lift keepsIntent_try
  keepsIntent_if keepsIntent_writeScriptFile keepsIntent_removeFile
  keepsIntent_readDir : keepsIntent.

Ltac keeps_intent :=
  repeat first
    [ solve [auto with keepsIntent]
    | apply keepsIntent_bind; [|intros ?]
    | apply keepsIntent_result; intros ?
    | apply keepsIntent_option; [intros ?|]
    | apply keepsIntent_if
    | apply keepsIntent_try
    | match goal with
      | |- keepsIntent (match ?o with _ => _ end) => destruct o
      end ].

Lemma keepsIntent_writeScripts h scripts (written : gset string) :
  keepsIntent (writeScripts h scripts written).
Proof.
  unfold writeScripts.
  apply (map_fold_weak_ind
           (fun (acc : M (gset string)) (_ : gmap string string) =>
              keepsIntent acc)).
  - apply keepsIntent_ret.
  - intros name body m acc _ IH. keeps_intent.
Qed.

Lemma keepsIntent_pruneScripts h entries (written : gset string) :
  keepsIntent (pruneScripts h entries written).
Proof.
  unfold pruneScripts. apply keepsIntent_forEach. intros entry.
  keeps_intent.
Qed.

Lemma keepsIntent_writeScriptsToFiles h :
  keepsIntent (writeScriptsToFiles h).
Proof.
  unfold writeScriptsToFiles.
  pose proof (keepsIntent_writeScripts h) as Hw.
  pose proof (keepsIntent_pruneScripts h) as Hp.
  keeps_intent.
Qed.

Lemma keepsIntent_ensure h mode :
  keepsIntent (ensurePackagesAreInstalled h mode).
Proof. apply keepsIntent_readsCfg, readsCfg_ensure. Qed.

Lemma keepsIntent_computeNixEnv h : keepsIntent (computeNixEnv h).
Proof. apply keepsIntent_readsCfg, readsCfg_computeNixEnv. Qed.

Lemma keepsIntent_Shell h : keepsIntent (Shell h).
Proof.
  unfold Shell.
  pose proof (keepsIntent_ensure h) as He.
  pose proof (keepsIntent_computeNixEnv h) as Hc.
  keeps_intent.
Qed.

Lemma keepsIntent_RunScriptInNewNixShell h name :
  keepsIntent (RunScriptInNewNixShell h name).
Proof.
  unfold RunScriptInNewNixShell.
  pose proof (keepsIntent_ensure h) as He.
  keeps_intent.
Qed.

Lemma keepsIntent_RunScript h name args :
  keepsIntent (RunScript h name args).
Proof.
  unfold RunScript.
  pose proof (keepsIntent_ensure h) as He.
  pose proof (keepsIntent_computeNixEnv h) as Hc.
  pose proof (keepsIntent_writeScriptsToFiles h) as Hw.
  pose proof (keepsIntent_RunScriptInNewNixShell h) as Hn.
  keeps_intent.
Qed.

Lemma keepsIntent_ExecWithShell h cmds : keepsIntent (ExecWithShell h cmds).
Proof.
  unfold ExecWithShell.
  pose proof (keepsIntent_ensure h) as He.
  keeps_intent.
Qed.

Lemma keepsIntent_Exec h cmds : keepsIntent (Exec h cmds).
Proof.
  unfold Exec.
  apply keepsIntent_if; [apply keepsIntent_ExecWithShell|].
  destruct cmds; [apply keepsIntent_fail|apply keepsIntent_RunScript].
Qed.

Lemma keepsIntent_PrintEnv h : keepsIntent (PrintEnv h).
Proof.
  unfold PrintEnv.
  pose proof (keepsIntent_computeNixEnv h) as Hc.
  keeps_intent.
Qed.

(** X6.  Starting a shell, running a script or a command, printing the
    environment and syncing the profile never change the declared intent:
    after [devbox shell], with any arguments and flags, and after Shell,
    RunScript, Exec and ensurePackagesAreInstalled, whether they succeed
    or fail, the configuration in memory and devbox.json are what they
    were and devbox.json has not been written. *)
Theorem sessions_keep_intent (h : Host) :
  (forall args lenAtDash printEnvFlag,
     keepsIntent (runShellCmd h args lenAtDash printEnvFlag)) /\
  keepsIntent (Shell h) /\
  (forall cmdName cmdArgs, keepsIntent (RunScript h cmdName cmdArgs)) /\
  (forall cmds, keepsIntent (Exec h cmds)) /\
  keepsIntent (PrintEnv h) /\
  (forall mode, keepsIntent (ensurePackagesAreInstalled h mode)).
Proof.
  split.
  { intros args lenAtDash printEnvFlag. unfold runShellCmd.
    pose proof (keepsIntent_PrintEnv h) as Hp.
    pose proof (keepsIntent_Exec h) as He.
    pose proof (keepsIntent_Shell h) as Hs.
    keeps_intent. }
  split; [apply keepsIntent_Shell|].
  split; [apply keepsIntent_RunScript|].
  split; [apply keepsIntent_Exec|].
  split; [apply keepsIntent_PrintEnv|apply keepsIntent_ensure].
Qed.

(** ** More on the composition *)

Lemma Cut_None (kv : string) :
  Cut kv = None <-> indexByte "="%char kv = None.
Proof.
  induction kv as [|c kv IH]; simpl; [tauto|].
  destruct (Ascii.eqb c "="%char); [split; discriminate|].
  destruct (Cut kv) as [[before after]|], (indexByte "="%char kv);
    simpl; split; intros H; try discriminate; try reflexivity.
  - destruct IH as [_ IH]. discriminate IH. reflexivity.
  - destruct IH as [IH _]. discriminate IH. reflexivity.
Qed.

Lemma copyCurrentEnv_malformed (good : list string) (bad : string)
    (rest : list string) : forall env,
  Forall (fun kv => indexByte "="%char kv <> None) good ->
  indexByte "="%char bad = None ->
  copyCurrentEnv (good ++ bad :: rest) env = Err (ErrKeyval bad).
Proof.
  induction good as [|kv good IH]; intros env Hgood Hbad; simpl.
  - apply Cut_None in Hbad. now rewrite Hbad.
  - inversion Hgood as [|? ? Hkv Hgood']; subst.
    destruct (Cut kv) as [[key val]|] eqn:Hcut.
    + destruct (ignoreCurrentEnvVar key); now apply IH.
    + apply Cut_None in Hcut. congruence.
Qed.

(** X7.  When an entry of the process environment has no "=", and the
    entries before it have one, the composition fails with the error that
    names this entry, before nix or a plugin is asked: the world is as it
    was and no mapping is returned. *)
Theorem computeNixEnv_malformed_entry
    (h : Host) (w : World) (good : list string) (bad : string)
    (rest : list string) :
  environ h = good ++ bad :: rest ->
  Forall (fun kv => indexByte "="%char kv <> None) good ->
  indexByte "="%char bad = None ->
  computeNixEnv h w = (w, Err (ErrKeyval bad)).
Proof.
  intros Henv Hgood Hbad. unfold computeNixEnv.
  erewrite bind_err; [reflexivity|].
  rewrite Henv, copyCurrentEnv_malformed by assumption. reflexivity.
Qed.

Lemma computeNixEnv_malformed_entry_witness :
  let h := hostWith true ["A=1"; "BROKEN"; "B=2"; "WORSE"]
             noWriteErr noInstallErr noRemoveErr ∅ ∅ in
  computeNixEnv h (projectWith []) =
    (projectWith [], Err (ErrKeyval "BROKEN")).
Proof.
  intros h.
  apply (computeNixEnv_malformed_entry h (projectWith [])
           ["A=1"] "BROKEN" ["B=2"; "WORSE"]).
  - reflexivity.
  - repeat constructor. discriminate.
  - reflexivity.
Defined.

Lemma copyCurrentEnv_ignored (currentEnv : list string) (key : string) :
  forall env env',
    copyCurrentEnv currentEnv env = Ok env' ->
    ignoreCurrentEnvVar key = true ->
    env' !! key = env !! key.
Proof.
  induction currentEnv as [|kv currentEnv IH]; intros env env' Hrun Hig;
    simpl in Hrun.
  - now injection Hrun as <-.
  - destruct (Cut kv) as [[k v]|]; [|discriminate].
    destruct (ignoreCurrentEnvVar k) eqn:Hk.
    + now apply IH.
    + rewrite (IH _ _ Hrun Hig). apply lookup_insert_ne. congruence.
Qed.

Lemma devEnvStep_Ok key val acc env' :
  devEnvStep key val acc = Ok env' ->
  exists env, acc = Ok env /\
    (env' = env \/ exists s, env' = <[key:=s]> env).
Proof.
  unfold devEnvStep. destruct acc as [env|e]; [|discriminate].
  intros Hstep. exists env. split; [reflexivity|].
  destruct (negb (String.eqb (Type_ val) "exported")).
  { injection Hstep as <-. now left. }
  destruct (String.eqb key "SSL_CERT_FILE").
  - destruct (assertString (Value val)) as [s|e]; [|discriminate].
    destruct (String.eqb s "/no-cert-file.crt").
    + injection Hstep as <-. now left.
    + destruct (ignoreDevEnvVar key).
      * injection Hstep as <-. now left.
      * injection Hstep as <-. right. now exists s.
  - destruct (ignoreDevEnvVar key).
    + injection Hstep as <-. now left.
    + destruct (assertString (Value val)) as [s|e]; [|discriminate].
      injection Hstep as <-. right. now exists s.
Qed.

Lemma mergeDevEnv_absent (vars : gmap string variable)
    (env : gmap string string) (key : string) :
  forall env',
    mergeDevEnv vars env = Ok env' ->
    vars !! key = None ->
    env' !! key = env !! key.
Proof.
  unfold mergeDevEnv.
  apply (map_fold_weak_ind
           (fun acc (m : gmap string variable) =>
              forall env', acc = Ok env' -> m !! key = None ->
                           env' !! key = env !! key)).
  - intros env' [= <-] _. reflexivity.
  - intros k v m acc Hk IH env' Hstep Hkey.
    apply lookup_insert_None in Hkey as [Hkey Hne].
    apply devEnvStep_Ok in Hstep as (env0 & -> & [->|[s ->]]).
    + now apply IH.
    + rewrite lookup_insert_ne by exact Hne. now apply IH.
Qed.

(** X8.  When the layers of a composition succeed, a variable of a plugin
    that devbox.json does not declare has the plugin's value in the
    result, whatever nix print-dev-env and the process environment hold
    for it; but for PATH, which is recomputed from the three directories
    lists whatever the plugins and devbox.json say. *)
Theorem computeNixEnv_plugin_precedence
    (h : Host) (w : World) (env1 env2 plug : gmap string string)
    (vars : gmap string variable) :
  copyCurrentEnv (environ h) ∅ = Ok env1 ->
  PrintDevEnv h = Ok vars ->
  mergeDevEnv vars env1 = Ok env2 ->
  pluginEnv h (cfg w) = Ok plug ->
  exists env,
    snd (computeNixEnv h w) = Ok env /\
    (forall key v,
       plug !! key = Some v -> key <> "PATH" ->
       EnvConfig h = false \/ Env (cfg w) !! key = None ->
       env !! key = Some v) /\
    env !! "PATH" =
      Some (JoinPathLists h [pluginVirtenvPath h; at_ env2 "PATH";
                             at_ env1 "PATH"]).
Proof.
  intros Hamb Hprint Hbuilt Hplug.
  rewrite (computeNixEnv_layers h w env1 env2 plug vars) by assumption.
  eexists. split; [reflexivity|]. split; [|apply lookup_insert_eq].
  intros key v Hkey Hne Hcfg.
  rewrite lookup_insert_ne by congruence.
  assert (Hfive : mergeInto plug
                    (<["DEVBOX_SHELL_ENABLED" := "1"]>
                       (<["__ETC_PROFILE_NIX_SOURCED" := "1"]> env2))
                  !! key = Some v).
  { now rewrite lookup_mergeInto, Hkey. }
  destruct (EnvConfig h); [|exact Hfive].
  destruct Hcfg as [Hoff|Hnone]; [discriminate|].
  now rewrite lookup_mergeInto, lookup_configEnvs, Hnone.
Qed.

Lemma computeNixEnv_plugin_precedence_witness :
  let h := hostWith true ["GEM_HOME=/usr/gems"; "PATH=/c"]
             noWriteErr noInstallErr noRemoveErr
             {["GEM_HOME" := mkVariable "exported" (VString "/nix/gems")]}
             {["GEM_HOME" := "/p/.devbox/virtenv/ruby";
               "PATH" := "/plugin/bin"]} in
  exists env,
    snd (computeNixEnv h (projectWith [])) = Ok env /\
    env !! "GEM_HOME" = Some "/p/.devbox/virtenv/ruby" /\
    env !! "PATH" = Some "/a:/c:/c".
Proof.
  intros h.
  destruct (computeNixEnv_plugin_precedence h (projectWith [])
              {["GEM_HOME" := "/usr/gems"; "PATH" := "/c"]}
              {["GEM_HOME" := "/nix/gems"; "PATH" := "/c"]}
              {["GEM_HOME" := "/p/.devbox/virtenv/ruby";
                "PATH" := "/plugin/bin"]}
              {["GEM_HOME" := mkVariable "exported" (VString "/nix/gems")]})
    as (env & Hres & Hplug & Hpath).
  - vm_compute. reflexivity.
  - reflexivity.
  - vm_compute. reflexivity.
  - reflexivity.
  - exists env. split; [exact Hres|]. split.
    + apply Hplug; [vm_compute; reflexivity|discriminate|].
      right. vm_compute. reflexivity.
    + rewrite Hpath. vm_compute. reflexivity.
Defined.

(** X9.  When the layers of a composition succeed, a variable that
    ignoreCurrentEnvVar lists (PWD, OLDPWD, SHLVL, SHELL) never comes from
    the process environment: it is absent from the result unless nix
    print-dev-env, a plugin or devbox.json has it. *)
Theorem computeNixEnv_ignored_ambient
    (h : Host) (w : World) (env1 env2 plug : gmap string string)
    (vars : gmap string variable) (key : string) :
  copyCurrentEnv (environ h) ∅ = Ok env1 ->
  PrintDevEnv h = Ok vars ->
  mergeDevEnv vars env1 = Ok env2 ->
  pluginEnv h (cfg w) = Ok plug ->
  ignoreCurrentEnvVar key = true ->
  vars !! key = None ->
  plug !! key = None ->
  EnvConfig h = false \/ Env (cfg w) !! key = None ->
  exists env,
    snd (computeNixEnv h w) = Ok env /\ env !! key = None.
Proof.
  intros Hamb Hprint Hbuilt Hplug Hig Hvars Hnoplug Hcfg.
  rewrite (computeNixEnv_layers h w env1 env2 plug vars) by assumption.
  eexists. split; [reflexivity|].
  assert (Hkey : key <> "PATH" /\ key <> "DEVBOX_SHELL_ENABLED"
                 /\ key <> "__ETC_PROFILE_NIX_SOURCED").
  { repeat split; intros ->; discriminate. }
  destruct Hkey as (H1 & H2 & H3).
  rewrite lookup_insert_ne by congruence.
  assert (Hfive : mergeInto plug
                    (<["DEVBOX_SHELL_ENABLED" := "1"]>
                       (<["__ETC_PROFILE_NIX_SOURCED" := "1"]> env2))
                  !! key = None).
  { rewrite lookup_mergeInto, Hnoplug.
    rewrite !lookup_insert_ne by congruence.
    rewrite (mergeDevEnv_absent vars env1 key env2 Hbuilt Hvars).
    rewrite (copyCurrentEnv_ignored _ key _ _ Hamb Hig).
    apply lookup_empty. }
  destruct (EnvConfig h); [|exact Hfive].
  destruct Hcfg as [Hoff|Hnone]; [discriminate|].
  now rewrite lookup_mergeInto, lookup_configEnvs, Hnone.
Qed.

Lemma computeNixEnv_ignored_ambient_witness :
  let h := hostWith true ["SHELL=/bin/zsh"; "EDITOR=vi"]
             noWriteErr noInstallErr noRemoveErr ∅ ∅ in
  exists env,
    snd (computeNixEnv h (projectWith [])) = Ok env /\
    env !! "SHELL" = None.
Proof.
  intros h.
  apply (computeNixEnv_ignored_ambient h (projectWith [])
           {["EDITOR" := "vi"]} {["EDITOR" := "vi"]} ∅ ∅ "SHELL").
  - vm_compute. reflexivity.
  - reflexivity.
  - vm_compute. reflexivity.
  - reflexivity.
  - reflexivity.
  - reflexivity.
  - reflexivity.
  - right. reflexivity.
Defined.

(** ** More on the shell command *)

Lemma LookupEnv_entries (l : list (string * string)) (key : string) :
  Forall (fun kv => indexByte "="%char (fst kv) = None) l ->
  LookupEnv (envEntry <$> l) key = (list_to_map l : gmap string string) !! key.
Proof.
  induction 1 as [|[k v] l Hk _ IH]; simpl; [now rewrite lookup_empty|].
  simpl in Hk. unfold envEntry at 1. simpl.
  rewrite Cut_envEntry by exact Hk.
  destruct (String.eqb_spec k key) as [->|Hne].
  - now rewrite lookup_insert_eq.
  - now rewrite lookup_insert_ne.
Qed.

(** X10.  When the layers of a composition succeed and neither a plugin
    nor devbox.json sets DEVBOX_SHELL_ENABLED, the result sets it to "1";
    a process that gets the result as its environment is inside a devbox
    shell for devbox: there, devbox shell, with or without a command,
    returns the shell inception error and does nothing. *)
Theorem composed_environment_blocks_nested_shell
    (h : Host) (w : World) (env1 env2 plug : gmap string string)
    (vars : gmap string variable) :
  copyCurrentEnv (environ h) ∅ = Ok env1 ->
  PrintDevEnv h = Ok vars ->
  mergeDevEnv vars env1 = Ok env2 ->
  pluginEnv h (cfg w) = Ok plug ->
  plug !! "DEVBOX_SHELL_ENABLED" = None ->
  EnvConfig h = false \/ Env (cfg w) !! "DEVBOX_SHELL_ENABLED" = None ->
  exists env,
    snd (computeNixEnv h w) = Ok env /\
    env !! "DEVBOX_SHELL_ENABLED" = Some "1" /\
    forall (child : Host) (l : list (string * string)),
      l ≡ₚ map_to_list env ->
      Forall (fun kv => indexByte "="%char (fst kv) = None) l ->
      environ child = envEntry <$> l ->
      IsDevboxShellEnabled child = true /\
      forall args lenAtDash path cmds w',
        parseShellArgs child args lenAtDash = Ok (path, cmds) ->
        openErr child path = None ->
        runShellCmd child args lenAtDash false w' =
        (w', Err (ErrShellInception "devbox shell")).
Proof.
  intros Hamb Hprint Hbuilt Hplug Hnoplug Hcfg.
  rewrite (computeNixEnv_layers h w env1 env2 plug vars) by assumption.
  eexists. split; [reflexivity|].
  match goal with
  | |- ?e !! _ = _ /\ _ =>
      set (env := e);
      assert (Hmarker : env !! "DEVBOX_SHELL_ENABLED" = Some "1")
  end.
  { subst env. rewrite lookup_insert_ne by discriminate.
    assert (Hfive : mergeInto plug
                      (<["DEVBOX_SHELL_ENABLED" := "1"]>
                         (<["__ETC_PROFILE_NIX_SOURCED" := "1"]> env2))
                    !! "DEVBOX_SHELL_ENABLED" = Some "1").
    { now rewrite lookup_mergeInto, Hnoplug, lookup_insert_eq. }
    destruct (EnvConfig h); [|exact Hfive].
    destruct Hcfg as [Hoff|Hnone]; [discriminate|].
    now rewrite lookup_mergeInto, lookup_configEnvs, Hnone. }
  split; [exact Hmarker|].
  intros child l Hperm Hkeys Henviron.
  assert (Hin : In (Getenv child "DEVBOX_SHELL_ENABLED") truthy).
  { unfold Getenv. rewrite Henviron, LookupEnv_entries by exact Hkeys.
    assert (Hmap : (list_to_map l : gmap string string) = env).
    { rewrite <- (list_to_map_to_list env).
      apply list_to_map_proper; [|exact Hperm].
      rewrite Hperm. apply NoDup_fst_map_to_list. }
    rewrite Hmap, Hmarker. simpl. now left. }
  split; [now apply IsDevboxShellEnabled_truthy|].
  intros args lenAtDash path cmds w' Hparse Hopen. unfold runShellCmd.
  erewrite bind_ok by (rewrite Hparse; reflexivity).
  erewrite bind_ok by (simpl; rewrite Hopen; reflexivity).
  apply IsDevboxShellEnabled_truthy in Hin. now rewrite Hin.
Qed.

Lemma composed_environment_blocks_nested_shell_witness :
  let h := hostWith true ["HOME=/home/me"]
             noWriteErr noInstallErr noRemoveErr ∅ ∅ in
  exists env,
    snd (computeNixEnv h (projectWith [])) = Ok env /\
    let child := hostWith true (envEntry <$> map_to_list env)
                   noWriteErr noInstallErr noRemoveErr ∅ ∅ in
    runShellCmd child ["echo"; "hi"] 0 false (projectWith []) =
      (projectWith [], Err (ErrShellInception "devbox shell")).
Proof.
  intros h.
  destruct (composed_environment_blocks_nested_shell h (projectWith [])
              {["HOME" := "/home/me"]} {["HOME" := "/home/me"]} ∅ ∅)
    as (env & Hres & _ & Hchild).
  - vm_compute. reflexivity.
  - reflexivity.
  - vm_compute. reflexivity.
  - reflexivity.
  - reflexivity.
  - right. reflexivity.
  - exists env. split; [exact Hres|]. intros child.
    destruct (Hchild child (map_to_list env)) as [_ Hrun].
    + reflexivity.
    + vm_compute in Hres. injection Hres as <-. vm_compute.
      repeat constructor.
    + reflexivity.
    + apply (Hrun ["echo"; "hi"] 0%Z "/p" ["echo"; "hi"]); reflexivity.
Defined.

(** ** Computations that only emit *)

Lemma emitsOnly_ret {A} P (a : A) : emitsOnly P (ret a).
Proof. intros w. exists []. now rewrite addEvents_nil. Qed.

Lemma emitsOnly_fail {A} P e : emitsOnly P (@fail A e).
Proof. intros w. exists []. now rewrite addEvents_nil. Qed.

Lemma emitsOnly_emit (P : Event -> Prop) ev : P ev -> emitsOnly P (emit ev).
Proof. intros Hev w. exists [ev]. split; [reflexivity|now constructor]. Qed.

Lemma emitsOnly_getCfg P : emitsOnly P getCfg.
Proof. intros w. exists []. now rewrite addEvents_nil. Qed.

Lemma emitsOnly_check P o : emitsOnly P (check o).
Proof. destruct o; [apply emitsOnly_fail|apply emitsOnly_ret]. Qed.

Lemma emitsOnly_lift {A} P (r : result A) : emitsOnly P (lift r).
Proof. destruct r; [apply emitsOnly_ret|apply emitsOnly_fail]. Qed.

Lemma emitsOnly_bind {A B} P (m : M A) (k : A -> M B) :
  emitsOnly P m -> (forall a, emitsOnly P (k a)) -> emitsOnly P (bind m k).
Proof.
  intros Hm Hk w. unfold bind. destruct (Hm w) as (evs1 & Hw1 & H1).
  destruct (m w) as [w1 [a|e]]; simpl in Hw1; subst w1.
  - destruct (Hk a (addEvents evs1 w)) as (evs2 & Hw2 & H2).
    exists (evs1 ++ evs2). rewrite Hw2, addEvents_app.
    split; [reflexivity|now apply Forall_app].
  - now exists evs1.
Qed.

Lemma emitsOnly_if {A} P (b : bool) (m1 m2 : M A) :
  emitsOnly P m1 -> emitsOnly P m2 -> emitsOnly P (if b then m1 else m2).
Proof. now destruct b. Qed.

Ltac emits_only :=
  repeat first
    [ assumption
    | apply emitsOnly_ret | apply emitsOnly_fail | apply emitsOnly_getCfg
    | apply emitsOnly_check | apply emitsOnly_lift
    | apply emitsOnly_emit; exact I
    | apply emitsOnly_bind; [|intros ?]
    | apply emitsOnly_if ].

Lemma emitsOnly_computeNixEnv h : emitsOnly printEnvEvent (computeNixEnv h).
Proof. unfold computeNixEnv. emits_only. Qed.

Lemma emitsOnly_PrintEnv h : emitsOnly printEnvEvent (PrintEnv h).
Proof.
  unfold PrintEnv. pose proof (emitsOnly_computeNixEnv h). emits_only.
Qed.

(** X11.  devbox shell --print-env never reaches the inception guard, a
    shell or a command, also inside a devbox shell: whatever the
    arguments and the process environment, it only adds to the trace
    debug logs, the call of nix print-dev-env and the printed exports
    (no sync of the profile, no shell, no script), leaves the world
    otherwise as it was, and never returns the shell inception error once
    the project is opened. *)
Theorem runShellCmd_print_env_only_prints
    (h : Host) (args : list string) (lenAtDash : Z) :
  emitsOnly printEnvEvent (runShellCmd h args lenAtDash true) /\
  forall w path cmds,
    parseShellArgs h args lenAtDash = Ok (path, cmds) ->
    openErr h path = None ->
    snd (runShellCmd h args lenAtDash true w) =
      match snd (PrintEnv h w) with
      | Ok _ => Ok tt
      | Err e => Err e
      end.
Proof.
  split.
  - unfold runShellCmd. pose proof (emitsOnly_PrintEnv h). emits_only.
  - intros w path cmds Hparse Hopen. unfold runShellCmd.
    erewrite bind_ok by (rewrite Hparse; reflexivity).
    erewrite bind_ok by (simpl; rewrite Hopen; reflexivity).
    unfold bind. destruct (PrintEnv h w) as [w1 [script|e]]; reflexivity.
Qed.

(** X12.  devbox shell without a dash, or with a dash and nothing after
    it, outside a devbox shell and without --print-env, is the interactive
    shell: once the arguments before the dash give the project and the
    project is opened, it does what Shell does. *)
Theorem runShellCmd_no_command_is_Shell
    (h : Host) (args : list string) (lenAtDash : Z) (w : World)
    (path : string) :
  (lenAtDash < 0)%Z \/ (Z.of_nat (List.length args) <= lenAtDash)%Z ->
  configPathFromUser h args = Ok path ->
  openErr h path = None ->
  IsDevboxShellEnabled h = false ->
  runShellCmd h args lenAtDash false w = Shell h w.
Proof.
  intros Hdash Hpath Hopen Hout.
  assert (Hparse : parseShellArgs h args lenAtDash = Ok (path, [])).
  { unfold parseShellArgs. destruct (Z.ltb_spec lenAtDash 0) as [Hneg|Hpos].
    - now rewrite Hpath.
    - destruct Hdash as [Hlt|Hge]; [lia|].
      rewrite take_ge, drop_ge by lia. now rewrite Hpath. }
  unfold runShellCmd.
  erewrite bind_ok by (rewrite Hparse; reflexivity).
  erewrite bind_ok by (simpl; rewrite Hopen; reflexivity).
  now rewrite Hout.
Qed.

Lemma runShellCmd_no_command_is_Shell_witness :
  let h := hostWith true [] noWriteErr noInstallErr noRemoveErr ∅ ∅ in
  runShellCmd h ["/p"] 1 false (projectWith []) = Shell h (projectWith []).
Proof.
  intros h.
  apply (runShellCmd_no_command_is_Shell h ["/p"] 1 (projectWith []) "/p").
  - right. simpl. lia.
  - reflexivity.
  - reflexivity.
  - reflexivity.
Defined.

(** ** Running scripts and commands *)

Lemma computeNixEnv_run h w env :
  snd (computeNixEnv h (blankWorld (cfg w))) = Ok env ->
  exists evs, forall w1,
    cfg w1 = cfg w -> computeNixEnv h w1 = (addEvents evs w1, Ok env).
Proof.
  intros Henv. exists (trace (fst (computeNixEnv h (blankWorld (cfg w))))).
  intros w1 Hcfg.
  rewrite (readsCfg_run _ w1 (readsCfg_computeNixEnv h)), Hcfg, Henv.
  reflexivity.
Qed.

Lemma computeNixEnv_blank h w :
  snd (computeNixEnv h w) = snd (computeNixEnv h (blankWorld (cfg w))).
Proof. now rewrite (readsCfg_run _ w (readsCfg_computeNixEnv h)). Qed.

Section RunScriptUnified.
Variables (h : Host) (w : World) (pluginHooks : list string).
Variable env : gmap string string.

Hypothesis unified : UnifiedEnv h = true.
Hypothesis synced : syncError h ensure (cfg w) = None.
Hypothesis mkdir : mkdirAllErr h = None.
Hypothesis readdir : readDirErr h = None.
Hypothesis hooks : pluginInitHooks h (cfg w) = Ok pluginHooks.
Hypothesis canWrite :
  forall name,
    name = hooksFilename \/ is_Some (Scripts (cfg w) !! name) ->
    writable h (scriptFiles w) name.
Hypothesis composed :
  snd (computeNixEnv h (blankWorld (cfg w))) = Ok env.

(** The world when the scripts are written and the environment is
    composed, and what RunScript does from there. *)
Lemma RunScript_prepared cmdName cmdArgs :
  exists evs,
    let ready :=
      addEvents evs
        (setScriptFiles
           (writtenFiles h (cfg w) pluginHooks
            ∪ leftBehind h (scriptFiles w)) w) in
    RunScript h cmdName cmdArgs w =
    match Scripts (cfg w) !! cmdName with
    | Some _ =>
        (emit (NixRunScript
                 (Join (scriptPath h (scriptFilename cmdName) :: cmdArgs) " ")
                 env) ;;;
         check (nixRunScript h
                  (Join (scriptPath h (scriptFilename cmdName) :: cmdArgs) " ")
                  env)) ready
    | None =>
        (writeScriptFile h arbitraryCmdFilename
           (scriptBody h ("eval $DEVBOX_RUN_CMD" +:+ nl)) ;;;
         emit (NixRunScript
                 (Join [scriptPath h (scriptFilename arbitraryCmdFilename)]
                       " ")
                 (<["DEVBOX_RUN_CMD" := Join (cmdName :: cmdArgs) " "]> env))
         ;;;
         check (nixRunScript h
                  (Join [scriptPath h (scriptFilename arbitraryCmdFilename)]
                        " ")
                  (<["DEVBOX_RUN_CMD" := Join (cmdName :: cmdArgs) " "]> env)))
          ready
    end.
Proof.
  destruct (computeNixEnv_run h w env composed) as [evs Hcompose].
  exists (syncEvents h ensure (cfg w)
          ++ pruneLog h (dom (writtenFiles h (cfg w) pluginHooks))
               (List.map (fun e => (fst e, isDir (snd e)))
                         (map_to_list (scriptFiles w)))
          ++ evs).
  intros ready.
  match goal with |- _ = ?rhs => set (todo := rhs) end.
  unfold RunScript. rewrite unified. change (negb true) with false. cbv iota.
  erewrite bind_ok by (rewrite ensure_run, synced; reflexivity).
  erewrite bind_ok; cycle 1.
  { apply (writeScriptsToFiles_run h _ pluginHooks); assumption. }
  erewrite bind_ok; cycle 1.
  { apply Hcompose. reflexivity. }
  erewrite bind_ok by reflexivity.
  cbn [cfg addEvents setScriptFiles scriptFiles].
  subst todo ready. unfold addEvents, setScriptFiles.
  cbn [cfg persisted writes scriptFiles trace].
  rewrite <- !app_assoc.
  destruct (Scripts (cfg w) !! cmdName); reflexivity.
Qed.
End RunScriptUnified.

(** X13.  In the unified environment, when the sync of the packages
    succeeds, the script files can be written as entries of the scripts
    directory (the names of the scripts hold no slash) and the environment
    is composed, running a declared script hands nix the path of the
    script's file, as filepath.Join gives it, followed by the arguments,
    separated by spaces, with the composed environment, and returns what
    nix returns; this is the last thing done.  When nix is called the file
    of the script holds the line that sources the hooks file and then the
    script's body, and is executable; the configuration and devbox.json
    are as before. *)
Theorem RunScript_declared_script
    (h : Host) (w : World) (pluginHooks : list string)
    (env : gmap string string) (name body : string) (args : list string) :
  UnifiedEnv h = true ->
  syncError h ensure (cfg w) = None ->
  mkdirAllErr h = None ->
  readDirErr h = None ->
  pluginInitHooks h (cfg w) = Ok pluginHooks ->
  (forall name,
     name = hooksFilename \/ is_Some (Scripts (cfg w) !! name) ->
     writable h (scriptFiles w) name) ->
  snd (computeNixEnv h w) = Ok env ->
  Scripts (cfg w) !! name = Some body ->
  let cmd := Join (scriptPath h (name +:+ ".sh") :: args) " " in
  let after := fst (RunScript h name args w) in
  snd (RunScript h name args w) =
    match nixRunScript h cmd env with
    | Some e => Err e
    | None => Ok tt
    end /\
  last (trace after) = Some (NixRunScript cmd env) /\
  scriptFiles after !! (name +:+ ".sh") =
    Some (File (". " +:+ scriptPath h ".hooks.sh" +:+ nl +:+ nl +:+ body)
               perm0755) /\
  is_Some (scriptFiles after !! ".hooks.sh") /\
  cfg after = cfg w /\ persisted after = persisted w.
Proof.
  intros Hunified Hsync Hmkdir Hreaddir Hhooks Hwrite Henv Hname cmd after.
  rewrite computeNixEnv_blank in Henv.
  destruct (RunScript_prepared h w pluginHooks env Hunified Hsync Hmkdir
              Hreaddir Hhooks Hwrite Henv name args) as [evs Hrun].
  cbv zeta in Hrun. rewrite Hname in Hrun.
  unfold after. rewrite Hrun. clear Hrun after.
  change (Join (scriptPath h (scriptFilename name) :: args) " ") with cmd.
  erewrite bind_ok by reflexivity.
  unfold check.
  assert (Hfile : (writtenFiles h (cfg w) pluginHooks
                   ∪ leftBehind h (scriptFiles w)) !! scriptFilename name =
                  Some (File (scriptBody h body) perm0755)).
  { apply lookup_union_Some_l. now apply lookup_writtenFiles_script. }
  assert (Hhook : is_Some ((writtenFiles h (cfg w) pluginHooks
                   ∪ leftBehind h (scriptFiles w))
                             !! scriptFilename hooksFilename)).
  { destruct (writtenFiles_is_written h (cfg w) pluginHooks hooksFilename)
      as [b Hb]; [now left|].
    exists (File b perm0755). now apply lookup_union_Some_l. }
  destruct (nixRunScript h cmd env) as [e|];
    (split; [reflexivity|]);
    (split; [cbn [fst trace addEvents]; apply last_snoc|]);
    (split; [exact Hfile|]);
    (split; [exact Hhook|]); split; reflexivity.
Qed.

Lemma RunScript_declared_script_witness :
  let h := hostWith true ["HOME=/home/me"]
             noWriteErr noInstallErr noRemoveErr ∅ ∅ in
  let w := projectWithScripts "export A=1" {["test" := "go test ./..."]} ∅ in
  let after := fst (RunScript h "test" ["-v"] w) in
  snd (RunScript h "test" ["-v"] w) = Ok tt /\
  (exists env,
     last (trace after) =
     Some (NixRunScript "/p/.devbox/gen/scripts/test.sh -v" env)) /\
  scriptFiles after !! "test.sh" =
    Some (File (". /p/.devbox/gen/scripts/.hooks.sh" +:+ nl +:+ nl
                +:+ "go test ./...") perm0755).
Proof.
  intros h w after.
  destruct (RunScript_declared_script h w []
              (match snd (computeNixEnv h w) with
               | Ok env => env
               | Err _ => ∅
               end)
              "test" "go test ./..." ["-v"])
    as (Hres & Hlast & Hfile & _).
  - reflexivity.
  - vm_compute. reflexivity.
  - reflexivity.
  - reflexivity.
  - reflexivity.
  - intros name Hname.
    assert (Hcases : name = ".hooks" \/ name = "test").
    { destruct Hname as [->|[body Hbody]]; [now left|right].
      change (Scripts (cfg w))
        with ({["test" := "go test ./..."]} : gmap string string) in Hbody.
      now apply lookup_singleton_Some in Hbody as [<- _]. }
    destruct Hcases as [-> | ->]; vm_compute; repeat split; discriminate.
  - vm_compute. reflexivity.
  - reflexivity.
  - split; [exact Hres|]. split; [eexists; exact Hlast|exact Hfile].
Defined.



(** X15.  With the unified environment off, RunScript ignores the
    arguments and runs only declared scripts: for a name that is no
    declared script it syncs the packages, announces the shell, and then
    returns the error that no script has this name, without starting a
    shell; the scripts directory is not touched. *)
Theorem RunScript_legacy_unknown_script
    (h : Host) (w : World) (profileDir name : string) (args : list string) :
  UnifiedEnv h = false ->
  syncError h ensure (cfg w) = None ->
  profilePath h = Ok profileDir ->
  Scripts (cfg w) !! name = None ->
  RunScript h name args w =
  (addEvents (syncEvents h ensure (cfg w)
              ++ [Output ("Starting a devbox shell..." +:+ nl)]) w,
   Err (ErrScriptNotFound name)).
Proof.
  intros Hlegacy Hsync Hprofile Hname. unfold RunScript.
  rewrite Hlegacy. change (negb false) with true. cbv iota.
  unfold RunScriptInNewNixShell.
  erewrite bind_ok by (rewrite ensure_run, Hsync; reflexivity).
  erewrite bind_ok by reflexivity.
  erewrite bind_ok by (rewrite Hprofile; reflexivity).
  erewrite bind_ok by reflexivity.
  cbn [cfg addEvents addEvent]. rewrite Hname.
  unfold fail, addEvent, addEvents. cbn [cfg persisted writes scriptFiles trace].
  now rewrite <- app_assoc.
Qed.

Lemma RunScript_legacy_unknown_script_witness :
  let h := hostWith false [] noWriteErr noInstallErr noRemoveErr ∅ ∅ in
  let w := projectWithScripts EmptyString {["test" := "go test"]} ∅ in
  snd (RunScript h "echo" ["hi"] w) = Err (ErrScriptNotFound "echo") /\
  scriptFiles (fst (RunScript h "echo" ["hi"] w)) = ∅.
Proof.
  intros h w.
  rewrite (RunScript_legacy_unknown_script h w
             "/p/.devbox/nix/profile/default" "echo" ["hi"]).
  - split; reflexivity.
  - reflexivity.
  - vm_compute. reflexivity.
  - reflexivity.
  - reflexivity.
Defined.

(** ** When a session starts *)

Lemma tracks_ret {A} P (a : A) : tracks P (ret a).
Proof. intros w. exists []. now rewrite app_nil_r. Qed.

Lemma tracks_fail {A} P e : tracks P (@fail A e).
Proof. intros w. exists []. now rewrite app_nil_r. Qed.

Lemma tracks_emit (P : Event -> Prop) ev : P ev -> tracks P (emit ev).
Proof. intros Hev w. exists [ev]. split; [reflexivity|now constructor]. Qed.

Lemma tracks_getCfg P : tracks P getCfg.
Proof. intros w. exists []. now rewrite app_nil_r. Qed.

Lemma tracks_check P o : tracks P (check o).
Proof. destruct o; [apply tracks_fail|apply tracks_ret]. Qed.

Lemma tracks_lift {A} P (r : result A) : tracks P (lift r).
Proof. destruct r; [apply tracks_ret|apply tracks_fail]. Qed.

Lemma tracks_bind {A B} P (m : M A) (k : A -> M B) :
  tracks P m -> (forall a, tracks P (k a)) -> tracks P (bind m k).
Proof.
  intros Hm Hk w. unfold bind. destruct (Hm w) as (evs1 & Hw1 & H1).
  destruct (m w) as [w1 [a|e]]; simpl in Hw1.
  - destruct (Hk a w1) as (evs2 & Hw2 & H2).
    exists (evs1 ++ evs2). rewrite Hw2, Hw1, app_assoc.
    split; [reflexivity|now apply Forall_app].
  - now exists evs1.
Qed.

Lemma tracks_try {A} P (m : M A) : tracks P m -> tracks P (try m).
Proof.
  intros Hm w. unfold try. specialize (Hm w). now destruct (m w).
Qed.

Lemma tracks_if {A} P (b : bool) (m1 m2 : M A) :
  tracks P m1 -> tracks P m2 -> tracks P (if b then m1 else m2).
Proof. now destruct b. Qed.

Lemma tracks_forEach {A} P (xs : list A) (body : A -> M unit) :
  (forall x, tracks P (body x)) -> tracks P (forEach xs body).
Proof.
  intros Hbody. induction xs as [|x xs IH]; simpl.
  - apply tracks_ret.
  - apply tracks_bind; [apply Hbody|intros _; exact IH].
Qed.

Lemma tracks_writeScriptFile P h name body :
  tracks P (writeScriptFile h name body).
Proof.
  intros w. exists []. rewrite app_nil_r. unfold writeScriptFile.
  destruct (scriptEntry h (scriptFilename name) ≫= _) as [[b p|]|];
    destruct (createErr h (scriptFilename name));
    destruct (chmodErr h (scriptFilename name));
    destruct (writeStringErr h (scriptFilename name));
    destruct (closeErr h (scriptFilename name)); now simpl.
Qed.

Lemma tracks_removeFile P h name : tracks P (removeFile h name).
Proof.
  intros w. exists []. rewrite app_nil_r. unfold removeFile.
  now destruct (removeErr h name).
Qed.

Lemma tracks_readDir P : tracks P readDir.
Proof. intros w. exists []. now rewrite app_nil_r. Qed.

Ltac tracks_quiet :=
  repeat first
    [ solve [auto]
    | apply tracks_ret | apply tracks_fail | apply tracks_getCfg
    | apply tracks_check | apply tracks_lift
    | apply tracks_writeScriptFile | apply tracks_removeFile
    | apply tracks_readDir
    | apply tracks_emit; exact I
    | apply tracks_bind; [|intros ?]
    | apply tracks_try
    | apply tracks_if
    | match goal with
      | |- tracks _ (match ?o with _ => _ end) => destruct o
      end ].

Lemma tracks_writeScripts h scripts (written : gset string) :
  tracks quietEvent (writeScripts h scripts written).
Proof.
  unfold writeScripts.
  apply (map_fold_weak_ind
           (fun (acc : M (gset string)) (_ : gmap string string) =>
              tracks quietEvent acc)).
  - apply tracks_ret.
  - intros name body m acc _ IH. tracks_quiet.
Qed.

Lemma tracks_pruneScripts h entries (written : gset string) :
  tracks quietEvent (pruneScripts h entries written).
Proof.
  unfold pruneScripts. apply tracks_forEach. intros entry. tracks_quiet.
Qed.

Lemma tracks_writeScriptsToFiles h :
  tracks quietEvent (writeScriptsToFiles h).
Proof.
  unfold writeScriptsToFiles.
  pose proof (tracks_writeScripts h) as Hw.
  pose proof (tracks_pruneScripts h) as Hp.
  tracks_quiet.
Qed.

Lemma tracks_installNixProfile h : tracks quietEvent (installNixProfile h).
Proof. unfold installNixProfile. tracks_quiet. Qed.

Lemma tracks_ensure h mode :
  tracks quietEvent (ensurePackagesAreInstalled h mode).
Proof.
  unfold ensurePackagesAreInstalled.
  pose proof (tracks_installNixProfile h) as Hi.
  tracks_quiet.
Qed.

Lemma tracks_computeNixEnv h : tracks quietEvent (computeNixEnv h).
Proof. unfold computeNixEnv. tracks_quiet. Qed.

Lemma sessionLast_fail {A} e : sessionLast (@fail A e).
Proof.
  intros w. exists []. split; [constructor|]. left.
  split; [now rewrite app_nil_r|now exists e].
Qed.

Lemma sessionLast_start (s : Event) (o : option error) :
  startsSession s -> sessionLast (emit s ;;; check o).
Proof.
  intros Hs w. exists []. split; [constructor|]. right. exists s.
  split; [exact Hs|]. unfold bind, emit. now destruct o.
Qed.

Lemma sessionLast_bind {A B} (m : M A) (k : A -> M B) :
  tracks quietEvent m -> (forall a, sessionLast (k a)) ->
  sessionLast (bind m k).
Proof.
  intros Hm Hk w. unfold bind. destruct (Hm w) as (evs & Hw1 & Hquiet).
  destruct (m w) as [w1 [a|e]]; simpl in Hw1.
  - destruct (Hk a w1) as (pre & Hpre & Hcases).
    exists (evs ++ pre). split; [now apply Forall_app|].
    destruct Hcases as [[Htrace Herr]|(s & Hs & Htrace)].
    + left. split; [|exact Herr]. now rewrite Htrace, Hw1, app_assoc.
    + right. exists s. split; [exact Hs|].
      now rewrite Htrace, Hw1, <- !app_assoc.
  - exists evs. split; [exact Hquiet|]. left. split; [exact Hw1|].
    now exists e.
Qed.

Lemma sessionLast_if {A} (b : bool) (m1 m2 : M A) :
  sessionLast m1 -> sessionLast m2 -> sessionLast (if b then m1 else m2).
Proof. now destruct b. Qed.

Ltac session_last :=
  repeat first
    [ solve [auto]
    | apply sessionLast_fail
    | apply sessionLast_start; exact I
    | apply sessionLast_bind; [solve [tracks_quiet]|intros ?]
    | apply sessionLast_if
    | match goal with
      | |- sessionLast (match ?o with _ => _ end) => destruct o
      end ].

Lemma sessionLast_Shell h : sessionLast (Shell h).
Proof.
  unfold Shell.
  pose proof (tracks_ensure h) as He.
  pose proof (tracks_computeNixEnv h) as Hc.
  session_last.
Qed.

Lemma sessionLast_RunScriptInNewNixShell h name :
  sessionLast (RunScriptInNewNixShell h name).
Proof.
  unfold RunScriptInNewNixShell. pose proof (tracks_ensure h) as He.
  session_last.
Qed.

Lemma sessionLast_RunScript h name args :
  sessionLast (RunScript h name args).
Proof.
  unfold RunScript.
  pose proof (tracks_ensure h) as He.
  pose proof (tracks_computeNixEnv h) as Hc.
  pose proof (tracks_writeScriptsToFiles h) as Hw.
  pose proof (sessionLast_RunScriptInNewNixShell h name) as Hn.
  session_last.
Qed.

Lemma sessionLast_RunScriptInShell h name :
  sessionLast (RunScriptInShell h name).
Proof. unfold RunScriptInShell. session_last. Qed.

Lemma sessionLast_ExecWithShell h cmds : sessionLast (ExecWithShell h cmds).
Proof.
  unfold ExecWithShell. pose proof (tracks_ensure h) as He. session_last.
Qed.

Lemma sessionLast_Exec h cmds : sessionLast (Exec h cmds).
Proof.
  unfold Exec.
  apply sessionLast_if; [apply sessionLast_ExecWithShell|].
  destruct cmds; [apply sessionLast_fail|apply sessionLast_RunScript].
Qed.

(** X16.  Shell, RunScript, RunScriptInShell, Exec, ExecWithShell and
    devbox shell without --print-env hand control to a shell, a script or
    a command at most once, as the last thing they do: whatever the
    collaborators do, either everything added to the trace is something
    else and the result is an error, or exactly one such event is added,
    at the end.  So a success always comes from the process that was
    started, and a step that fails before it starts none. *)
Theorem sessions_start_last (h : Host) :
  sessionLast (Shell h) /\
  (forall cmdName cmdArgs, sessionLast (RunScript h cmdName cmdArgs)) /\
  (forall scriptName, sessionLast (RunScriptInShell h scriptName)) /\
  (forall cmds, sessionLast (Exec h cmds)) /\
  (forall cmds, sessionLast (ExecWithShell h cmds)) /\
  (forall args lenAtDash, sessionLast (runShellCmd h args lenAtDash false)).
Proof.
  split; [apply sessionLast_Shell|].
  split; [apply sessionLast_RunScript|].
  split; [apply sessionLast_RunScriptInShell|].
  split; [apply sessionLast_Exec|].
  split; [apply sessionLast_ExecWithShell|].
  intros args lenAtDash. unfold runShellCmd.
  apply sessionLast_bind; [tracks_quiet|intros parsed].
  apply sessionLast_bind; [tracks_quiet|intros _].
  cbv iota.
  apply sessionLast_if; [apply sessionLast_fail|].
  apply sessionLast_if; [|apply sessionLast_Shell].
  apply sessionLast_bind; [tracks_quiet|intros _].
  apply sessionLast_Exec.
Qed.

(** ** The command of RunScript as text *)

Lemma bind_cong {A B} (m : M A) (k1 k2 : A -> M B) w :
  (forall a w1, m w = (w1, Ok a) -> k1 a w1 = k2 a w1) ->
  bind m k1 w = bind m k2 w.
Proof. intros Hk. unfold bind. destruct (m w) as [w1 [a|e]]; auto. Qed.

Lemma keepsIntent_cfg {A} (m : M A) w w1 r :
  keepsIntent m -> m w = (w1, r) -> cfg w1 = cfg w.
Proof. intros Hm Hrun. destruct (Hm w) as (Hc & _). now rewrite Hrun in Hc. Qed.

(** X17.  In the unified environment a command that is no declared script
    reaches nix only as the text of DEVBOX_RUN_CMD, its name and
    arguments joined by spaces, so the boundaries between the arguments
    are lost: two commands with the same joined text, neither of them a
    declared script, do the same to the world and return the same, whatever
    the collaborators do. *)
Theorem RunScript_arguments_flattened
    (h : Host) (w : World) (cmd1 cmd2 : string) (args1 args2 : list string) :
  UnifiedEnv h = true ->
  Scripts (cfg w) !! cmd1 = None ->
  Scripts (cfg w) !! cmd2 = None ->
  Join (cmd1 :: args1) " " = Join (cmd2 :: args2) " " ->
  RunScript h cmd1 args1 w = RunScript h cmd2 args2 w.
Proof.
  intros Hunified H1 H2 Hjoin. unfold RunScript. rewrite Hunified.
  change (negb true) with false. cbv iota.
  apply bind_cong. intros [] w1 Hw1.
  apply (keepsIntent_cfg _ _ _ _ (keepsIntent_ensure h ensure)) in Hw1.
  apply bind_cong. intros [] w2 Hw2.
  apply (keepsIntent_cfg _ _ _ _ (keepsIntent_writeScriptsToFiles h)) in Hw2.
  apply bind_cong. intros env w3 Hw3.
  apply (keepsIntent_cfg _ _ _ _ (keepsIntent_computeNixEnv h)) in Hw3.
  apply bind_cong. intros c w4 Hw4. injection Hw4 as <- <-.
  rewrite Hw3, Hw2, Hw1, H1, H2, Hjoin. reflexivity.
Qed.

Lemma RunScript_arguments_flattened_witness :
  let h := hostWith true [] noWriteErr noInstallErr noRemoveErr ∅ ∅ in
  RunScript h "echo" ["a b"] (projectWith []) =
  RunScript h "echo" ["a"; "b"] (projectWith []).
Proof.
  intros h.
  apply (RunScript_arguments_flattened h (projectWith [])
           "echo" "echo" ["a b"] ["a"; "b"]); reflexivity.
Defined.

(** ** The arguments of the shell command *)

(** X18.  When validateShellArgs accepts a command line, parseShellArgs
    splits the arguments in the directories, which it hands to
    configPathFromUser, and the command.  With a dash there is at most one
    directory; without a dash every argument is a directory, however many
    there are, and there is no command. *)
Theorem validateShellArgs_bounds_directories
    (h : Host) (args : list string) (lenAtDash : Z) :
  validateShellArgs lenAtDash = None ->
  exists dirs cmds,
    args = dirs ++ cmds /\
    ((0 <= lenAtDash)%Z -> List.length dirs <= 1) /\
    ((lenAtDash < 0)%Z -> dirs = args /\ cmds = []) /\
    parseShellArgs h args lenAtDash =
      match configPathFromUser h dirs with
      | Err e => Err e
      | Ok path => Ok (path, cmds)
      end.
Proof.
  unfold validateShellArgs, parseShellArgs. intros Hvalid.
  destruct (Z.ltb_spec 1 lenAtDash) as [|Hle]; [discriminate|].
  destruct (Z.ltb_spec lenAtDash 0) as [Hneg|Hpos].
  - exists args, []. rewrite app_nil_r.
    repeat split; try reflexivity. lia.
  - exists (take (Z.to_nat lenAtDash) args), (drop (Z.to_nat lenAtDash) args).
    rewrite take_drop. split; [reflexivity|]. split.
    + intros _. rewrite length_take. lia.
    + split; [lia|reflexivity].
Qed.

Lemma validateShellArgs_bounds_directories_witness :
  let h := hostWith true [] noWriteErr noInstallErr noRemoveErr ∅ ∅ in
  exists dirs cmds,
    ["a"; "b"; "c"] = dirs ++ cmds /\ dirs = ["a"; "b"; "c"] /\
    parseShellArgs h ["a"; "b"; "c"] (-1) =
      match configPathFromUser h dirs with
      | Err e => Err e
      | Ok path => Ok (path, cmds)
      end.
Proof.
  intros h.
  destruct (validateShellArgs_bounds_directories h ["a"; "b"; "c"] (-1))
    as (dirs & cmds & Hsplit & _ & Hall & Hparse).
  - reflexivity.
  - exists dirs, cmds. split; [exact Hsplit|]. split; [|exact Hparse].
    apply Hall. lia.
Defined.

(** ** Generated files *)

Lemma ToLower_y (s : string) : ToLower s = "y" <-> s = "y" \/ s = "Y".
Proof.
  split.
  - destruct s as [|c [|c' s]]; simpl; try discriminate.
    intros [= Hc].
    destruct c as [[] [] [] [] [] [] [] []]; vm_compute in Hc;
      try discriminate; auto.
  - intros [-> | ->]; reflexivity.
Qed.

Lemma ToLower_y_eqb (s : string) :
  String.eqb (ToLower s) "y" = true <-> s = "y" \/ s = "Y".
Proof. rewrite String.eqb_eq. apply ToLower_y. Qed.

(** X19.  GenerateEnvrc writes .envrc exactly when it may (forced, or no
    .envrc yet), direnv is installed, the prompt is answered, and either
    the answer is y or Y or the call comes from the generate command;
    it runs direnv allow exactly when moreover the answer is y or Y and
    .envrc could be written.  Without direnv it does nothing and reports
    no error, also when called from the generate command; unforced, with
    a .envrc present, it does nothing and returns the error that says
    so. *)
Theorem GenerateEnvrc_creates
    (g : GenHost) (force : bool) (source : string) :
  let dir := genProjectDir g in
  let present := fileutilExists g (joinPath g dir ".envrc") in
  let evs := fst (GenerateEnvrc g force source) in
  (In (CreateEnvrc dir) evs <->
   (force = true \/ present = false) /\ direnvExists g = true /\
   exists answer,
     askOne g = Ok answer /\
     (answer = "y" \/ answer = "Y" \/ source = "generate")) /\
  (In DirenvAllow evs <->
   (force = true \/ present = false) /\ direnvExists g = true /\
   exists answer,
     askOne g = Ok answer /\ (answer = "y" \/ answer = "Y") /\
     createEnvrcErr g dir = None) /\
  ((force = true \/ present = false) -> direnvExists g = false ->
   GenerateEnvrc g force source = ([], None)) /\
  (force = false -> present = true ->
   GenerateEnvrc g force source = ([], Some (GenUserErr envrcPresentMsg))).
Proof.
  intros dir present evs. subst evs. unfold GenerateEnvrc.
  fold dir. fold present.
  assert (Hmay : force = true \/ present = false <->
                 force || negb present = true)
    by (destruct force, present; simpl; intuition congruence).
  destruct (force || negb present); cycle 1.
  { assert (Hno : ~ (force = true \/ present = false))
      by (rewrite Hmay; discriminate).
    assert (Hboth : force = false -> present = true -> True) by trivial.
    cbn [fst In]. repeat split; try tauto; intros; tauto. }
  assert (Hyes : force = true \/ present = false) by now apply Hmay.
  assert (Hforced : ~ (force = false /\ present = true))
    by (intros [-> ->]; destruct Hyes; discriminate).
  clear Hmay.
  destruct (direnvExists g).
  2: { cbn [fst In]. repeat split; try tauto; try discriminate;
       intros; try tauto; intuition discriminate. }
  destruct (askOne g) as [answer|e].
  2: { cbn [fst In].
       repeat split; try tauto; try discriminate; intros;
         repeat match goal with
         | H : _ /\ _ |- _ => destruct H
         | H : exists _, _ |- _ => destruct H
         end; try discriminate; try tauto; intuition discriminate. }
  assert (Hanswer : forall P : string -> Prop,
             (exists a, Ok answer = Ok a /\ P a) <-> P answer).
  { intros P. split; [intros (a & [= <-] & Ha); exact Ha|eauto]. }
  rewrite (Hanswer (fun a => a = "y" \/ a = "Y" \/ source = "generate")).
  rewrite (Hanswer (fun a => (a = "y" \/ a = "Y")
                             /\ createEnvrcErr g dir = None)).
  clear Hanswer.
  destruct (String.eqb (ToLower answer) "y") eqn:Hy.
  - apply ToLower_y_eqb in Hy.
    destruct (createEnvrcErr g dir) as [e1|];
      [|destruct (direnvAllowErr g) as [e2|]]; cbn [fst In];
      repeat split; intros; try tauto; try discriminate;
      intuition discriminate.
  - assert (Hn : ~ (answer = "y" \/ answer = "Y"))
      by (rewrite <- ToLower_y_eqb, Hy; discriminate).
    destruct (String.eqb_spec source "generate") as [Hsrc|Hsrc];
      [destruct (createEnvrcErr g dir) as [e1|]|]; cbn [fst In];
      repeat split; intros; try tauto; try discriminate;
      intuition discriminate.
Qed.

(** X20.  GenerateDevcontainer and GenerateDockerfile succeed exactly when
    they may write (forced, or none of their files is there yet) and every
    step succeeds.  A successful GenerateDevcontainer has made the
    directory, then the Dockerfile, then devcontainer.json for the
    declared packages, all in .devcontainer.  Unforced, with one of the
    files present (for the devcontainer: either of the two), they do
    nothing and return the error that says so; a step that fails leaves
    what the steps before it made. *)
Theorem generators_all_or_error (g : GenHost) (c : Config) (force : bool) :
  let dir := joinPath g (genProjectDir g) ".devcontainer/" in
  let json := planFileExists g (joinPath g dir "devcontainer.json") in
  let docker := planFileExists g (joinPath g dir "Dockerfile") in
  let top := planFileExists g (joinPath g (genProjectDir g) "Dockerfile") in
  (snd (GenerateDevcontainer g c force) = None <->
   (force = true \/ (json = false /\ docker = false)) /\
   genMkdirAllErr g dir = None /\ createDockerfileErr g dir = None /\
   createDevcontainerErr g dir c = None) /\
  (snd (GenerateDevcontainer g c force) = None ->
   fst (GenerateDevcontainer g c force) =
   [MkdirAll dir; CreateDockerfile dir;
    CreateDevcontainer dir (RawPackages c)]) /\
  (force = false -> json = true \/ docker = true ->
   GenerateDevcontainer g c force =
   ([], Some (GenUserErr devcontainerPresentMsg))) /\
  (force = true \/ (json = false /\ docker = false) ->
   genMkdirAllErr g dir = None ->
   forall e, createDockerfileErr g dir = Some e ->
     GenerateDevcontainer g c force =
     ([MkdirAll dir; CreateDockerfile dir], Some (GenErr e))) /\
  (snd (GenerateDockerfile g force) = None <->
   (force = true \/ top = false) /\
   createDockerfileErr g (genProjectDir g) = None) /\
  (force = false -> top = true ->
   GenerateDockerfile g force =
   ([], Some (GenUserErr dockerfilePresentMsg))).
Proof.
  intros dir json docker top. unfold GenerateDevcontainer, GenerateDockerfile.
  fold dir. fold json. fold docker. fold top.
  destruct force, json, docker, top; cbn [orb negb];
    destruct (genMkdirAllErr g dir) as [e1|];
    destruct (createDockerfileErr g dir) as [e2|];
    destruct (createDevcontainerErr g dir c) as [e3|];
    destruct (createDockerfileErr g (genProjectDir g)) as [e4|];
    cbn [fst snd];
    repeat split; intros; try discriminate; try tauto; try congruence;
    intuition congruence.
Qed.

